(** * mob-claude: session, plan reconciliation and rotation summaries

    A shallow embedding of the Go sources of mob-claude
    (cmd/mob-claude/main.go and the internal packages api, config, mob,
    plans and summary) together with the properties of the start / next /
    done life cycle.

    Go strings are byte sequences: they are modelled by [string], whose
    elements are 8-bit [ascii] values; [len] is [String.length] and a
    "character" is one byte.  Effects (files, processes, HTTP, the clock,
    standard output) go through a small program monad [Prog] whose
    operations are interpreted against an environment [Env] and a mutable
    [World]. *)

From Stdlib Require Import ZArith Ascii String List Lia Bool.
From stdpp Require Import base option gmap strings list fin_maps.
Import ListNotations.
Local Open Scope list_scope.
Local Open Scope string_scope.

Set Default Proof Using "Type".
#[global] Set Warnings "-register-all".

(** String concatenation computes on a literal first argument. *)
#[global] Arguments String.append !_ _ : simpl nomatch.

(* ===================================================================== *)
(** ** Bytes and the Go [strings] / [fmt] helpers used by the sources     *)
(* ===================================================================== *)

Module GoStrings.

(** Character constants that cannot be written inside a literal. *)
Definition quote : ascii := "034"%char.
Definition backslash : ascii := "092"%char.
Definition newline : ascii := "010"%char.
Definition creturn : ascii := "013"%char.
Definition tab : ascii := "009"%char.

Definition str (c : ascii) : string := String c EmptyString.

(** [len(s)] *)
Definition len (s : string) : Z := Z.of_nat (String.length s).

(** [s[lo:hi]] for [0 <= lo <= hi <= len(s)] *)
Definition slice (s : string) (lo hi : nat) : string := substring lo (hi - lo) s.

(** [strings.HasPrefix(s, p)] *)
Definition HasPrefix (s p : string) : bool := String.prefix p s.

Fixpoint drop (n : nat) (s : string) : string :=
  match n, s with
  | O, _ => s
  | S k, String _ r => drop k r
  | S _, EmptyString => EmptyString
  end.

(** [strings.TrimPrefix(s, p)] *)
Definition TrimPrefix (s p : string) : string :=
  if HasPrefix s p then drop (String.length p) s else s.

(** [strings.HasSuffix(s, p)] *)
Definition HasSuffix (s p : string) : bool :=
  String.prefix (String.rev p) (String.rev s).

(** [strings.TrimSuffix(s, p)] *)
Definition TrimSuffix (s p : string) : string :=
  if HasSuffix s p then substring 0 (String.length s - String.length p) s else s.

(** [strings.ReplaceAll(s, old, new)] for a non-empty [old]: the
    non-overlapping occurrences of [old] are replaced from left to right.
    [skip] counts the bytes of a matched occurrence still to be dropped.
    (Every call in the sources passes a one-byte [old].) *)
Fixpoint replace_from (old new : string) (skip : nat) (s : string) : string :=
  match s with
  | EmptyString => EmptyString
  | String c r =>
      match skip with
      | S k => replace_from old new k r
      | O =>
          if String.prefix old s
          then new ++ replace_from old new (String.length old - 1) r
          else String c (replace_from old new 0 r)
      end
  end.

Definition ReplaceAll (s old new : string) : string :=
  match old with
  | EmptyString => s
  | _ => replace_from old new 0 s
  end.

(** [strings.Index(s, sub)]: byte offset of the first occurrence, or -1 *)
Definition Index (s sub : string) : Z :=
  match String.index 0 sub s with
  | Some n => Z.of_nat n
  | None => (-1)%Z
  end.

(** [strings.Contains(s, sub)] *)
Definition Contains (s sub : string) : bool := (0 <=? Index s sub)%Z.

(** [strings.LastIndex(s, sub)]: byte offset of the last occurrence, or -1.
    [pos] is the offset of the head of [s] in the original string. *)
Fixpoint last_index_from (sub : string) (pos : nat) (s : string) : Z :=
  match s with
  | EmptyString =>
      match sub with EmptyString => Z.of_nat pos | _ => (-1)%Z end
  | String _ r =>
      let later := last_index_from sub (S pos) r in
      if (0 <=? later)%Z then later
      else if String.prefix sub s then Z.of_nat pos else (-1)%Z
  end.

Definition LastIndex (s sub : string) : Z := last_index_from sub 0 s.

(** [strings.Join(elems, sep)] *)
Fixpoint Join (elems : list string) (sep : string) : string :=
  match elems with
  | [] => EmptyString
  | [x] => x
  | x :: rest => x ++ sep ++ Join rest sep
  end.

(** [strings.Split(s, sep)] is not needed by the modelled functions. *)

(** Decimal rendering of an [int], as [fmt.Sprintf("%d", n)] prints it. *)
Definition digit (n : nat) : ascii := ascii_of_nat (48 + n).

Fixpoint dec_digits (fuel : nat) (n : N) (acc : string) : string :=
  match fuel with
  | O => acc
  | S f =>
      let acc' := String (digit (N.to_nat (n mod 10))) acc in
      if (n / 10 =? 0)%N then acc' else dec_digits f (n / 10)%N acc'
  end.

Definition itoa (z : Z) : string :=
  let n := Z.to_N (Z.abs z) in
  let body := dec_digits (S (N.to_nat (N.log2 n))) n EmptyString in
  if (z <? 0)%Z then String "-" body else body.

End GoStrings.

Import GoStrings.

(* ===================================================================== *)
(** ** Go values: errors, results, the data types of the packages         *)
(* ===================================================================== *)

(** A Go [error] value.  [ErrNotExist] is an error for which
    [os.IsNotExist] holds; every other error is kept by its text. *)
Inductive error : Type :=
| ErrNotExist (path : string)
| ErrMsg (msg : string).

Definition Error (e : error) : string :=
  match e with
  | ErrNotExist p => "open " ++ p ++ ": no such file or directory"
  | ErrMsg m => m
  end.

Definition os_IsNotExist (e : error) : bool :=
  match e with ErrNotExist _ => true | ErrMsg _ => false end.

(** [fmt.Errorf(prefix + "%w", err)]; the wrapped error no longer answers
    [os.IsNotExist]. *)
Definition Errorf (prefix : string) (err : error) : error :=
  ErrMsg (prefix ++ Error err).

(** Result of a library call returning [(T, error)]. *)
Inductive result (A : Type) : Type :=
| Ok (a : A)
| Fail (err : error).
Arguments Ok {A} a.
Arguments Fail {A} err.

(** [time.Time], as an instant in Unix nanoseconds. *)
Definition Time : Type := Z.
(** The zero [time.Time] (January 1, year 1, 00:00:00 UTC). *)
Definition zeroTime : Time := (-62135596800 * 1000000000)%Z.

Definition time_RFC3339 : string := "2006-01-02T15:04:05Z07:00".

(** package config *)
Record Config : Type := mkConfig {
  APIURL : string;
  TeamName : string;
  Model : string;
  MaxTurns : Z;
  SkipSummary : bool
}.

Record CurrentSession : Type := mkCurrentSession {
  Branch : string;
  RepoURL : string;
  StartedAt : string;
  DriverName : string;
  WorkstreamID : string
}.

(** package plans *)
Record Summary : Type := mkSummary {
  sTimestamp : Time;
  sDriverName : string;
  sDriverNote : string;
  sTLDR : string;
  sChanges : list string;
  sNextSteps : list string;
  sBranch : string
}.

(** package summary *)
Record GeneratedSummary : Type := mkGeneratedSummary {
  gTLDR : string;
  gChanges : list string;
  gNextSteps : list string
}.

(** package api *)
Record Workstream : Type := mkWorkstream {
  wID : string;
  wTeamID : string;
  wRepoURL : string;
  wBranch : string;
  wPlanText : string;
  wIsActive : bool;
  wCreatedAt : Time;
  wUpdatedAt : Time
}.

Record Rotation : Type := mkRotation {
  rID : string;
  rWorkstreamID : string;
  rDriverName : string;
  rDriverNote : string;
  rSummaryTLDR : string;
  rSummaryJSON : string;
  rPlanSnapshot : string;
  rStartedAt : Time;
  rEndedAt : Time
}.

Record CreateWorkstreamRequest : Type := mkCreateWorkstreamRequest {
  cwRepoURL : string;
  cwBranch : string
}.

Record CreateRotationRequest : Type := mkCreateRotationRequest {
  crDriverName : string;
  crDriverNote : string;
  crSummaryTLDR : string;
  crSummaryJSON : string;
  crPlanSnapshot : string;
  crStartedAt : Time
}.

Record UpdatePlanRequest : Type := mkUpdatePlanRequest {
  upPlanText : string
}.

(** The functions of the Go standard library whose result the sources only
    pass along: JSON encoding and decoding at each type it is used at, time
    formatting and parsing, URL escaping and Unicode-aware trimming.  They
    are an interface here; [RefLib] below gives an instance. *)
Class GoLib : Type := {
  strings_TrimSpace : string -> string;
  time_Format : Time -> string -> string;
  time_Parse : string -> string -> result Time;
  url_PathEscape : string -> string;
  json_Unmarshal_Config : string -> result Config;
  json_MarshalIndent_Config : Config -> result string;
  json_Unmarshal_CurrentSession : string -> result CurrentSession;
  json_MarshalIndent_CurrentSession : CurrentSession -> result string;
  json_Unmarshal_GeneratedSummary : string -> result GeneratedSummary;
  json_Unmarshal_PlanText : string -> result string;
  json_Decode_Workstream : string -> result Workstream;
  json_Decode_Rotation : string -> result Rotation;
  json_Marshal_CreateWorkstreamRequest : CreateWorkstreamRequest -> result string;
  json_Marshal_CreateRotationRequest : CreateRotationRequest -> result string;
  json_Marshal_UpdatePlanRequest : UpdatePlanRequest -> result string;
  (** [json.Marshal(map[string]interface{}{"changes": c, "nextSteps": n})] *)
  json_Marshal_summaryMap : list string -> list string -> result string
}.

(* ===================================================================== *)
(** ** Effects: operations, programs, environment and world               *)
(* ===================================================================== *)

(** Outcome of running a child process to completion ([cmd.Run],
    [cmd.Output]). *)
Record ExecResult : Type := mkExecResult {
  exec_err : option error;
  exec_stdout : string;
  exec_stderr : string
}.

(** Outcome of an HTTP round trip: a transport error, or a status code and
    the body ([io.ReadAll] on the body may itself fail). *)
Inductive HttpResult : Type :=
| HttpFail (err : error)
| HttpResp (status : Z) (body : result string).

(** The operations the program performs on its surroundings. *)
Inductive Eff : Type -> Type :=
| OsGetwd : Eff (result string)
| OsReadFile (name : string) : Eff (result string)
| OsWriteFile (name data : string) : Eff (option error)
| OsMkdirAll (path : string) : Eff (option error)
| OsRemove (name : string) : Eff (option error)
| ExecLookPath (file : string) : Eff (result string)
| ExecRun (name : string) (args : list string) : Eff ExecResult
| HttpDo (method url body : string) : Eff HttpResult
| FmtPrint (s : string) : Eff unit
| TimeNow : Eff Time
| UserCurrent : Eff (result string)
| CobraHelp : Eff (option error).

(** Programs: trees of operations. *)
Inductive Prog (A : Type) : Type :=
| Ret (a : A)
| Vis {X : Type} (op : Eff X) (k : X -> Prog A).
Arguments Ret {A} a.
Arguments Vis {A X} op k.

Fixpoint bind {A B : Type} (p : Prog A) (f : A -> Prog B) : Prog B :=
  match p with
  | Ret a => f a
  | Vis op k => Vis op (fun x => bind (k x) f)
  end.

Definition trigger {X : Type} (op : Eff X) : Prog X := Vis op Ret.

Declare Scope prog_scope.
Delimit Scope prog_scope with prog.
Notation "'let*' x ':=' m 'in' k" := (bind m (fun x => k))
  (at level 10, x pattern, m at level 200, k at level 200, only parsing) : prog_scope.
Notation "'do' m 'in' k" := (bind m (fun _ => k))
  (at level 10, m at level 200, k at level 200, only parsing) : prog_scope.
Local Open Scope prog_scope.

(** One entry of the interaction trace: an operation and its result. *)
Inductive Event : Type :=
| Ev {X : Type} (op : Eff X) (res : X).

(** What the surroundings answer.  File contents live in the [World]; the
    fault functions say which file operations fail (with an error other
    than not-exist), whatever the contents. *)
Record Env : Type := mkEnv {
  env_getwd : result string;
  env_read_fault : string -> option string;
  env_write_fault : string -> option string;
  env_mkdir_fault : string -> option string;
  env_remove_fault : string -> option string;
  env_lookpath : string -> result string;
  env_exec : string -> list string -> ExecResult;
  env_http : string -> string -> string -> HttpResult;
  env_clock : nat -> Time;
  env_user : result string
}.

Record World : Type := mkWorld {
  files : gmap string string;
  ticks : nat
}.

(** The answer to one operation and its effect on the files and the clock.
    A write or removal that fails leaves the file as it was. *)
Definition answer (env : Env) {X : Type} (op : Eff X) (w : World) : X * World :=
  match op in Eff X return X * World with
  | OsGetwd => (env_getwd env, w)
  | OsReadFile name =>
      match env_read_fault env name with
      | Some m => (Fail (ErrMsg m), w)
      | None =>
          match files w !! name with
          | Some data => (Ok data, w)
          | None => (Fail (ErrNotExist name), w)
          end
      end
  | OsWriteFile name data =>
      match env_write_fault env name with
      | Some m => (Some (ErrMsg m), w)
      | None => (None, {| files := <[name := data]> (files w); ticks := ticks w |})
      end
  | OsMkdirAll path =>
      (match env_mkdir_fault env path with
       | Some m => Some (ErrMsg m)
       | None => None
       end, w)
  | OsRemove name =>
      match env_remove_fault env name with
      | Some m => (Some (ErrMsg m), w)
      | None =>
          match files w !! name with
          | Some _ => (None, {| files := delete name (files w); ticks := ticks w |})
          | None => (Some (ErrNotExist name), w)
          end
      end
  | ExecLookPath file => (env_lookpath env file, w)
  | ExecRun name args => (env_exec env name args, w)
  | HttpDo method url body => (env_http env method url body, w)
  | FmtPrint _ => (tt, w)
  | TimeNow => (env_clock env (ticks w), {| files := files w; ticks := S (ticks w) |})
  | UserCurrent => (env_user env, w)
  | CobraHelp => (None, w)
  end.

(** A finished run: the value returned, the world left behind and the
    operations performed, in order, each with its answer. *)
Record Run (A : Type) : Type := mkRun {
  value : A;
  final : World;
  events : list Event
}.
Arguments mkRun {A} value final events.
Arguments value {A} r.
Arguments final {A} r.
Arguments events {A} r.

Fixpoint run (env : Env) {A : Type} (p : Prog A) (w : World) : Run A :=
  match p with
  | Ret a => mkRun a w []
  | Vis op k =>
      let xw := answer env op w in
      let r := run env (k (fst xw)) (snd xw) in
      mkRun (value r) (final r) (Ev op (fst xw) :: events r)
  end.

(** [fmt.Println], [fmt.Printf] and [fmt.Print] write one string. *)
Definition nl : string := str newline.
Definition Println (s : string) : Prog unit := trigger (FmtPrint (s ++ nl)).
Definition Printf (s : string) : Prog unit := trigger (FmtPrint s).

(** [s == EmptyString] *)
Definition is_empty (s : string) : bool :=
  match s with EmptyString => true | String _ _ => false end.

(** [filepath.Join]: the non-empty elements joined by the separator.  The
    lexical clean-up Go applies to the result is not modelled; the elements
    used here are the working directory as the system reports it and fixed
    relative names without dot segments. *)
Definition filepath_Join (elems : list string) : string :=
  Join (filter (fun e => negb (is_empty e)) elems) "/".

(* ===================================================================== *)
(** ** package config (internal/config/config.go)                         *)
(* ===================================================================== *)

Module config.
Section WithLib.
Context {L : GoLib}.

Definition ConfigDir : string := ".claude/mob".
Definition ConfigFileName : string := "config.json".
Definition CurrentFile : string := "current.json".

Definition DefaultConfig : Config :=
  {| APIURL := "http://localhost:3000";
     TeamName := EmptyString;
     Model := "haiku";
     MaxTurns := 3;
     SkipSummary := false |}.

Definition GetConfigDir : Prog (result string) :=
  let* r := trigger OsGetwd in
  match r with
  | Fail err => Ret (Fail err)
  | Ok cwd => Ret (Ok (filepath_Join [cwd; ConfigDir]))
  end.

Definition EnsureConfigDir : Prog (result string) :=
  let* r := GetConfigDir in
  match r with
  | Fail err => Ret (Fail err)
  | Ok dir =>
      let* err := trigger (OsMkdirAll dir) in
      match err with
      | Some e => Ret (Fail e)
      | None => Ret (Ok dir)
      end
  end.

(** [Load] returns either a configuration and no error, or nil and an
    error. *)
Definition Load : Prog (result Config) :=
  let* r := GetConfigDir in
  match r with
  | Fail _ => Ret (Ok DefaultConfig)
  | Ok dir =>
      let configPath := filepath_Join [dir; ConfigFileName] in
      let* r := trigger (OsReadFile configPath) in
      match r with
      | Fail err =>
          if os_IsNotExist err then Ret (Ok DefaultConfig) else Ret (Fail err)
      | Ok data =>
          match json_Unmarshal_Config data with
          | Fail err => Ret (Fail err)
          | Ok cfg =>
              let defaults := DefaultConfig in
              let model := if is_empty (Model cfg) then Model defaults else Model cfg in
              let turns := if (MaxTurns cfg =? 0)%Z then MaxTurns defaults else MaxTurns cfg in
              let url := if is_empty (APIURL cfg) then APIURL defaults else APIURL cfg in
              Ret (Ok {| APIURL := url; TeamName := TeamName cfg; Model := model;
                         MaxTurns := turns; SkipSummary := SkipSummary cfg |})
          end
      end
  end.

(** [LoadCurrentSession]: [Ok None] is the Go result [(nil, nil)], no
    session. *)
Definition LoadCurrentSession : Prog (result (option CurrentSession)) :=
  let* r := GetConfigDir in
  match r with
  | Fail err => Ret (Fail err)
  | Ok dir =>
      let sessionPath := filepath_Join [dir; CurrentFile] in
      let* r := trigger (OsReadFile sessionPath) in
      match r with
      | Fail err =>
          if os_IsNotExist err then Ret (Ok None) else Ret (Fail err)
      | Ok data =>
          match json_Unmarshal_CurrentSession data with
          | Fail err => Ret (Fail err)
          | Ok session => Ret (Ok (Some session))
          end
      end
  end.

Definition SaveCurrentSession (session : CurrentSession) : Prog (option error) :=
  let* r := EnsureConfigDir in
  match r with
  | Fail err => Ret (Some err)
  | Ok dir =>
      match json_MarshalIndent_CurrentSession session with
      | Fail err => Ret (Some err)
      | Ok data =>
          let sessionPath := filepath_Join [dir; CurrentFile] in
          trigger (OsWriteFile sessionPath data)
      end
  end.

(** [Save] writes the config to disk. *)
Definition Save (cfg : Config) : Prog (option error) :=
  let* r := EnsureConfigDir in
  match r with
  | Fail err => Ret (Some err)
  | Ok dir =>
      match json_MarshalIndent_Config cfg with
      | Fail err => Ret (Some err)
      | Ok data =>
          let configPath := filepath_Join [dir; ConfigFileName] in
          trigger (OsWriteFile configPath data)
      end
  end.

Definition ClearCurrentSession : Prog (option error) :=
  let* r := GetConfigDir in
  match r with
  | Fail err => Ret (Some err)
  | Ok dir =>
      let sessionPath := filepath_Join [dir; CurrentFile] in
      let* err := trigger (OsRemove sessionPath) in
      match err with
      | Some e => if os_IsNotExist e then Ret None else Ret (Some e)
      | None => Ret None
      end
  end.

End WithLib.
End config.

(* ===================================================================== *)
(** ** package plans (internal/plans/manager.go)                          *)
(* ===================================================================== *)

Module plans.
Section WithLib.
Context {L : GoLib}.

Definition PlansDir : string := ".claude/plans".
Definition SummariesDir : string := ".claude/mob/summaries".

Record Manager : Type := mkManager { projectRoot : string }.

Definition NewManager : Prog (result Manager) :=
  let* r := trigger OsGetwd in
  match r with
  | Fail err => Ret (Fail (Errorf "failed to get working directory: " err))
  | Ok cwd => Ret (Ok {| projectRoot := cwd |})
  end.

(** The local [filename] of [GetPlanPath]. *)
Definition GetPlanPath_filename (branch : string) : string :=
  let safeBranch := ReplaceAll branch "/" "-" in
  let safeBranch := ReplaceAll safeBranch (str backslash) "-" in
  "mob-" ++ safeBranch ++ ".md".

Definition GetPlanPath (m : Manager) (branch : string) : string :=
  filepath_Join [projectRoot m; PlansDir; GetPlanPath_filename branch].

Definition GetSummariesDir (m : Manager) : string :=
  filepath_Join [projectRoot m; SummariesDir].

Fixpoint EnsureDirs_loop (dirs : list string) : Prog (option error) :=
  match dirs with
  | [] => Ret None
  | dir :: rest =>
      let* err := trigger (OsMkdirAll dir) in
      match err with
      | Some e => Ret (Some (Errorf ("failed to create directory " ++ dir ++ ": ") e))
      | None => EnsureDirs_loop rest
      end
  end.

Definition EnsureDirs (m : Manager) : Prog (option error) :=
  EnsureDirs_loop [filepath_Join [projectRoot m; PlansDir];
                   filepath_Join [projectRoot m; SummariesDir]].

(** [LoadPlan]: the plan text, empty when there is no plan file; on an
    error Go returns the empty string with it. *)
Definition LoadPlan (m : Manager) (branch : string) : Prog (result string) :=
  let planPath := GetPlanPath m branch in
  let* r := trigger (OsReadFile planPath) in
  match r with
  | Fail err =>
      if os_IsNotExist err then Ret (Ok EmptyString)
      else Ret (Fail (Errorf "failed to read plan: " err))
  | Ok data => Ret (Ok data)
  end.

Definition SavePlan (m : Manager) (branch content : string) : Prog (option error) :=
  let* err := EnsureDirs m in
  match err with
  | Some e => Ret (Some e)
  | None =>
      let planPath := GetPlanPath m branch in
      let* err := trigger (OsWriteFile planPath content) in
      match err with
      | Some e => Ret (Some (Errorf "failed to write plan: " e))
      | None => Ret None
      end
  end.

(** The template of [CreateDefaultPlan], for a branch and a formatted
    creation time. *)
Definition defaultPlanTemplate (branch created : string) : string :=
  "# Mob Session: " ++ branch ++ "

## Goal
_Describe the goal of this mob session_

## Current Status
- [ ] Task 1
- [ ] Task 2

## Notes
_Add notes during the session_

## Decisions Made
_Document important decisions_

---
Created: " ++ created ++ "
".

Definition CreateDefaultPlan (m : Manager) (branch : string) : Prog (option error) :=
  let* now := trigger TimeNow in
  let template := defaultPlanTemplate branch (time_Format now time_RFC3339) in
  SavePlan m branch template.

(** Helper functions *)
Definition escapeJSON (s : string) : string :=
  let s := ReplaceAll s (str backslash) (String backslash (str backslash)) in
  let s := ReplaceAll s (str quote) (String backslash (str quote)) in
  let s := ReplaceAll s (str newline) (String backslash "n") in
  let s := ReplaceAll s (str creturn) (String backslash "r") in
  let s := ReplaceAll s (str tab) (String backslash "t") in
  s.

Definition formatStringArray (arr : list string) : string :=
  match arr with
  | [] => EmptyString
  | _ => Join (map (fun s => str quote ++ escapeJSON s ++ str quote) arr) ", "
  end.

(** The text [SaveSummary] writes: the format string of the source with
    its seven arguments filled in. *)
Definition summaryContent (summary : Summary) : string :=
  let q := str quote in
  "{" ++ nl ++
  "  " ++ q ++ "timestamp" ++ q ++ ": " ++ q
       ++ time_Format (sTimestamp summary) time_RFC3339 ++ q ++ "," ++ nl ++
  "  " ++ q ++ "driverName" ++ q ++ ": " ++ q
       ++ escapeJSON (sDriverName summary) ++ q ++ "," ++ nl ++
  "  " ++ q ++ "driverNote" ++ q ++ ": " ++ q
       ++ escapeJSON (sDriverNote summary) ++ q ++ "," ++ nl ++
  "  " ++ q ++ "tldr" ++ q ++ ": " ++ q
       ++ escapeJSON (sTLDR summary) ++ q ++ "," ++ nl ++
  "  " ++ q ++ "changes" ++ q ++ ": [" ++ formatStringArray (sChanges summary) ++ "]," ++ nl ++
  "  " ++ q ++ "nextSteps" ++ q ++ ": [" ++ formatStringArray (sNextSteps summary) ++ "]," ++ nl ++
  "  " ++ q ++ "branch" ++ q ++ ": " ++ q
       ++ escapeJSON (sBranch summary) ++ q ++ nl ++
  "}".

Definition SaveSummary (m : Manager) (summary : Summary) : Prog (option error) :=
  let* err := EnsureDirs m in
  match err with
  | Some e => Ret (Some e)
  | None =>
      let filename := time_Format (sTimestamp summary) "2006-01-02T15-04-05" ++ ".json" in
      let summaryPath := filepath_Join [GetSummariesDir m; filename] in
      let content := summaryContent summary in
      trigger (OsWriteFile summaryPath content)
  end.

End WithLib.
End plans.

(* ===================================================================== *)
(** ** package api (the dashboard client)                                 *)
(* ===================================================================== *)

Module api.
Section WithLib.
Context {L : GoLib}.

(** A client: base URL and team; its HTTP client has a 30 second
    timeout, which shows here only as a transport error. *)
Record Client : Type := mkClient { baseURL : string; teamName : string }.

Definition NewClient (baseURL teamName : string) : Client :=
  {| baseURL := baseURL; teamName := teamName |}.

Definition http_StatusOK : Z := 200.
Definition http_StatusCreated : Z := 201.
Definition http_StatusNotFound : Z := 404.

(** [body, _ := io.ReadAll(resp.Body)] *)
Definition body_text (body : result string) : string :=
  match body with Ok b => b | Fail _ => EmptyString end.

Definition api_error (status : Z) (body : result string) : error :=
  ErrMsg ("API error (" ++ itoa status ++ "): " ++ body_text body).

(** [GetPlan] fetches the current plan for a workstream. *)
Definition GetPlan (c : Client) (branch : string) : Prog (result string) :=
  let endpoint := baseURL c ++ "/api/teams/" ++ url_PathEscape (teamName c)
                  ++ "/workstreams/" ++ url_PathEscape branch ++ "/plan" in
  let* resp := trigger (HttpDo "GET" endpoint EmptyString) in
  match resp with
  | HttpFail err => Ret (Fail (Errorf "failed to fetch plan: " err))
  | HttpResp status body =>
      if (status =? http_StatusNotFound)%Z then Ret (Ok EmptyString)
      else if negb (status =? http_StatusOK)%Z then Ret (Fail (api_error status body))
      else
        match body with
        | Fail err => Ret (Fail (Errorf "failed to read plan: " err))
        | Ok body =>
            (* Response might be JSON with planText field *)
            match json_Unmarshal_PlanText body with
            | Ok planText =>
                if negb (is_empty planText) then Ret (Ok planText) else Ret (Ok body)
            | Fail _ => Ret (Ok body)
            end
        end
  end.

(** [CreateWorkstream] creates or gets a workstream for the branch. *)
Definition CreateWorkstream (c : Client) (repoURL branch : string)
    : Prog (result Workstream) :=
  let endpoint := baseURL c ++ "/api/teams/" ++ url_PathEscape (teamName c)
                  ++ "/workstreams" in
  let payload := {| cwRepoURL := repoURL; cwBranch := branch |} in
  match json_Marshal_CreateWorkstreamRequest payload with
  | Fail err => Ret (Fail (Errorf "failed to marshal request: " err))
  | Ok body =>
      let* resp := trigger (HttpDo "POST" endpoint body) in
      match resp with
      | HttpFail err => Ret (Fail (Errorf "failed to create workstream: " err))
      | HttpResp status rbody =>
          if negb (status =? http_StatusOK)%Z && negb (status =? http_StatusCreated)%Z
          then Ret (Fail (api_error status rbody))
          else
            match rbody with
            | Fail err => Ret (Fail (Errorf "failed to decode workstream: " err))
            | Ok text =>
                match json_Decode_Workstream text with
                | Fail err => Ret (Fail (Errorf "failed to decode workstream: " err))
                | Ok workstream => Ret (Ok workstream)
                end
            end
      end
  end.

(** [UpdatePlan] replaces the plan of a workstream.  A request that
    cannot be built is reported like a failed round trip. *)
Definition UpdatePlan (c : Client) (branch planText : string) : Prog (option error) :=
  let endpoint := baseURL c ++ "/api/teams/" ++ url_PathEscape (teamName c)
                  ++ "/workstreams/" ++ url_PathEscape branch ++ "/plan" in
  let payload := {| upPlanText := planText |} in
  match json_Marshal_UpdatePlanRequest payload with
  | Fail err => Ret (Some (Errorf "failed to marshal request: " err))
  | Ok body =>
      let* resp := trigger (HttpDo "PUT" endpoint body) in
      match resp with
      | HttpFail err => Ret (Some (Errorf "failed to update plan: " err))
      | HttpResp status rbody =>
          if negb (status =? http_StatusOK)%Z then Ret (Some (api_error status rbody))
          else Ret None
      end
  end.

(** [CreateRotation] records a new rotation for a workstream. *)
Definition CreateRotation (c : Client) (branch : string)
    (rotation : CreateRotationRequest) : Prog (result Rotation) :=
  let endpoint := baseURL c ++ "/api/teams/" ++ url_PathEscape (teamName c)
                  ++ "/workstreams/" ++ url_PathEscape branch ++ "/rotations" in
  match json_Marshal_CreateRotationRequest rotation with
  | Fail err => Ret (Fail (Errorf "failed to marshal request: " err))
  | Ok body =>
      let* resp := trigger (HttpDo "POST" endpoint body) in
      match resp with
      | HttpFail err => Ret (Fail (Errorf "failed to create rotation: " err))
      | HttpResp status rbody =>
          if negb (status =? http_StatusOK)%Z && negb (status =? http_StatusCreated)%Z
          then Ret (Fail (api_error status rbody))
          else
            match rbody with
            | Fail err => Ret (Fail (Errorf "failed to decode rotation: " err))
            | Ok text =>
                match json_Decode_Rotation text with
                | Fail err => Ret (Fail (Errorf "failed to decode rotation: " err))
                | Ok rotation => Ret (Ok rotation)
                end
            end
      end
  end.

(** [GetWorkstream] fetches a workstream by branch; [Ok None] is the Go
    result [(nil, nil)] of a 404 answer. *)
Definition GetWorkstream (c : Client) (branch : string)
    : Prog (result (option Workstream)) :=
  let endpoint := baseURL c ++ "/api/teams/" ++ url_PathEscape (teamName c)
                  ++ "/workstreams/" ++ url_PathEscape branch in
  let* resp := trigger (HttpDo "GET" endpoint EmptyString) in
  match resp with
  | HttpFail err => Ret (Fail (Errorf "failed to fetch workstream: " err))
  | HttpResp status body =>
      if (status =? http_StatusNotFound)%Z then Ret (Ok None)
      else if negb (status =? http_StatusOK)%Z then Ret (Fail (api_error status body))
      else
        match body with
        | Fail err => Ret (Fail (Errorf "failed to decode workstream: " err))
        | Ok text =>
            match json_Decode_Workstream text with
            | Fail err => Ret (Fail (Errorf "failed to decode workstream: " err))
            | Ok workstream => Ret (Ok (Some workstream))
            end
        end
  end.

(** [Ping] checks if the API is reachable. *)
Definition Ping (c : Client) : Prog (option error) :=
  let endpoint := baseURL c ++ "/api/health" in
  let* resp := trigger (HttpDo "GET" endpoint EmptyString) in
  match resp with
  | HttpFail err => Ret (Some (Errorf "API unreachable: " err))
  | HttpResp status _ =>
      if negb (status =? http_StatusOK)%Z
      then Ret (Some (ErrMsg ("API unhealthy (status " ++ itoa status ++ ")")))
      else Ret None
  end.

End WithLib.
End api.

(* ===================================================================== *)
(** ** package mob (internal/mob/wrapper.go)                              *)
(* ===================================================================== *)

Module mob.
Section WithLib.
Context {L : GoLib}.

Record Wrapper : Type := mkWrapper { mobPath : string }.

Definition NewWrapper : Prog Wrapper :=
  let* r := trigger (ExecLookPath "mob") in
  match r with
  | Ok path => Ret {| mobPath := path |}
  | Fail _ => Ret {| mobPath := "mob" |}
  end.

(** [runPassthrough]: the tool runs with the terminal as its input and
    output; only its exit matters to the caller. *)
Definition runPassthrough (w : Wrapper) (args : list string) : Prog (option error) :=
  let* r := trigger (ExecRun (mobPath w) args) in
  Ret (exec_err r).

(** [Start], [Next] and [Done] as main.go calls them: the command word,
    the branch when it is not empty, then the arguments given on the
    command line. *)
Definition Start (w : Wrapper) (branch : string) (extra : list string) : Prog (option error) :=
  let args := ["start"] in
  let args := if negb (is_empty branch) then (args ++ [branch])%list else args in
  runPassthrough w (args ++ extra)%list.

Definition Next (w : Wrapper) (extra : list string) : Prog (option error) :=
  runPassthrough w ("next" :: extra).

Definition Done (w : Wrapper) (extra : list string) : Prog (option error) :=
  runPassthrough w ("done" :: extra).

Definition CheckMobInstalled (w : Wrapper) : Prog (option error) :=
  let* r := trigger (ExecRun (mobPath w) ["version"]) in
  match exec_err r with
  | Some _ =>
      Ret (Some (ErrMsg "mob.sh is not installed or not in PATH. Install from: https://mob.sh"))
  | None => Ret None
  end.

Definition GetCurrentBranch (w : Wrapper) : Prog (result string) :=
  let* r := trigger (ExecRun "git" ["branch"; "--show-current"]) in
  match exec_err r with
  | Some err => Ret (Fail (Errorf "failed to get current branch: " err))
  | None => Ret (Ok (strings_TrimSpace (exec_stdout r)))
  end.

Definition GetRepoURL (w : Wrapper) : Prog (result string) :=
  let* r := trigger (ExecRun "git" ["remote"; "get-url"; "origin"]) in
  match exec_err r with
  | Some err => Ret (Fail (Errorf "failed to get repo URL: " err))
  | None => Ret (Ok (strings_TrimSpace (exec_stdout r)))
  end.

Definition GetDiffSinceLastCommit (w : Wrapper) : Prog (result string) :=
  let* r := trigger (ExecRun "git" ["diff"; "HEAD"]) in
  match exec_err r with
  | Some _ =>
      let* r := trigger (ExecRun "git" ["diff"]) in
      match exec_err r with
      | Some err => Ret (Fail (Errorf "failed to get diff: " err))
      | None => Ret (Ok (exec_stdout r))
      end
  | None => Ret (Ok (exec_stdout r))
  end.

Fixpoint GetDiffFromBase_loop (w : Wrapper) (bases : list string) : Prog (result string) :=
  match bases with
  | [] => GetDiffSinceLastCommit w
  | base :: rest =>
      let* mb := trigger (ExecRun "git" ["merge-base"; base; "HEAD"]) in
      match exec_err mb with
      | Some _ => GetDiffFromBase_loop w rest
      | None =>
          let* r := trigger (ExecRun "git" ["diff"; strings_TrimSpace (exec_stdout mb)]) in
          match exec_err r with
          | Some _ => GetDiffFromBase_loop w rest
          | None => Ret (Ok (exec_stdout r))
          end
      end
  end.

Definition GetDiffFromBase (w : Wrapper) : Prog (result string) :=
  GetDiffFromBase_loop w ["origin/main"; "origin/master"; "main"; "master"].

Definition GetBaseBranch (w : Wrapper) : Prog (result string) :=
  let* r := GetCurrentBranch w in
  match r with
  | Fail err => Ret (Fail err)
  | Ok branch =>
      let branch := TrimPrefix branch "mob/" in
      let branch := TrimSuffix branch "-wip" in
      Ret (Ok branch)
  end.

(** [IsMobBranch] checks if the current branch is a mob session branch. *)
Definition IsMobBranch (w : Wrapper) : Prog (result bool) :=
  let* r := GetCurrentBranch w in
  match r with
  | Fail err => Ret (Fail err)
  | Ok branch =>
      Ret (Ok (HasPrefix branch "mob/" || HasSuffix branch "-wip"
               || Contains branch "/mob-"))
  end.

End WithLib.
End mob.

(* ===================================================================== *)
(** ** package summary (internal/summary/generator.go)                    *)
(* ===================================================================== *)

Module summary.
Section WithLib.
Context {L : GoLib}.

Record Generator : Type := mkGenerator { model : string; maxTurns : Z }.

Definition NewGenerator (model : string) (maxTurns : Z) : Generator :=
  {| model := model; maxTurns := maxTurns |}.

Definition buildPrompt (g : Generator) (diff driverNote : string) : string :=
  let maxDiffLen := 10000%Z in
  let diff :=
    if (len diff >? maxDiffLen)%Z
    then slice diff 0 (Z.to_nat maxDiffLen) ++ nl ++ "... (truncated)"
    else diff in
  "Analyze this git diff from a mob programming rotation and create a brief summary.

Driver's note: " ++ driverNote ++ "

Git diff:
" ++ diff ++ "

Return a JSON object with:
- tldr: One sentence summary of what was accomplished (max 100 chars)
- changes: Array of 2-4 specific changes made
- nextSteps: Array of 1-3 suggested next steps for the next driver

Respond ONLY with valid JSON, no markdown or explanation.".

Definition callClaude (g : Generator) (prompt : string) : Prog (result string) :=
  let* found := trigger (ExecLookPath "claude") in
  match found with
  | Fail _ => Ret (Fail (ErrMsg "claude CLI not found in PATH"))
  | Ok _ =>
      let args := ["-p"; prompt; "--model"; model g;
                   "--max-turns"; itoa (maxTurns g);
                   "--output-format"; "text"] in
      let* r := trigger (ExecRun "claude" args) in
      match exec_err r with
      | Some err =>
          Ret (Fail (ErrMsg ("claude CLI failed: " ++ Error err ++ nl ++ exec_stderr r)))
      | None => Ret (Ok (exec_stdout r))
      end
  end.

Definition parseResponse (g : Generator) (response : string) : result GeneratedSummary :=
  let response := strings_TrimSpace response in
  let response :=
    if HasPrefix response "```json" then
      strings_TrimSpace (TrimSuffix (TrimPrefix response "```json") "```")
    else if HasPrefix response "```" then
      strings_TrimSpace (TrimSuffix (TrimPrefix response "```") "```")
    else response in
  let start := Index response "{" in
  let end_ := LastIndex response "}" in
  if (start =? -1)%Z || (end_ =? -1)%Z || (end_ <=? start)%Z then
    Fail (ErrMsg "no JSON object found in response")
  else
    let jsonStr := slice response (Z.to_nat start) (Z.to_nat (end_ + 1)) in
    match json_Unmarshal_GeneratedSummary jsonStr with
    | Fail err => Fail (Errorf "failed to parse JSON: " err)
    | Ok summary => Ok summary
    end.

Definition fallbackSummary (g : Generator) (driverNote branch : string) : Prog Summary :=
  let tldr := "Rotation completed" in
  let tldr :=
    if negb (is_empty driverNote) then
      if (len driverNote >? 100)%Z
      then slice driverNote 0 97 ++ "..."
      else driverNote
    else tldr in
  let* now := trigger TimeNow in
  Ret {| sTimestamp := now;
         sDriverName := EmptyString;
         sDriverNote := driverNote;
         sTLDR := tldr;
         sChanges := ["Changes made during rotation"];
         sNextSteps := ["Continue from where the previous driver left off"];
         sBranch := branch |}.

(** [Generate] creates a summary using the Claude CLI.  The [result]
    type of the Go signature is kept: that no path returns an error is a
    property of the body, not of the type. *)
Definition Generate (g : Generator) (diff driverNote branch : string)
    : Prog (result Summary) :=
  let prompt := buildPrompt g diff driverNote in
  let* r := callClaude g prompt in
  match r with
  | Fail _ =>
      let* s := fallbackSummary g driverNote branch in Ret (Ok s)
  | Ok result =>
      match parseResponse g result with
      | Fail _ =>
          let* s := fallbackSummary g driverNote branch in Ret (Ok s)
      | Ok generated =>
          let* now := trigger TimeNow in
          Ret (Ok {| sTimestamp := now;
                     sDriverName := EmptyString;
                     sDriverNote := driverNote;
                     sTLDR := gTLDR generated;
                     sChanges := gChanges generated;
                     sNextSteps := gNextSteps generated;
                     sBranch := branch |})
      end
  end.

(** [CheckClaudeAvailable] verifies that the Claude CLI is installed. *)
Definition CheckClaudeAvailable : Prog (option error) :=
  let* found := trigger (ExecLookPath "claude") in
  match found with
  | Fail _ => Ret (Some (ErrMsg "claude CLI not found. Install from: https://claude.ai/code"))
  | Ok _ =>
      let* r := trigger (ExecRun "claude" ["--version"]) in
      match exec_err r with
      | Some err => Ret (Some (Errorf "claude CLI found but not working: " err))
      | None => Ret None
      end
  end.

End WithLib.
End summary.

(* ===================================================================== *)
(** ** package main (cmd/mob-claude/main.go)                              *)
(* ===================================================================== *)

(** How a command function ends: it returns its [error] (nil on success),
    or the process panics on a nil pointer. *)
Inductive Outcome : Type :=
| Returned (err : option error)
| Panicked.

(** [main]: a returned error makes the process exit with status 1; a panic
    exits with status 2. *)
Definition exitCode (o : Outcome) : Z :=
  match o with
  | Returned None => 0
  | Returned (Some _) => 1
  | Panicked => 2
  end.

(** [fmt.Sscanf(value, "%d", &n)]: the integer scanned from the start of
    the text, or the error of the scan. *)
Class GoFmt : Type := {
  fmt_Sscanf_d : string -> result Z
}.

Module main.
Section WithLib.
Context {L : GoLib}.

Definition getGitConfigValue (key : string) : Prog string :=
  let* r := trigger (ExecRun "git" ["config"; "--get"; key]) in
  match exec_err r with
  | Some _ => Ret EmptyString
  | None => Ret (strings_TrimSpace (exec_stdout r))
  end.

Definition getDriverName : Prog string :=
  let* name := getGitConfigValue "user.name" in
  if negb (is_empty name) then Ret name
  else
    let* u := trigger UserCurrent in
    match u with
    | Fail _ => Ret "unknown"
    | Ok username => Ret username
    end.

(** [cfg.TeamName != "" && cfg.APIURL != ""] *)
Definition api_configured (cfg : Config) : bool :=
  negb (is_empty (TeamName cfg)) && negb (is_empty (APIURL cfg)).

(** runStart, lines 172-183: try to fetch the plan from the API if
    configured.  The result is the variable [planText]. *)
Definition runStart_fetchPlan (cfg : Config) (baseBranch : string) : Prog string :=
  if api_configured cfg then
    let client := api.NewClient (APIURL cfg) (TeamName cfg) in
    let* r := api.GetPlan client baseBranch in
    match r with
    | Fail err =>
        do Printf ("Warning: could not fetch plan from API: " ++ Error err ++ nl) in
        Ret EmptyString
    | Ok remotePlan =>
        if negb (is_empty remotePlan) then
          do Println "Fetched plan from dashboard" in
          Ret remotePlan
        else Ret EmptyString
    end
  else Ret EmptyString.

(** runStart, lines 185-206: check the local plan and decide which plan
    to use. *)
Definition runStart_decidePlan (planMgr : plans.Manager) (baseBranch planText : string)
    : Prog unit :=
  let* r := plans.LoadPlan planMgr baseBranch in
  let localPlan := match r with Ok p => p | Fail _ => EmptyString end in
  if is_empty planText && is_empty localPlan then
    (* Create a new plan *)
    do Printf ("Creating new plan for branch: " ++ baseBranch ++ nl) in
    let* err := plans.CreateDefaultPlan planMgr baseBranch in
    match err with
    | Some e => Printf ("Warning: could not create plan: " ++ Error e ++ nl)
    | None => Printf ("Plan created at: " ++ plans.GetPlanPath planMgr baseBranch ++ nl)
    end
  else if negb (is_empty planText) && negb (String.eqb planText localPlan) then
    (* Remote plan is newer, save it locally *)
    let* err := plans.SavePlan planMgr baseBranch planText in
    match err with
    | Some e => Printf ("Warning: could not save plan locally: " ++ Error e ++ nl)
    | None => Println "Synced plan from dashboard"
    end
  else if negb (is_empty localPlan) then
    Printf ("Using existing plan: " ++ plans.GetPlanPath planMgr baseBranch ++ nl)
  else Ret tt.

(** The plan reconciliation of [runStart] (lines 172-206). *)
Definition runStart_reconcile (cfg : Config) (planMgr : plans.Manager)
    (baseBranch : string) : Prog unit :=
  let* planText := runStart_fetchPlan cfg baseBranch in
  runStart_decidePlan planMgr baseBranch planText.

(** runStart, lines 208-229: the driver name and the session to save,
    with the workstream id when the dashboard registers the workstream. *)
Definition runStart_newSession (cfg : Config) (baseBranch repoURL : string)
    : Prog (string * CurrentSession) :=
  (* Get current user for driver name *)
  let* driverName := getDriverName in
  let* now := trigger TimeNow in
  let session := {| Branch := baseBranch;
                    RepoURL := repoURL;
                    StartedAt := time_Format now time_RFC3339;
                    DriverName := driverName;
                    WorkstreamID := EmptyString |} in
  (* Try to register workstream with API *)
  if api_configured cfg then
    let client := api.NewClient (APIURL cfg) (TeamName cfg) in
    let* r := api.CreateWorkstream client repoURL baseBranch in
    match r with
    | Fail err =>
        do Printf ("Warning: could not register with dashboard: " ++ Error err ++ nl) in
        Ret (driverName, session)
    | Ok workstream =>
        do Printf ("Registered with dashboard: " ++ APIURL cfg ++ "/team/"
                   ++ TeamName cfg ++ nl) in
        Ret (driverName,
             {| Branch := Branch session;
                RepoURL := RepoURL session;
                StartedAt := StartedAt session;
                DriverName := DriverName session;
                WorkstreamID := wID workstream |})
    end
  else Ret (driverName, session).

(** runStart, lines 231-239: save the session and report. *)
Definition runStart_saveSession (session : CurrentSession)
    (driverName currentBranch : string) : Prog Outcome :=
  let* err := config.SaveCurrentSession session in
  do (match err with
      | Some e => Printf ("Warning: could not save session: " ++ Error e ++ nl)
      | None => Ret tt
      end) in
  do Printf (nl ++ "Mob session started!" ++ nl) in
  do Printf ("Driver: " ++ driverName ++ nl) in
  do Printf ("Branch: " ++ currentBranch ++ nl) in
  Ret (Returned None).

(** runStart, lines 208-239. *)
Definition runStart_session (cfg : Config) (currentBranch baseBranch repoURL : string)
    : Prog Outcome :=
  let* ds := runStart_newSession cfg baseBranch repoURL in
  runStart_saveSession (snd ds) (fst ds) currentBranch.

Definition is_help_flag (arg : string) : bool :=
  String.eqb arg "--help" || String.eqb arg "-h".

Definition runStart (args : list string) : Prog Outcome :=
  (* Handle --help/-h manually since flag parsing is disabled *)
  if existsb is_help_flag args then
    let* err := trigger CobraHelp in Ret (Returned err)
  else
  let* mobWrapper := mob.NewWrapper in
  (* Check mob.sh is installed *)
  let* err := mob.CheckMobInstalled mobWrapper in
  match err with
  | Some e => Ret (Returned (Some e))
  | None =>
  (* Load config *)
  let* cfg := config.Load in
  do (match cfg with
      | Fail err => Printf ("Warning: could not load config: " ++ Error err ++ nl)
      | Ok _ => Ret tt
      end) in
  (* Initialize plan manager *)
  let* pm := plans.NewManager in
  match pm with
  | Fail err => Ret (Returned (Some (Errorf "failed to initialize plan manager: " err)))
  | Ok planMgr =>
  (* Run mob start (pass all args through to mob.sh) *)
  do Println "Starting mob session..." in
  let* err := mob.Start mobWrapper EmptyString args in
  match err with
  | Some e => Ret (Returned (Some (Errorf "mob start failed: " e)))
  | None =>
  (* Get the actual branch we are on now *)
  let* cb := mob.GetCurrentBranch mobWrapper in
  match cb with
  | Fail err => Ret (Returned (Some (Errorf "failed to get current branch: " err)))
  | Ok currentBranch =>
  let* bb := mob.GetBaseBranch mobWrapper in
  let baseBranch := match bb with Ok b => b | Fail _ => currentBranch end in
  (* Get repo URL *)
  let* ru := mob.GetRepoURL mobWrapper in
  let repoURL := match ru with Ok u => u | Fail _ => "unknown" end in
  (* cfg is nil when Load failed: reading cfg.TeamName panics *)
  match cfg with
  | Fail _ => Ret Panicked
  | Ok cfg =>
  do runStart_reconcile cfg planMgr baseBranch in
  runStart_session cfg currentBranch baseBranch repoURL
  end end end end end.

(** runNext, lines 270-298: generate the summary unless skipped.  The
    result is the variable [summaryObj] (nil when there is none). *)
Definition runNext_summary (mobWrapper : mob.Wrapper) (cfg : Config)
    (session : CurrentSession) (skipSummary : bool) (message : string)
    : Prog (option Summary) :=
  if negb skipSummary && negb (SkipSummary cfg) then
    do Println "Generating rotation summary..." in
    let* d := mob.GetDiffFromBase mobWrapper in
    let* diff :=
      match d with
      | Fail err =>
          do Printf ("Warning: could not get diff: " ++ Error err ++ nl) in
          Ret EmptyString
      | Ok diff => Ret diff
      end in
    let gen := summary.NewGenerator (Model cfg) (MaxTurns cfg) in
    let* r := summary.Generate gen diff message (Branch session) in
    match r with
    | Fail err =>
        do Printf ("Warning: summary generation failed: " ++ Error err ++ nl) in
        Ret None
    | Ok summaryObj =>
        let summaryObj := {| sTimestamp := sTimestamp summaryObj;
                             sDriverName := DriverName session;
                             sDriverNote := sDriverNote summaryObj;
                             sTLDR := sTLDR summaryObj;
                             sChanges := sChanges summaryObj;
                             sNextSteps := sNextSteps summaryObj;
                             sBranch := sBranch summaryObj |} in
        do Printf ("Summary: " ++ sTLDR summaryObj ++ nl) in
        Ret (Some summaryObj)
    end
  else if negb (is_empty message) then
    (* Create minimal summary with just the message *)
    let* now := trigger TimeNow in
    Ret (Some {| sTimestamp := now;
                 sDriverName := DriverName session;
                 sDriverNote := message;
                 sTLDR := message;
                 sChanges := [];
                 sNextSteps := [];
                 sBranch := Branch session |})
  else Ret None.

(** The rotation request both [runNext] and [runDone] build. *)
Definition rotationRequest (session : CurrentSession) (message : string)
    (summaryObj : Summary) (planText : string) : CreateRotationRequest :=
  let startedAt :=
    match time_Parse time_RFC3339 (StartedAt session) with
    | Ok t => t
    | Fail _ => zeroTime
    end in
  let summaryJSON :=
    match json_Marshal_summaryMap (sChanges summaryObj) (sNextSteps summaryObj) with
    | Ok j => j
    | Fail _ => EmptyString
    end in
  {| crDriverName := DriverName session;
     crDriverNote := message;
     crSummaryTLDR := sTLDR summaryObj;
     crSummaryJSON := summaryJSON;
     crPlanSnapshot := planText;
     crStartedAt := startedAt |}.

(** runNext, lines 300-343: save the summary locally and upload to the
    API. *)
Definition runNext_record (planMgr : plans.Manager) (cfg : Config)
    (session : CurrentSession) (message : string) (summaryObj : option Summary)
    : Prog unit :=
  (* Save summary locally *)
  do (match summaryObj with
      | Some s =>
          let* err := plans.SaveSummary planMgr s in
          match err with
          | Some e => Printf ("Warning: could not save summary: " ++ Error e ++ nl)
          | None => Ret tt
          end
      | None => Ret tt
      end) in
  (* Upload to API *)
  match summaryObj with
  | Some s =>
      if api_configured cfg then
        let client := api.NewClient (APIURL cfg) (TeamName cfg) in
        (* Get current plan for snapshot *)
        let* p := plans.LoadPlan planMgr (Branch session) in
        let planText := match p with Ok t => t | Fail _ => EmptyString end in
        let rotation := rotationRequest session message s planText in
        let* r := api.CreateRotation client (Branch session) rotation in
        do (match r with
            | Fail err => Printf ("Warning: could not upload rotation: " ++ Error err ++ nl)
            | Ok _ => Println "Rotation recorded in dashboard"
            end) in
        (* Sync plan to API *)
        if negb (is_empty planText) then
          let* err := api.UpdatePlan client (Branch session) planText in
          match err with
          | Some e => Printf ("Warning: could not sync plan: " ++ Error e ++ nl)
          | None => Ret tt
          end
        else Ret tt
      else Ret tt
  | None => Ret tt
  end.

(** runNext, lines 345-352: clear the session, then run mob next. *)
Definition runNext_handoff (mobWrapper : mob.Wrapper) (args : list string)
    : Prog Outcome :=
  (* Clear session before mob next *)
  let* err := config.ClearCurrentSession in
  do (match err with
      | Some e => Printf ("Warning: could not clear session: " ++ Error e ++ nl)
      | None => Ret tt
      end) in
  (* Run mob next *)
  do Println (nl ++ "Handing off to next driver...") in
  let* err := mob.Next mobWrapper args in
  Ret (Returned err).

Definition runNext (skipSummary : bool) (message : string) (args : list string)
    : Prog Outcome :=
  let* mobWrapper := mob.NewWrapper in
  let* err := mob.CheckMobInstalled mobWrapper in
  match err with
  | Some e => Ret (Returned (Some e))
  | None =>
  (* Load session *)
  let* s := config.LoadCurrentSession in
  match s with
  | Fail err => Ret (Returned (Some (Errorf "failed to load session: " err)))
  | Ok None =>
      Ret (Returned (Some (ErrMsg "no active mob session. Run 'mob-claude start' first")))
  | Ok (Some session) =>
  (* Load config *)
  let* c := config.Load in
  let cfg := match c with Ok cfg => cfg | Fail _ => config.DefaultConfig end in
  (* Initialize managers *)
  let* pm := plans.NewManager in
  match pm with
  | Fail err => Ret (Returned (Some (Errorf "failed to initialize plan manager: " err)))
  | Ok planMgr =>
  let* summaryObj := runNext_summary mobWrapper cfg session skipSummary message in
  do runNext_record planMgr cfg session message summaryObj in
  runNext_handoff mobWrapper args
  end end end.

(** runDone, lines 374-411: the final summary, when there is a session. *)
Definition runDone_summary (mobWrapper : mob.Wrapper) (cfg : Config)
    (session : option CurrentSession) (skipSummary : bool) (message : string)
    : Prog unit :=
  match session with
  | Some session =>
      if negb skipSummary && negb (SkipSummary cfg) then
        do Println "Generating final summary..." in
        let* pm := plans.NewManager in
        match pm with
        | Fail _ => Ret tt
        | Ok planMgr =>
            let* d := mob.GetDiffFromBase mobWrapper in
            let diff := match d with Ok diff => diff | Fail _ => EmptyString end in
            let gen := summary.NewGenerator (Model cfg) (MaxTurns cfg) in
            let* r := summary.Generate gen diff message (Branch session) in
            match r with
            | Fail _ => Ret tt
            | Ok summaryObj =>
                let summaryObj := {| sTimestamp := sTimestamp summaryObj;
                                     sDriverName := DriverName session;
                                     sDriverNote := sDriverNote summaryObj;
                                     sTLDR := sTLDR summaryObj;
                                     sChanges := sChanges summaryObj;
                                     sNextSteps := sNextSteps summaryObj;
                                     sBranch := sBranch summaryObj |} in
                let* _ := plans.SaveSummary planMgr summaryObj in
                do Printf ("Final summary: " ++ sTLDR summaryObj ++ nl) in
                (* Upload to API *)
                if api_configured cfg then
                  let client := api.NewClient (APIURL cfg) (TeamName cfg) in
                  let* p := plans.LoadPlan planMgr (Branch session) in
                  let planText := match p with Ok t => t | Fail _ => EmptyString end in
                  let rotation := rotationRequest session message summaryObj planText in
                  let* _ := api.CreateRotation client (Branch session) rotation in
                  Ret tt
                else Ret tt
            end
        end
      else Ret tt
  | None => Ret tt
  end.

(** runDone, lines 413-418: clear the session, then run mob done. *)
Definition runDone_complete (mobWrapper : mob.Wrapper) (args : list string)
    : Prog Outcome :=
  (* Clear session *)
  let* _ := config.ClearCurrentSession in
  (* Run mob done *)
  do Println (nl ++ "Completing mob session...") in
  let* err := mob.Done mobWrapper args in
  Ret (Returned err).

Definition runDone (skipSummary : bool) (message : string) (args : list string)
    : Prog Outcome :=
  let* mobWrapper := mob.NewWrapper in
  let* err := mob.CheckMobInstalled mobWrapper in
  match err with
  | Some e => Ret (Returned (Some e))
  | None =>
  (* Load session *)
  let* s := config.LoadCurrentSession in
  match s with
  | Fail err => Ret (Returned (Some (Errorf "failed to load session: " err)))
  | Ok session =>
  (* Load config *)
  let* c := config.Load in
  let cfg := match c with Ok cfg => cfg | Fail _ => config.DefaultConfig end in
  do runDone_summary mobWrapper cfg session skipSummary message in
  runDone_complete mobWrapper args
  end end.

(** [%v] of a [bool] *)
Definition fmt_bool (b : bool) : string := if b then "true" else "false".

Definition runConfigShow : Prog Outcome :=
  let* c := config.Load in
  match c with
  | Fail err => Ret (Returned (Some (Errorf "failed to load config: " err)))
  | Ok cfg =>
      do Println "Current configuration:" in
      do Printf ("  apiUrl:      " ++ APIURL cfg ++ nl) in
      do Printf ("  teamName:    " ++ TeamName cfg ++ nl) in
      do Printf ("  model:       " ++ Model cfg ++ nl) in
      do Printf ("  maxTurns:    " ++ itoa (MaxTurns cfg) ++ nl) in
      do Printf ("  skipSummary: " ++ fmt_bool (SkipSummary cfg) ++ nl) in
      let* d := config.GetConfigDir in
      let dir := match d with Ok dir => dir | Fail _ => EmptyString end in
      do Printf (nl ++ "Config file: " ++ dir ++ "/config.json" ++ nl) in
      Ret (Returned None)
  end.

(** The [switch] of [runConfigSet]: the configuration with the key set,
    or the error of the case. *)
Definition runConfigSet_switch {F : GoFmt} (cfg : Config) (key value : string)
    : result Config :=
  if String.eqb key "apiUrl" then
    Ok {| APIURL := value; TeamName := TeamName cfg; Model := Model cfg;
          MaxTurns := MaxTurns cfg; SkipSummary := SkipSummary cfg |}
  else if String.eqb key "teamName" then
    Ok {| APIURL := APIURL cfg; TeamName := value; Model := Model cfg;
          MaxTurns := MaxTurns cfg; SkipSummary := SkipSummary cfg |}
  else if String.eqb key "model" then
    Ok {| APIURL := APIURL cfg; TeamName := TeamName cfg; Model := value;
          MaxTurns := MaxTurns cfg; SkipSummary := SkipSummary cfg |}
  else if String.eqb key "maxTurns" then
    match fmt_Sscanf_d value with
    | Fail _ => Fail (ErrMsg ("invalid maxTurns value: " ++ value))
    | Ok turns =>
        Ok {| APIURL := APIURL cfg; TeamName := TeamName cfg; Model := Model cfg;
              MaxTurns := turns; SkipSummary := SkipSummary cfg |}
    end
  else if String.eqb key "skipSummary" then
    Ok {| APIURL := APIURL cfg; TeamName := TeamName cfg; Model := Model cfg;
          MaxTurns := MaxTurns cfg;
          SkipSummary := String.eqb value "true" || String.eqb value "1" |}
  else
    Fail (ErrMsg ("unknown config key: " ++ key ++ nl
                  ++ "Available keys: apiUrl, teamName, model, maxTurns, skipSummary")).

(** [runConfigSet] with its two arguments (cobra.ExactArgs(2)). *)
Definition runConfigSet {F : GoFmt} (key value : string) : Prog Outcome :=
  let* c := config.Load in
  let cfg := match c with Ok cfg => cfg | Fail _ => config.DefaultConfig end in
  match runConfigSet_switch cfg key value with
  | Fail err => Ret (Returned (Some err))
  | Ok cfg =>
      let* err := config.Save cfg in
      match err with
      | Some e => Ret (Returned (Some (Errorf "failed to save config: " e)))
      | None =>
          do Printf ("Set " ++ key ++ " = " ++ value ++ nl) in
          Ret (Returned None)
      end
  end.

End WithLib.
End main.

(* ===================================================================== *)
(** ** JSON texts (RFC 8259), on bytes                                    *)
(* ===================================================================== *)

(** The grammar of JSON as a parser on byte strings, used to say what a
    valid JSON text is and what it denotes.  A string literal may hold any
    byte from 0x20 up except the quote and the backslash; whether the bytes
    above 0x7F form valid UTF-8 is not checked. *)
Module Json.

Inductive value : Type :=
| Null
| Bool (b : bool)
| Number (literal : string)
| Str (s : string)
| Arr (elements : list value)
| Obj (members : list (string * value)).

Definition is_ws (c : ascii) : bool :=
  Ascii.eqb c " " || Ascii.eqb c tab || Ascii.eqb c newline || Ascii.eqb c creturn.

Fixpoint skip_ws (s : string) : string :=
  match s with
  | String c r => if is_ws c then skip_ws r else s
  | EmptyString => s
  end.

Definition is_control (c : ascii) : bool := (N_of_ascii c <? 32)%N.

Definition is_digit (c : ascii) : bool :=
  (48 <=? N_of_ascii c)%N && (N_of_ascii c <=? 57)%N.

Definition hex_value (c : ascii) : option N :=
  let n := N_of_ascii c in
  if (48 <=? n)%N && (n <=? 57)%N then Some (n - 48)%N
  else if (65 <=? n)%N && (n <=? 70)%N then Some (n - 55)%N
  else if (97 <=? n)%N && (n <=? 102)%N then Some (n - 87)%N
  else None.

Definition byte (n : N) : ascii := ascii_of_N (n mod 256).

(** UTF-8 encoding of a code point below 0x110000. *)
Definition utf8 (n : N) : string :=
  if (n <? 128)%N then str (byte n)
  else if (n <? 2048)%N then
    String (byte (192 + n / 64)) (str (byte (128 + n mod 64)))
  else if (n <? 65536)%N then
    String (byte (224 + n / 4096))
      (String (byte (128 + (n / 64) mod 64)) (str (byte (128 + n mod 64))))
  else
    String (byte (240 + n / 262144))
      (String (byte (128 + (n / 4096) mod 64))
         (String (byte (128 + (n / 64) mod 64)) (str (byte (128 + n mod 64))))).

Definition replacement : string := utf8 65533.

Definition is_high_surrogate (n : N) : bool := (55296 <=? n)%N && (n <? 56320)%N.
Definition is_low_surrogate (n : N) : bool := (56320 <=? n)%N && (n <? 57344)%N.

(** Where the scanner stands inside a string literal. *)
Inductive sstate : Type :=
| InStr
| InEsc
| InHex (todo : nat) (acc : N).

(** A code unit from a [\u] escape arrives; [hi] is a pending high
    surrogate.  The result is the text to emit and the new pending
    surrogate. *)
Definition code_unit (hi : option N) (v : N) : string * option N :=
  match hi with
  | Some h =>
      if is_low_surrogate v
      then (utf8 (65536 + (h - 55296) * 1024 + (v - 56320)), None)
      else if is_high_surrogate v then (replacement, Some v)
      else (replacement ++ utf8 v, None)
  | None =>
      if is_high_surrogate v then (EmptyString, Some v)
      else if is_low_surrogate v then (replacement, None)
      else (utf8 v, None)
  end.

Definition flush (hi : option N) : string :=
  match hi with Some _ => replacement | None => EmptyString end.

Definition simple_escape (c : ascii) : option ascii :=
  if Ascii.eqb c quote then Some quote
  else if Ascii.eqb c backslash then Some backslash
  else if Ascii.eqb c "/" then Some "/"%char
  else if Ascii.eqb c "b" then Some "008"%char
  else if Ascii.eqb c "f" then Some "012"%char
  else if Ascii.eqb c "n" then Some newline
  else if Ascii.eqb c "r" then Some creturn
  else if Ascii.eqb c "t" then Some tab
  else None.

Definition emit (pre : string) (r : option (string * string)) : option (string * string) :=
  match r with
  | Some (out, rest) => Some (pre ++ out, rest)
  | None => None
  end.

(** UTF-8 as unicode/utf8 reads it.  A continuation byte is one of
    0x80..0xBF. *)
Definition is_cont (c : ascii) : bool :=
  (128 <=? N_of_ascii c)%N && (N_of_ascii c <=? 191)%N.

(** The length of the sequence a byte starts (the table [first] of
    unicode/utf8): 1 for ASCII, 2 for 0xC2..0xDF, 3 for 0xE0..0xEF, 4 for
    0xF0..0xF4, and 0 for a byte that starts no sequence. *)
Definition seq_len (c : ascii) : nat :=
  let n := N_of_ascii c in
  if (n <? 128)%N then 1
  else if (194 <=? n)%N && (n <=? 223)%N then 2
  else if (224 <=? n)%N && (n <=? 239)%N then 3
  else if (240 <=? n)%N && (n <=? 244)%N then 4
  else 0.

(** The second byte a lead byte accepts ([acceptRanges]): 0x80..0xBF,
    narrowed after 0xE0 (no overlong form), 0xED (no surrogate), 0xF0 (no
    overlong form) and 0xF4 (nothing above U+10FFFF). *)
Definition second_ok (c c2 : ascii) : bool :=
  let n := N_of_ascii c in
  let m := N_of_ascii c2 in
  if (n =? 224)%N then (160 <=? m)%N && (m <=? 191)%N
  else if (n =? 237)%N then (128 <=? m)%N && (m <=? 159)%N
  else if (n =? 240)%N then (144 <=? m)%N && (m <=? 191)%N
  else if (n =? 244)%N then (128 <=? m)%N && (m <=? 143)%N
  else is_cont c2.

(** [utf8.DecodeRune] at a byte of 0x80 or more, [r] being the text after
    it: the continuation bytes of the well-formed sequence the byte starts
    and the text after them, or nothing when there is no such sequence
    (DecodeRune then returns U+FFFD and the width 1). *)
Definition rune_split (c : ascii) (r : string) : option (string * string) :=
  match seq_len c, r with
  | 2, String c2 r2 =>
      if second_ok c c2 then Some (str c2, r2) else None
  | 3, String c2 (String c3 r3) =>
      if second_ok c c2 && is_cont c3 then Some (String c2 (str c3), r3) else None
  | 4, String c2 (String c3 (String c4 r4)) =>
      if second_ok c c2 && is_cont c3 && is_cont c4
      then Some (String c2 (String c3 (str c4)), r4) else None
  | _, _ => None
  end.

(** [utf8.ValidString]: the text is a sequence of well-formed UTF-8
    sequences. *)
Fixpoint utf8_valid (s : string) : bool :=
  match s with
  | EmptyString => true
  | String c r =>
      if (N_of_ascii c <? 128)%N then utf8_valid r
      else
        match seq_len c, r with
        | 2, String c2 r2 => second_ok c c2 && utf8_valid r2
        | 3, String c2 (String c3 r3) => second_ok c c2 && is_cont c3 && utf8_valid r3
        | 4, String c2 (String c3 (String c4 r4)) =>
            second_ok c c2 && is_cont c3 && is_cont c4 && utf8_valid r4
        | _, _ => false
        end
  end.

(** The characters of a string literal after its opening quote: the
    decoded string and the text after the closing quote.  As in
    encoding/json (unquote), an ASCII byte stands for itself, a
    well-formed UTF-8 sequence is copied, and a byte of 0x80 or more that
    starts no well-formed sequence becomes U+FFFD, the reading going on
    at the next byte. *)
Fixpoint parse_chars (st : sstate) (hi : option N) (s : string)
    : option (string * string) :=
  match s with
  | EmptyString => None
  | String c r =>
      match st with
      | InStr =>
          if Ascii.eqb c quote then Some (flush hi, r)
          else if Ascii.eqb c backslash then parse_chars InEsc hi r
          else if is_control c then None
          else if (N_of_ascii c <? 128)%N
          then emit (flush hi ++ str c) (parse_chars InStr None r)
          else
            match seq_len c, r with
            | 2, String c2 r2 =>
                if second_ok c c2
                then emit (flush hi ++ String c (str c2)) (parse_chars InStr None r2)
                else emit (flush hi ++ replacement) (parse_chars InStr None r)
            | 3, String c2 (String c3 r3) =>
                if second_ok c c2 && is_cont c3
                then emit (flush hi ++ String c (String c2 (str c3)))
                          (parse_chars InStr None r3)
                else emit (flush hi ++ replacement) (parse_chars InStr None r)
            | 4, String c2 (String c3 (String c4 r4)) =>
                if second_ok c c2 && is_cont c3 && is_cont c4
                then emit (flush hi ++ String c (String c2 (String c3 (str c4))))
                          (parse_chars InStr None r4)
                else emit (flush hi ++ replacement) (parse_chars InStr None r)
            | _, _ => emit (flush hi ++ replacement) (parse_chars InStr None r)
            end
      | InEsc =>
          if Ascii.eqb c "u" then parse_chars (InHex 4 0) hi r
          else
            match simple_escape c with
            | Some d => emit (flush hi ++ str d) (parse_chars InStr None r)
            | None => None
            end
      | InHex todo acc =>
          match hex_value c with
          | None => None
          | Some d =>
              let acc := (acc * 16 + d)%N in
              match todo with
              | S (S k) => parse_chars (InHex (S k) acc) hi r
              | _ =>
                  let '(out, hi') := code_unit hi acc in
                  emit out (parse_chars InStr hi' r)
              end
          end
      end
  end.

Fixpoint span_digits (s : string) : string * string :=
  match s with
  | String c r =>
      if is_digit c then let '(d, rest) := span_digits r in (String c d, rest)
      else (EmptyString, s)
  | EmptyString => (EmptyString, EmptyString)
  end.

(** number = [ minus ] int [ frac ] [ exp ] *)
Definition parse_number (s : string) : option (string * string) :=
  let '(sign, s1) :=
    match s with
    | String "-" r => ("-", r)
    | _ => (EmptyString, s)
    end in
  let '(int, s2) := span_digits s1 in
  match int with
  | EmptyString => None
  | String d more =>
      if Ascii.eqb d "0" && negb (is_empty more) then None
      else
        let frac :=
          match s2 with
          | String "." r =>
              let '(f, s3) := span_digits r in
              if is_empty f then None else Some ("." ++ f, s3)
          | _ => Some (EmptyString, s2)
          end in
        match frac with
        | None => None
        | Some (f, s3) =>
            let exp :=
              match s3 with
              | String e r =>
                  if Ascii.eqb e "e" || Ascii.eqb e "E" then
                    let '(sg, r1) :=
                      match r with
                      | String "+" r' => ("+", r')
                      | String "-" r' => ("-", r')
                      | _ => (EmptyString, r)
                      end in
                    let '(x, s4) := span_digits r1 in
                    if is_empty x then None else Some (str e ++ sg ++ x, s4)
                  else Some (EmptyString, s3)
              | EmptyString => Some (EmptyString, s3)
              end in
            match exp with
            | None => None
            | Some (x, s4) => Some (sign ++ int ++ f ++ x, s4)
            end
        end
  end.

Definition parse_literal (s : string) : option (value * string) :=
  if String.prefix "true" s then Some (Bool true, drop 4 s)
  else if String.prefix "false" s then Some (Bool false, drop 5 s)
  else if String.prefix "null" s then Some (Null, drop 4 s)
  else
    match parse_number s with
    | Some (n, r) => Some (Number n, r)
    | None => None
    end.

(** value, elements of an array after its bracket, members of an object
    after its brace; [fuel] bounds the number of nested calls. *)
Fixpoint parse_value (fuel : nat) (s : string) : option (value * string) :=
  match fuel with
  | O => None
  | S fuel =>
      match skip_ws s with
      | EmptyString => None
      | String c r =>
          if Ascii.eqb c quote then
            match parse_chars InStr None r with
            | Some (x, r') => Some (Str x, r')
            | None => None
            end
          else if Ascii.eqb c "[" then
            match skip_ws r with
            | String "]" r' => Some (Arr [], r')
            | _ =>
                match parse_elements fuel r with
                | Some (vs, r') => Some (Arr vs, r')
                | None => None
                end
            end
          else if Ascii.eqb c "{" then
            match skip_ws r with
            | String "}" r' => Some (Obj [], r')
            | _ =>
                match parse_members fuel r with
                | Some (ms, r') => Some (Obj ms, r')
                | None => None
                end
            end
          else parse_literal (String c r)
      end
  end
with parse_elements (fuel : nat) (s : string) : option (list value * string) :=
  match fuel with
  | O => None
  | S fuel =>
      match parse_value fuel s with
      | None => None
      | Some (v, r) =>
          match skip_ws r with
          | String c r' =>
              if Ascii.eqb c "," then
                match parse_elements fuel r' with
                | Some (vs, r'') => Some (v :: vs, r'')
                | None => None
                end
              else if Ascii.eqb c "]" then Some ([v], r')
              else None
          | EmptyString => None
          end
      end
  end
with parse_members (fuel : nat) (s : string) : option (list (string * value) * string) :=
  match fuel with
  | O => None
  | S fuel =>
      match skip_ws s with
      | String q r =>
          if Ascii.eqb q quote then
            match parse_chars InStr None r with
            | None => None
            | Some (key, r1) =>
                match skip_ws r1 with
                | String ":" r2 =>
                    match parse_value fuel r2 with
                    | None => None
                    | Some (v, r3) =>
                        match skip_ws r3 with
                        | String c r4 =>
                            if Ascii.eqb c "," then
                              match parse_members fuel r4 with
                              | Some (ms, r5) => Some ((key, v) :: ms, r5)
                              | None => None
                              end
                            else if Ascii.eqb c "}" then Some ([(key, v)], r4)
                            else None
                        | EmptyString => None
                        end
                    end
                | _ => None
                end
            end
          else None
      | EmptyString => None
      end
  end.

(** A JSON text: one value between optional white space. *)
Definition parse (s : string) : option value :=
  match parse_value (2 * String.length s + 2) s with
  | Some (v, r) => if is_empty (skip_ws r) then Some v else None
  | None => None
  end.

(** A JSON text in the sense of RFC 8259: well-formed UTF-8 that reads
    as one value.  (The reader alone is more lenient: like encoding/json
    it takes ill-formed UTF-8 inside a string and turns it into U+FFFD.) *)
Definition valid (s : string) : Prop :=
  utf8_valid s = true /\ exists v, parse s = Some v.

Definition is_object (v : value) : Prop :=
  match v with Obj _ => True | _ => False end.

Fixpoint lookup (key : string) (members : list (string * value)) : option value :=
  match members with
  | [] => None
  | (k, v) :: rest => if String.eqb k key then Some v else lookup key rest
  end.

End Json.

(* ===================================================================== *)
(** ** A reference instance of the library interface                      *)
(* ===================================================================== *)

(** An instance of [GoLib] for running the model on concrete inputs: JSON
    decoding through [Json.parse], JSON encoding with the escapes of
    encoding/json, times formatted in UTC, ASCII white space.  The general
    theorems do not depend on it. *)
Module RefLib.

Definition is_space (c : ascii) : bool :=
  Ascii.eqb c " " || Ascii.eqb c tab || Ascii.eqb c newline || Ascii.eqb c creturn
  || Ascii.eqb c "011"%char || Ascii.eqb c "012"%char.

Fixpoint trim_left (s : string) : string :=
  match s with
  | String c r => if is_space c then trim_left r else s
  | EmptyString => s
  end.

Definition TrimSpace (s : string) : string :=
  String.rev (trim_left (String.rev (trim_left s))).

(** *** Times *)

Definition pad (width : nat) (z : Z) : string :=
  let d := itoa z in
  String.concat EmptyString (repeat "0" (width - String.length d)) ++ d.

(** Year, month, day, hour, minute, second of an instant, in UTC. *)
Definition civil (t : Time) : Z * Z * Z * Z * Z * Z :=
  let secs := (t / 1000000000)%Z in
  let days := (secs / 86400)%Z in
  let rem := (secs mod 86400)%Z in
  let z := (days + 719468)%Z in
  let era := (z / 146097)%Z in
  let doe := (z - era * 146097)%Z in
  let yoe := ((doe - doe / 1460 + doe / 36524 - doe / 146096) / 365)%Z in
  let doy := (doe - (365 * yoe + yoe / 4 - yoe / 100))%Z in
  let mp := ((5 * doy + 2) / 153)%Z in
  let d := (doy - (153 * mp + 2) / 5 + 1)%Z in
  let m := (if mp <? 10 then mp + 3 else mp - 9)%Z in
  let y := (yoe + era * 400 + (if m <=? 2 then 1 else 0))%Z in
  (y, m, d, rem / 3600, (rem mod 3600) / 60, rem mod 60)%Z.

Definition Format (t : Time) (layout : string) : string :=
  let '(y, m, d, hh, mm, ss) := civil t in
  if String.eqb layout time_RFC3339 then
    pad 4 y ++ "-" ++ pad 2 m ++ "-" ++ pad 2 d ++ "T"
    ++ pad 2 hh ++ ":" ++ pad 2 mm ++ ":" ++ pad 2 ss ++ "Z"
  else if String.eqb layout "2006-01-02T15-04-05" then
    pad 4 y ++ "-" ++ pad 2 m ++ "-" ++ pad 2 d ++ "T"
    ++ pad 2 hh ++ "-" ++ pad 2 mm ++ "-" ++ pad 2 ss
  else layout.

Fixpoint digits_value (s : string) (acc : Z) : option Z :=
  match s with
  | EmptyString => Some acc
  | String c r =>
      if Json.is_digit c
      then digits_value r (acc * 10 + Z.of_N (N_of_ascii c) - 48)%Z
      else None
  end.

Definition number_at (s : string) (pos width : nat) : option Z :=
  let d := substring pos width s in
  if (String.length d =? width)%nat then digits_value d 0 else None.

Definition days_from_civil (y m d : Z) : Z :=
  let y := (if m <=? 2 then y - 1 else y)%Z in
  let era := (y / 400)%Z in
  let yoe := (y - era * 400)%Z in
  let mp := (if m >? 2 then m - 3 else m + 9)%Z in
  let doy := ((153 * mp + 2) / 5 + d - 1)%Z in
  let doe := (yoe * 365 + yoe / 4 - yoe / 100 + doy)%Z in
  (era * 146097 + doe - 719468)%Z.

Definition Parse (layout value : string) : result Time :=
  let bad := Fail (ErrMsg ("parsing time " ++ value ++ ": cannot parse")) in
  if String.eqb layout time_RFC3339 && (String.length value =? 20)%nat
     && String.eqb (substring 4 1 value) "-" && String.eqb (substring 7 1 value) "-"
     && String.eqb (substring 10 1 value) "T" && String.eqb (substring 13 1 value) ":"
     && String.eqb (substring 16 1 value) ":" && String.eqb (substring 19 1 value) "Z"
  then
    match number_at value 0 4, number_at value 5 2, number_at value 8 2,
          number_at value 11 2, number_at value 14 2, number_at value 17 2 with
    | Some y, Some m, Some d, Some hh, Some mm, Some ss =>
        Ok ((days_from_civil y m d * 86400 + hh * 3600 + mm * 60 + ss) * 1000000000)%Z
    | _, _, _, _, _, _ => bad
    end
  else bad.

(** *** URL path escaping *)

Definition hex_digit (n : N) : ascii :=
  if (n <? 10)%N then ascii_of_N (48 + n) else ascii_of_N (55 + n).

Definition is_alnum (c : ascii) : bool :=
  let n := N_of_ascii c in
  ((48 <=? n) && (n <=? 57) || (65 <=? n) && (n <=? 90) || (97 <=? n) && (n <=? 122))%N.

Definition path_safe (c : ascii) : bool :=
  is_alnum c || existsb (Ascii.eqb c) (list_ascii_of_string "-_.~$&+=:@").

Fixpoint PathEscape (s : string) : string :=
  match s with
  | EmptyString => EmptyString
  | String c r =>
      if path_safe c then String c (PathEscape r)
      else
        let n := N_of_ascii c in
        String "%" (String (hex_digit (n / 16)) (String (hex_digit (n mod 16)) (PathEscape r)))
  end.

(** *** JSON encoding *)

Definition lower_hex (n : N) : ascii :=
  if (n <? 10)%N then ascii_of_N (48 + n) else ascii_of_N (87 + n).

Definition u00 (c : ascii) : string :=
  let n := N_of_ascii c in
  String backslash ("u00" ++ String (lower_hex (n / 16)) (str (lower_hex (n mod 16)))).

Fixpoint quote_chars (s : string) : string :=
  match s with
  | EmptyString => EmptyString
  | String c r =>
      (if Ascii.eqb c quote then String backslash (str quote)
       else if Ascii.eqb c backslash then String backslash (str backslash)
       else if Ascii.eqb c newline then String backslash "n"
       else if Ascii.eqb c creturn then String backslash "r"
       else if Ascii.eqb c tab then String backslash "t"
       else if Json.is_control c || Ascii.eqb c "<" || Ascii.eqb c ">" || Ascii.eqb c "&"
       then u00 c
       else str c) ++ quote_chars r
  end.

Definition jstr (s : string) : string := str quote ++ quote_chars s ++ str quote.

Definition jarr (l : list string) : string :=
  "[" ++ Join (map jstr l) "," ++ "]".

Definition member (key value : string) : string := jstr key ++ ":" ++ value.

Definition jobj (members : list string) : string := "{" ++ Join members "," ++ "}".

Definition jobj_indent (members : list (string * string)) : string :=
  match members with
  | [] => "{}"
  | _ =>
      "{" ++ nl
      ++ Join (map (fun kv => "  " ++ jstr (fst kv) ++ ": " ++ snd kv) members) ("," ++ nl)
      ++ nl ++ "}"
  end.

Definition omitempty (key value : string) : list (string * string) :=
  if is_empty value then [] else [(key, jstr value)].

(** *** JSON decoding into the structs *)

Definition type_error (key kind : string) : error :=
  ErrMsg ("json: cannot unmarshal value into Go struct field ." ++ key
          ++ " of type " ++ kind).

Definition last_member (key : string) (ms : list (string * Json.value)) : option Json.value :=
  Json.lookup key (rev ms).

Definition get_string (ms : list (string * Json.value)) (key : string) : result string :=
  match last_member key ms with
  | None | Some Json.Null => Ok EmptyString
  | Some (Json.Str s) => Ok s
  | Some _ => Fail (type_error key "string")
  end.

Definition get_bool (ms : list (string * Json.value)) (key : string) : result bool :=
  match last_member key ms with
  | None | Some Json.Null => Ok false
  | Some (Json.Bool b) => Ok b
  | Some _ => Fail (type_error key "bool")
  end.

Definition int_literal (s : string) : option Z :=
  match s with
  | String "-" r =>
      match digits_value r 0 with Some z => Some (- z)%Z | None => None end
  | _ => digits_value s 0
  end.

Definition get_int (ms : list (string * Json.value)) (key : string) : result Z :=
  match last_member key ms with
  | None | Some Json.Null => Ok 0%Z
  | Some (Json.Number n) =>
      match int_literal n with
      | Some z => Ok z
      | None => Fail (type_error key "int")
      end
  | Some _ => Fail (type_error key "int")
  end.

Fixpoint strings_of (key : string) (vs : list Json.value) : result (list string) :=
  match vs with
  | [] => Ok []
  | Json.Str s :: rest =>
      match strings_of key rest with
      | Ok l => Ok (s :: l)
      | Fail e => Fail e
      end
  | Json.Null :: rest =>
      match strings_of key rest with
      | Ok l => Ok (EmptyString :: l)
      | Fail e => Fail e
      end
  | _ :: _ => Fail (type_error key "string")
  end.

Definition get_strings (ms : list (string * Json.value)) (key : string)
    : result (list string) :=
  match last_member key ms with
  | None | Some Json.Null => Ok []
  | Some (Json.Arr vs) => strings_of key vs
  | Some _ => Fail (type_error key "[]string")
  end.

Definition get_time (ms : list (string * Json.value)) (key : string) : result Time :=
  match last_member key ms with
  | None | Some Json.Null => Ok zeroTime
  | Some (Json.Str s) => Parse time_RFC3339 s
  | Some _ => Fail (type_error key "time.Time")
  end.

(** Decoding into a struct: the text must be a JSON value; [null] leaves
    the zero struct; anything but an object is a type error. *)
Definition decode_struct {A : Type} (zero : A)
    (fields : list (string * Json.value) -> result A) (data : string) : result A :=
  match Json.parse data with
  | None => Fail (ErrMsg "invalid character or unexpected end of JSON input")
  | Some Json.Null => Ok zero
  | Some (Json.Obj ms) => fields ms
  | Some _ => Fail (ErrMsg "json: cannot unmarshal value into Go value of struct type")
  end.

Definition and_then {A B : Type} (r : result A) (f : A -> result B) : result B :=
  match r with Ok a => f a | Fail e => Fail e end.

Definition Unmarshal_Config : string -> result Config :=
  decode_struct (mkConfig EmptyString EmptyString EmptyString 0 false) (fun ms =>
    and_then (get_string ms "apiUrl") (fun a =>
    and_then (get_string ms "teamName") (fun t =>
    and_then (get_string ms "model") (fun m =>
    and_then (get_int ms "maxTurns") (fun n =>
    and_then (get_bool ms "skipSummary") (fun s =>
    Ok (mkConfig a t m n s))))))).

Definition MarshalIndent_Config (c : Config) : result string :=
  Ok (jobj_indent [("apiUrl", jstr (APIURL c)); ("teamName", jstr (TeamName c));
                   ("model", jstr (Model c)); ("maxTurns", itoa (MaxTurns c));
                   ("skipSummary", if SkipSummary c then "true" else "false")]).

Definition Unmarshal_CurrentSession : string -> result CurrentSession :=
  decode_struct (mkCurrentSession EmptyString EmptyString EmptyString EmptyString EmptyString)
    (fun ms =>
    and_then (get_string ms "branch") (fun b =>
    and_then (get_string ms "repoUrl") (fun r =>
    and_then (get_string ms "startedAt") (fun s =>
    and_then (get_string ms "driverName") (fun d =>
    and_then (get_string ms "workstreamId") (fun w =>
    Ok (mkCurrentSession b r s d w))))))).

Definition MarshalIndent_CurrentSession (s : CurrentSession) : result string :=
  Ok (jobj_indent ([("branch", jstr (Branch s)); ("repoUrl", jstr (RepoURL s));
                    ("startedAt", jstr (StartedAt s)); ("driverName", jstr (DriverName s))]
                   ++ omitempty "workstreamId" (WorkstreamID s))%list).

Definition Unmarshal_GeneratedSummary : string -> result GeneratedSummary :=
  decode_struct (mkGeneratedSummary EmptyString [] []) (fun ms =>
    and_then (get_string ms "tldr") (fun t =>
    and_then (get_strings ms "changes") (fun c =>
    and_then (get_strings ms "nextSteps") (fun n =>
    Ok (mkGeneratedSummary t c n))))).

Definition Unmarshal_PlanText : string -> result string :=
  decode_struct EmptyString (fun ms => get_string ms "planText").

Definition Decode_Workstream : string -> result Workstream :=
  decode_struct
    (mkWorkstream EmptyString EmptyString EmptyString EmptyString EmptyString false
                  zeroTime zeroTime)
    (fun ms =>
    and_then (get_string ms "id") (fun i =>
    and_then (get_string ms "teamId") (fun t =>
    and_then (get_string ms "repoUrl") (fun r =>
    and_then (get_string ms "branch") (fun b =>
    and_then (get_string ms "planText") (fun p =>
    and_then (get_bool ms "isActive") (fun a =>
    and_then (get_time ms "createdAt") (fun c =>
    and_then (get_time ms "updatedAt") (fun u =>
    Ok (mkWorkstream i t r b p a c u)))))))))).

Definition Decode_Rotation : string -> result Rotation :=
  decode_struct
    (mkRotation EmptyString EmptyString EmptyString EmptyString EmptyString EmptyString
                EmptyString zeroTime zeroTime)
    (fun ms =>
    and_then (get_string ms "id") (fun i =>
    and_then (get_string ms "workstreamId") (fun w =>
    and_then (get_string ms "driverName") (fun d =>
    and_then (get_string ms "driverNote") (fun n =>
    and_then (get_string ms "summaryTldr") (fun t =>
    and_then (get_string ms "planSnapshot") (fun p =>
    and_then (get_time ms "startedAt") (fun s =>
    and_then (get_time ms "endedAt") (fun e =>
    Ok (mkRotation i w d n t EmptyString p s e)))))))))).

Definition Marshal_CreateWorkstreamRequest (r : CreateWorkstreamRequest) : result string :=
  Ok (jobj [member "repoUrl" (jstr (cwRepoURL r)); member "branch" (jstr (cwBranch r))]).

Definition Marshal_UpdatePlanRequest (r : UpdatePlanRequest) : result string :=
  Ok (jobj [member "planText" (jstr (upPlanText r))]).

Definition opt_member (key value : string) : list string :=
  if is_empty value then [] else [member key (jstr value)].

Definition Marshal_CreateRotationRequest (r : CreateRotationRequest) : result string :=
  Ok (jobj ([member "driverName" (jstr (crDriverName r))]
            ++ opt_member "driverNote" (crDriverNote r)
            ++ opt_member "summaryTldr" (crSummaryTLDR r)
            ++ (if is_empty (crSummaryJSON r) then []
                else [member "summaryJson" (crSummaryJSON r)])
            ++ opt_member "planSnapshot" (crPlanSnapshot r)
            ++ [member "startedAt" (jstr (Format (crStartedAt r) time_RFC3339))])%list).

Definition Marshal_summaryMap (changes nextSteps : list string) : result string :=
  Ok (jobj [member "changes" (jarr changes); member "nextSteps" (jarr nextSteps)]).

#[export] Instance lib : GoLib := {|
  strings_TrimSpace := TrimSpace;
  time_Format := Format;
  time_Parse := Parse;
  url_PathEscape := PathEscape;
  json_Unmarshal_Config := Unmarshal_Config;
  json_MarshalIndent_Config := MarshalIndent_Config;
  json_Unmarshal_CurrentSession := Unmarshal_CurrentSession;
  json_MarshalIndent_CurrentSession := MarshalIndent_CurrentSession;
  json_Unmarshal_GeneratedSummary := Unmarshal_GeneratedSummary;
  json_Unmarshal_PlanText := Unmarshal_PlanText;
  json_Decode_Workstream := Decode_Workstream;
  json_Decode_Rotation := Decode_Rotation;
  json_Marshal_CreateWorkstreamRequest := Marshal_CreateWorkstreamRequest;
  json_Marshal_CreateRotationRequest := Marshal_CreateRotationRequest;
  json_Marshal_UpdatePlanRequest := Marshal_UpdatePlanRequest;
  json_Marshal_summaryMap := Marshal_summaryMap
|}.

(** A scanner for [%d]: leading spaces, an optional sign and the digits
    that follow; what comes after them is left unread. *)
Definition Sscanf_d (s : string) : result Z :=
  let s := trim_left s in
  let '(sign, r) :=
    match s with
    | String "-" r => ((-1)%Z, r)
    | String "+" r => (1%Z, r)
    | _ => (1%Z, s)
    end in
  let '(d, _) := Json.span_digits r in
  match d with
  | EmptyString => Fail (ErrMsg "expected integer")
  | _ =>
      match digits_value d 0 with
      | Some z => Ok (sign * z)%Z
      | None => Fail (ErrMsg "expected integer")
      end
  end.

#[export] Instance fmt : GoFmt := {| fmt_Sscanf_d := Sscanf_d |}.

End RefLib.

(* ===================================================================== *)
(** ** Notions used to state the properties                               *)
(* ===================================================================== *)

(** [has_byte c s]: the byte [c] occurs in [s]. *)
Fixpoint has_byte (c : ascii) (s : string) : bool :=
  match s with
  | EmptyString => false
  | String x r => Ascii.eqb x c || has_byte c r
  end.

(** Replacing one byte everywhere, byte by byte. *)
Fixpoint subst_byte (c : ascii) (new : string) (s : string) : string :=
  match s with
  | EmptyString => EmptyString
  | String x r => (if Ascii.eqb x c then new else str x) ++ subst_byte c new r
  end.


(** *** Environments for concrete runs *)

Definition no_fault : string -> option string := fun _ => None.

Definition fault_at (path msg : string) : string -> option string :=
  fun p => if String.eqb p path then Some msg else None.

Definition exec_ok (out : string) : ExecResult :=
  {| exec_err := None; exec_stdout := out; exec_stderr := EmptyString |}.

Definition exec_fail (msg : string) : ExecResult :=
  {| exec_err := Some (ErrMsg msg); exec_stdout := EmptyString; exec_stderr := msg |}.

Fixpoint eqb_args (a b : list string) : bool :=
  match a, b with
  | [], [] => true
  | x :: a', y :: b' => String.eqb x y && eqb_args a' b'
  | _, _ => false
  end.

Definition set_exec (env : Env) (f : string -> list string -> ExecResult) : Env :=
  {| env_getwd := env_getwd env;
     env_read_fault := env_read_fault env;
     env_write_fault := env_write_fault env;
     env_mkdir_fault := env_mkdir_fault env;
     env_remove_fault := env_remove_fault env;
     env_lookpath := env_lookpath env;
     env_exec := f;
     env_http := env_http env;
     env_clock := env_clock env;
     env_user := env_user env |}.

Definition set_http (env : Env) (f : string -> string -> string -> HttpResult) : Env :=
  {| env_getwd := env_getwd env;
     env_read_fault := env_read_fault env;
     env_write_fault := env_write_fault env;
     env_mkdir_fault := env_mkdir_fault env;
     env_remove_fault := env_remove_fault env;
     env_lookpath := env_lookpath env;
     env_exec := env_exec env;
     env_http := f;
     env_clock := env_clock env;
     env_user := env_user env |}.

Definition set_faults (env : Env) (rd wr mk rm : string -> option string) : Env :=
  {| env_getwd := env_getwd env;
     env_read_fault := rd;
     env_write_fault := wr;
     env_mkdir_fault := mk;
     env_remove_fault := rm;
     env_lookpath := env_lookpath env;
     env_exec := env_exec env;
     env_http := env_http env;
     env_clock := env_clock env;
     env_user := env_user env |}.

(** A developer machine: mob, git and claude are installed, the working
    copy is on the mob branch of feature-x, no dashboard is reachable and
    no file operation fails.  [claude_out] is what the claude CLI prints. *)
Module Demo.

Definition cwd : string := "/work/repo".

Definition exec (claude_out : string) (name : string) (args : list string) : ExecResult :=
  if String.eqb name "/usr/bin/mob" then exec_ok EmptyString
  else if String.eqb name "claude" then exec_ok claude_out
  else if String.eqb name "git" then
    if eqb_args args ["branch"; "--show-current"] then exec_ok ("mob/feature-x" ++ nl)
    else if eqb_args args ["remote"; "get-url"; "origin"]
    then exec_ok ("git@example.com:team/repo.git" ++ nl)
    else if eqb_args args ["config"; "--get"; "user.name"] then exec_ok ("Ada" ++ nl)
    else if eqb_args args ["diff"; "HEAD"] then exec_ok "diff --git a/x b/x"
    else exec_fail "exit status 128"
  else exec_fail "executable file not found in $PATH".

Definition env (claude_out : string) : Env :=
  {| env_getwd := Ok cwd;
     env_read_fault := no_fault;
     env_write_fault := no_fault;
     env_mkdir_fault := no_fault;
     env_remove_fault := no_fault;
     env_lookpath := fun file => Ok ("/usr/bin/" ++ file);
     env_exec := exec claude_out;
     env_http := fun _ _ _ => HttpFail (ErrMsg "dial tcp: connection refused");
     env_clock := fun n => (1730354400000000000 + Z.of_nat n * 1000000000)%Z;
     env_user := Ok "ada" |}.

(** The same machine without the mob tool. *)
Definition env_without_mob : Env :=
  {| env_getwd := Ok cwd;
     env_read_fault := no_fault;
     env_write_fault := no_fault;
     env_mkdir_fault := no_fault;
     env_remove_fault := no_fault;
     env_lookpath := fun file =>
       if String.eqb file "mob"
       then Fail (ErrMsg "exec: mob: executable file not found in $PATH")
       else Ok ("/usr/bin/" ++ file);
     env_exec := exec EmptyString;
     env_http := fun _ _ _ => HttpFail (ErrMsg "dial tcp: connection refused");
     env_clock := fun n => (1730354400000000000 + Z.of_nat n * 1000000000)%Z;
     env_user := Ok "ada" |}.

Definition empty_world : World := {| files := ∅; ticks := 0 |}.

Definition session : CurrentSession :=
  {| Branch := "feature-x";
     RepoURL := "git@example.com:team/repo.git";
     StartedAt := "2024-10-31T06:00:00Z";
     DriverName := "Ada";
     WorkstreamID := EmptyString |}.

Definition session_path : string := "/work/repo/.claude/mob/current.json".
Definition plan_path : string := "/work/repo/.claude/plans/mob-feature-x.md".

Definition session_text : string :=
  match RefLib.MarshalIndent_CurrentSession session with
  | Ok text => text
  | Fail _ => EmptyString
  end.

(** A working copy in which [start] has recorded a session. *)
Definition started_world : World :=
  {| files := {[ session_path := session_text ]}; ticks := 0 |}.

Definition generator : summary.Generator := summary.NewGenerator "haiku" 3.

(** The machine with a session file that cannot be removed. *)
Definition env_session_locked : Env :=
  set_faults (env "{}") no_fault no_fault no_fault
             (fault_at session_path "operation not permitted").

(** The machine with a plan file that can be written but not read (a
    file of mode 0200). *)
Definition env_plan_unreadable : Env :=
  set_faults (env "{}") (fault_at plan_path "permission denied") no_fault
             no_fault no_fault.

Definition manager : plans.Manager := {| plans.projectRoot := cwd |}.

(** The machine with a dashboard that answers every request with status
    200 and the given body, and the configuration that names it. *)
Definition env_with_dashboard (body : string) : Env :=
  set_http (env "{}") (fun _ _ _ => HttpResp 200 (Ok body)).

Definition team_config : Config :=
  {| APIURL := "http://localhost:3000";
     TeamName := "team";
     Model := "haiku";
     MaxTurns := 3;
     SkipSummary := false |}.

(** A working copy whose plan for feature-x is [text]. *)
Definition world_with_plan (text : string) : World :=
  {| files := {[ plan_path := text ]}; ticks := 0 |}.

(** The machine with a session file that cannot be written. *)
Definition env_session_readonly : Env :=
  set_faults (env "{}") no_fault (fault_at session_path "permission denied")
             no_fault no_fault.

End Demo.

(** *** Summaries *)


(** *** Properties of programs and of traces *)

(** [never P p]: whatever the surroundings answer, [p] performs no
    operation accepted by [P]. *)
Fixpoint never {A : Type} (P : forall X : Type, Eff X -> bool) (p : Prog A) : Prop :=
  match p with
  | Ret _ => True
  | Vis op k => P _ op = false /\ forall x, never P (k x)
  end.

Definition event_is (P : forall X : Type, Eff X -> bool) (e : Event) : bool :=
  match e with Ev op _ => P _ op end.

(** [none P evs]: no event of the trace is an operation accepted by [P]. *)
Definition none (P : forall X : Type, Eff X -> bool) (evs : list Event) : Prop :=
  Forall (fun e => event_is P e = false) evs.

(** An HTTP request. *)
Definition is_http (X : Type) (op : Eff X) : bool :=
  match op with HttpDo _ _ _ => true | _ => false end.

(** An HTTP request that writes to the dashboard (anything but a GET). *)
Definition is_remote_write (X : Type) (op : Eff X) : bool :=
  match op with HttpDo method _ _ => negb (String.eqb method "GET") | _ => false end.

(** A change to the local files: a write or a removal. *)
Definition is_file_change (X : Type) (op : Eff X) : bool :=
  match op with OsWriteFile _ _ | OsRemove _ => true | _ => false end.

Definition is_remove (X : Type) (op : Eff X) : bool :=
  match op with OsRemove _ => true | _ => false end.

(** Running a process whose first argument is [word]: with "next" or
    "done", the hand-off or completion operation of the mob tool. *)
Definition is_command (word : string) (X : Type) (op : Eff X) : bool :=
  match op with
  | ExecRun _ (first :: _) => String.eqb first word
  | _ => false
  end.

(** *** The surroundings of a command *)

(** The path [NewWrapper] settles on for the mob tool. *)
Definition mob_path (env : Env) : string :=
  match env_lookpath env "mob" with
  | Ok path => path
  | Fail _ => "mob"
  end.

(** The mob tool is installed: [mob version] runs without error. *)
Definition mob_installed (env : Env) : Prop :=
  exec_err (env_exec env (mob_path env) ["version"]) = None.

(** The session file of the working copy, when the working directory is
    known. *)
Definition session_path (cwd : string) : string :=
  filepath_Join [filepath_Join [cwd; config.ConfigDir]; config.CurrentFile].

(** A change to the world of the model: the files or the clock. *)
Definition is_world_change (X : Type) (op : Eff X) : bool :=
  match op with OsWriteFile _ _ | OsRemove _ | TimeNow => true | _ => false end.

(** No session is present: [LoadCurrentSession] (the spec's [current()])
    returns nil without error. *)
Definition session_absent {L : GoLib} (env : Env) (w : World) : Prop :=
  value (run env config.LoadCurrentSession w) = Ok None.

(** A session is present and is [s]. *)
Definition session_is {L : GoLib} (env : Env) (w : World) (s : CurrentSession) : Prop :=
  value (run env config.LoadCurrentSession w) = Ok (Some s).

Definition no_session_error : error :=
  ErrMsg "no active mob session. Run 'mob-claude start' first".

Definition mob_missing_error : error :=
  ErrMsg "mob.sh is not installed or not in PATH. Install from: https://mob.sh".

(** Removing the session file does not fail for a reason other than its
    absence. *)
Definition remove_ok (env : Env) : Prop :=
  match env_getwd env with
  | Ok cwd => env_remove_fault env (session_path cwd) = None
  | Fail _ => True
  end.

(** [printed s evs]: the string [s] was written to standard output. *)
Definition printed (s : string) (evs : list Event) : bool :=
  existsb (fun e =>
             match e with
             | Ev op _ =>
                 match op with
                 | FmtPrint t => String.eqb t s
                 | _ => false
                 end
             end) evs.

(** [ran name args evs]: the process [name] was run with [args]. *)
Definition ran (name : string) (args : list string) (evs : list Event) : bool :=
  existsb (fun e =>
             match e with
             | Ev op _ =>
                 match op with
                 | ExecRun n a => String.eqb n name && eqb_args a args
                 | _ => false
                 end
             end) evs.

Definition handoff_message : string := nl ++ "Handing off to next driver..." ++ nl.
Definition completing_message : string := nl ++ "Completing mob session..." ++ nl.

(** The events of the steps [next] and [done] start with: finding and
    checking the mob tool, loading the session. *)
Definition opening_events {L : GoLib} (env : Env) (w : World) : list Event :=
  ([Ev (ExecLookPath "mob") (env_lookpath env "mob");
    Ev (ExecRun (mob_path env) ["version"]) (env_exec env (mob_path env) ["version"])]
   ++ events (run env config.LoadCurrentSession w))%list.

(** The configuration [runNext] and [runDone] work with: the loaded one,
    or the defaults when loading fails. *)
Definition loaded_config {L : GoLib} (env : Env) (w : World) : Config :=
  match value (run env config.Load w) with
  | Ok cfg => cfg
  | Fail _ => config.DefaultConfig
  end.

(** What [runStart] prints once the session step is over. *)
Definition started_messages (driverName currentBranch : string) : list Event :=
  [Ev (FmtPrint (nl ++ "Mob session started!" ++ nl)) tt;
   Ev (FmtPrint ("Driver: " ++ driverName ++ nl)) tt;
   Ev (FmtPrint ("Branch: " ++ currentBranch ++ nl)) tt].

(** The warning a command prints for an error it does not return. *)
Definition warning (text : string) (err : option error) : list Event :=
  match err with
  | Some e => [Ev (FmtPrint (text ++ Error e ++ nl)) tt]
  | None => []
  end.

(** *** Plan reconciliation (spec section 4.2) *)

(** The local copy L as [start] reads it: the text [LoadPlan] returns,
    empty when there is no plan file (or it cannot be read). *)
Definition local_plan (env : Env) (planMgr : plans.Manager) (baseBranch : string)
    (w : World) : string :=
  match value (run env (plans.LoadPlan planMgr baseBranch) w) with
  | Ok text => text
  | Fail _ => EmptyString
  end.

(** The remote copy R as [start] fetches it: the text [GetPlan] returns
    when a dashboard is configured; empty when none is configured, when the
    fetch fails or when the dashboard has no plan. *)
Definition remote_plan {L : GoLib} (env : Env) (cfg : Config) (baseBranch : string)
    (w : World) : string :=
  if main.api_configured cfg then
    match value (run env (api.GetPlan (api.NewClient (APIURL cfg) (TeamName cfg))
                            baseBranch) w) with
    | Ok text => text
    | Fail _ => EmptyString
    end
  else EmptyString.

(** A copy is present when its text is not empty. *)
Definition present (text : string) : bool := negb (is_empty text).

(** The action column of the table of section 4.2. *)
Inductive Action : Type :=
| CreateTemplate   (* create a templated default plan locally; do not push *)
| AdoptRemote      (* write L := R *)
| KeepLocal.       (* keep L; no-op *)

(** The table of section 4.2, row by row. *)
Definition plan_table (l r : string) : Action :=
  match present l, present r with
  | false, false => CreateTemplate
  | false, true => AdoptRemote
  | true, false => KeepLocal
  | true, true => if String.eqb r l then KeepLocal else AdoptRemote
  end.

(** [SavePlan] can write the plan of the branch: the two directories can
    be made and the plan file can be written. *)
Definition can_save (env : Env) (planMgr : plans.Manager) (baseBranch : string) : bool :=
  match env_mkdir_fault env (filepath_Join [plans.projectRoot planMgr; plans.PlansDir]),
        env_mkdir_fault env (filepath_Join [plans.projectRoot planMgr; plans.SummariesDir]),
        env_write_fault env (plans.GetPlanPath planMgr baseBranch) with
  | None, None, None => true
  | _, _, _ => false
  end.

(** The files after a save of [content] as the plan of the branch. *)
Definition saved (env : Env) (planMgr : plans.Manager) (baseBranch content : string)
    (fs : gmap string string) : gmap string string :=
  if can_save env planMgr baseBranch
  then <[plans.GetPlanPath planMgr baseBranch := content]> fs
  else fs.

(** The files the table's action leaves, [now] being the time of the
    run. *)
Definition reconciled {L : GoLib} (env : Env) (planMgr : plans.Manager)
    (baseBranch : string) (l r : string) (now : Time)
    (fs : gmap string string) : gmap string string :=
  match plan_table l r with
  | CreateTemplate =>
      saved env planMgr baseBranch
            (plans.defaultPlanTemplate baseBranch (time_Format now time_RFC3339)) fs
  | AdoptRemote => saved env planMgr baseBranch r fs
  | KeepLocal => fs
  end.

(** The URL [GetPlan] requests. *)
Definition plan_endpoint {L : GoLib} (c : api.Client) (baseBranch : string) : string :=
  api.baseURL c ++ "/api/teams/" ++ url_PathEscape (api.teamName c)
  ++ "/workstreams/" ++ url_PathEscape baseBranch ++ "/plan".

(** The client [start] talks to the dashboard with. *)
Definition client_of (cfg : Config) : api.Client :=
  api.NewClient (APIURL cfg) (TeamName cfg).

(** *** Summaries as JSON *)

(** What [escapeJSON] makes of one byte. *)
Definition escape_byte (c : ascii) : string :=
  if Ascii.eqb c backslash then String backslash (str backslash)
  else if Ascii.eqb c quote then String backslash (str quote)
  else if Ascii.eqb c newline then String backslash "n"
  else if Ascii.eqb c creturn then String backslash "r"
  else if Ascii.eqb c tab then String backslash "t"
  else str c.

Fixpoint escape_bytes (s : string) : string :=
  match s with
  | EmptyString => EmptyString
  | String c r => escape_byte c ++ escape_bytes r
  end.

Fixpoint all_bytes (p : ascii -> bool) (s : string) : bool :=
  match s with
  | EmptyString => true
  | String c r => p c && all_bytes p r
  end.

(** A byte in the domain of C9: not a control character (a byte below
    0x20), unless it is a newline, a carriage return or a tab. *)
Definition escapable (c : ascii) : bool :=
  negb (Json.is_control c) || Ascii.eqb c newline || Ascii.eqb c creturn
  || Ascii.eqb c tab.

Definition clean (s : string) : Prop := all_bytes escapable s = true.

(** An ASCII byte that stands for itself inside a JSON string literal. *)
Definition plain_byte (c : ascii) : bool :=
  negb (Json.is_control c) && negb (Ascii.eqb c quote) && negb (Ascii.eqb c backslash)
  && (N_of_ascii c <? 128)%N.

Definition plain (s : string) : Prop := all_bytes plain_byte s = true.

(** The domain C9 names: no string field of the summary has a control
    character other than newline, carriage return and tab. *)
Definition no_control (s : Summary) : Prop :=
  clean (sDriverName s) /\ clean (sDriverNote s) /\ clean (sTLDR s) /\
  clean (sBranch s) /\ Forall clean (sChanges s) /\ Forall clean (sNextSteps s).

(** A text of the domain in which the round trip holds: no such control
    character, and well-formed UTF-8. *)
Definition text_ok (s : string) : Prop := clean s /\ Json.utf8_valid s = true.

Definition in_domain (s : Summary) : Prop :=
  text_ok (sDriverName s) /\ text_ok (sDriverNote s) /\ text_ok (sTLDR s) /\
  text_ok (sBranch s) /\ Forall text_ok (sChanges s) /\ Forall text_ok (sNextSteps s).

(** A text as the reader of JSON returns it: ASCII bytes and well-formed
    UTF-8 sequences as they are, every other byte replaced by U+FFFD. *)
Fixpoint as_utf8 (s : string) : string :=
  match s with
  | EmptyString => EmptyString
  | String c r =>
      if (N_of_ascii c <? 128)%N then String c (as_utf8 r)
      else
        match Json.seq_len c, r with
        | 2, String c2 r2 =>
            if Json.second_ok c c2 then String c (String c2 (as_utf8 r2))
            else Json.replacement ++ as_utf8 r
        | 3, String c2 (String c3 r3) =>
            if Json.second_ok c c2 && Json.is_cont c3
            then String c (String c2 (String c3 (as_utf8 r3)))
            else Json.replacement ++ as_utf8 r
        | 4, String c2 (String c3 (String c4 r4)) =>
            if Json.second_ok c c2 && Json.is_cont c3 && Json.is_cont c4
            then String c (String c2 (String c3 (String c4 (as_utf8 r4))))
            else Json.replacement ++ as_utf8 r
        | _, _ => Json.replacement ++ as_utf8 r
        end
  end.

(** The summary as the reader returns its string fields. *)
Definition as_read (s : Summary) : Summary :=
  {| sTimestamp := sTimestamp s;
     sDriverName := as_utf8 (sDriverName s);
     sDriverNote := as_utf8 (sDriverNote s);
     sTLDR := as_utf8 (sTLDR s);
     sChanges := map as_utf8 (sChanges s);
     sNextSteps := map as_utf8 (sNextSteps s);
     sBranch := as_utf8 (sBranch s) |}.

(** Every string field of the summary is well-formed UTF-8. *)
Definition fields_utf8 (s : Summary) : bool :=
  Json.utf8_valid (sDriverName s) && Json.utf8_valid (sDriverNote s)
  && Json.utf8_valid (sTLDR s) && forallb Json.utf8_valid (sChanges s)
  && forallb Json.utf8_valid (sNextSteps s) && Json.utf8_valid (sBranch s).

Definition is_ascii (c : ascii) : bool := (N_of_ascii c <? 128)%N.

(** A text that does not start with a continuation byte of UTF-8. *)
Definition ok_head (s : string) : bool :=
  match s with
  | EmptyString => true
  | String c _ => negb (Json.is_cont c)
  end.

(** The JSON object that holds the fields of a summary, the time stamp as
    [timestamp] renders it. *)
Definition summary_json (timestamp : string) (s : Summary) : Json.value :=
  Json.Obj [("timestamp", Json.Str timestamp);
            ("driverName", Json.Str (sDriverName s));
            ("driverNote", Json.Str (sDriverNote s));
            ("tldr", Json.Str (sTLDR s));
            ("changes", Json.Arr (map Json.Str (sChanges s)));
            ("nextSteps", Json.Arr (map Json.Str (sNextSteps s)));
            ("branch", Json.Str (sBranch s))].

(** The path [SaveSummary] writes to. *)
Definition summary_path {L : GoLib} (m : plans.Manager) (s : Summary) : string :=
  filepath_Join [plans.GetSummariesDir m;
                 time_Format (sTimestamp s) "2006-01-02T15-04-05" ++ ".json"].

(** The summary with another tldr. *)
Definition with_tldr (s : Summary) (tldr : string) : Summary :=
  {| sTimestamp := sTimestamp s;
     sDriverName := sDriverName s;
     sDriverNote := sDriverNote s;
     sTLDR := tldr;
     sChanges := sChanges s;
     sNextSteps := sNextSteps s;
     sBranch := sBranch s |}.

(** The five passes of [escapeJSON] as one function on strings. *)
Definition five_passes (s : string) : string :=
  subst_byte tab (String backslash "t")
    (subst_byte creturn (String backslash "r")
       (subst_byte newline (String backslash "n")
          (subst_byte quote (String backslash (str quote))
             (subst_byte backslash (String backslash (str backslash)) s)))).


(** One line of the object [SaveSummary] writes: a key, the text of the
    value, the value the text stands for, and the fuel reading it takes. *)
Record member : Type := mkMember {
  m_key : string;
  m_text : string;
  m_value : Json.value;
  m_fuel : nat
}.

(** The lines of an object, one member per line with two spaces in front
    and a comma between, followed by [tail]. *)
Fixpoint render (ms : list member) (tail : string) : string :=
  match ms with
  | [] => tail
  | m :: rest =>
      "  " ++ str quote ++ m_key m ++ str quote ++ ": " ++ m_text m
      ++ match rest with
         | [] => nl ++ tail
         | _ :: _ => "," ++ nl ++ render rest tail
         end
  end.

Definition string_member (key body value : string) : member :=
  {| m_key := key;
     m_text := str quote ++ body ++ str quote;
     m_value := Json.Str value;
     m_fuel := 0 |}.

Definition array_member (key : string) (l : list string) : member :=
  {| m_key := key;
     m_text := "[" ++ plans.formatStringArray l ++ "]";
     m_value := Json.Arr (map Json.Str (map as_utf8 l));
     m_fuel := S (List.length l) |}.

(** The seven members of a summary, in the order of the format string. *)
Definition summary_members {L : GoLib} (s : Summary) : list member :=
  [string_member "timestamp" (time_Format (sTimestamp s) time_RFC3339)
                 (time_Format (sTimestamp s) time_RFC3339);
   string_member "driverName" (plans.escapeJSON (sDriverName s))
                 (as_utf8 (sDriverName s));
   string_member "driverNote" (plans.escapeJSON (sDriverNote s))
                 (as_utf8 (sDriverNote s));
   string_member "tldr" (plans.escapeJSON (sTLDR s)) (as_utf8 (sTLDR s));
   array_member "changes" (sChanges s);
   array_member "nextSteps" (sNextSteps s);
   string_member "branch" (plans.escapeJSON (sBranch s)) (as_utf8 (sBranch s))].

(** Reading the text of a member's value gives its value, whatever
    follows, with enough fuel. *)
Definition value_ok (m : member) : Prop :=
  forall (f : nat) (tail : string),
    (m_fuel m <= f)%nat ->
    Json.parse_value (S f) (String " " (m_text m ++ tail)) = Some (m_value m, tail).

(** White space only. *)
Definition blank (s : string) : Prop := all_bytes Json.is_ws s = true.

(** An element of the arrays [formatStringArray] writes. *)
Definition quoted (s : string) : string := str quote ++ plans.escapeJSON s ++ str quote.

(** A value text the reader rejects, whatever follows. *)
Definition value_bad (m : member) : Prop :=
  forall (f : nat) (tail : string),
    Json.parse_value (S f) (String " " (m_text m ++ tail)) = None.

(** Every string of the list is in the domain. *)
Definition all_clean (l : list string) : bool := forallb (all_bytes escapable) l.


(* ===================================================================== *)
(** ** Further notions                                                    *)
(* ===================================================================== *)

(** Undoing [escapeJSON]: a backslash and the byte after it stand for one
    byte. *)
Definition unescape_byte (c : ascii) : ascii :=
  if Ascii.eqb c "n" then newline
  else if Ascii.eqb c "r" then creturn
  else if Ascii.eqb c "t" then tab
  else c.

Fixpoint unescape (s : string) : string :=
  match s with
  | EmptyString => EmptyString
  | String c r =>
      if Ascii.eqb c backslash then
        match r with
        | String d r' => String (unescape_byte d) (unescape r')
        | EmptyString => str c
        end
      else String c (unescape r)
  end.

(** The configuration file of the working copy. *)
Definition config_path (cwd : string) : string :=
  filepath_Join [filepath_Join [cwd; config.ConfigDir]; config.ConfigFileName].

(** The defaults [Load] applies to the fields a configuration file leaves
    empty (or zero). *)
Definition with_defaults (cfg : Config) : Config :=
  {| APIURL := if is_empty (APIURL cfg) then "http://localhost:3000" else APIURL cfg;
     TeamName := TeamName cfg;
     Model := if is_empty (Model cfg) then "haiku" else Model cfg;
     MaxTurns := if (MaxTurns cfg =? 0)%Z then 3%Z else MaxTurns cfg;
     SkipSummary := SkipSummary cfg |}.

(** The directory of the configuration and session files can be made. *)
Definition config_dir_ok (env : Env) (cwd : string) : Prop :=
  env_getwd env = Ok cwd /\
  env_mkdir_fault env (filepath_Join [cwd; config.ConfigDir]) = None.

(** A trace that is empty or a single HTTP request. *)
Definition at_most_one_request (evs : list Event) : Prop :=
  match evs with
  | [] => True
  | [Ev op _] => is_http _ op = true
  | _ :: _ :: _ => False
  end.

(** Every process of the trace is [name], and the trace has nothing but
    processes. *)
Definition runs_only (name : string) (evs : list Event) : Prop :=
  Forall (fun e =>
            match e with
            | Ev op _ =>
                match op with
                | ExecRun n _ => String.eqb n name
                | _ => false
                end
            end = true) evs.

(** The machine of the examples with the working copy on [branch]. *)
Definition env_on_branch (branch : string) : Env :=
  set_exec (Demo.env EmptyString)
    (fun name args =>
       if String.eqb name "git" && eqb_args args ["branch"; "--show-current"]
       then exec_ok (branch ++ nl)
       else Demo.exec EmptyString name args).

(** Writing a file. *)
Definition is_write (X : Type) (op : Eff X) : bool :=
  match op with OsWriteFile _ _ => true | _ => false end.

(** Running a process with a prompt, as [callClaude] runs the claude CLI
    (its first argument is -p). *)
Definition is_prompt : forall X : Type, Eff X -> bool := is_command "-p".

(** [runStart] up to the point where it uses the configuration: the mob
    tool is there, the working directory is known, mob start worked and
    the branch could be read. *)
Definition start_ready (env : Env) (args : list string) (cwd : string) : Prop :=
  existsb main.is_help_flag args = false /\
  mob_installed env /\
  env_getwd env = Ok cwd /\
  exec_err (env_exec env (mob_path env) ("start" :: args)) = None /\
  exec_err (env_exec env "git" ["branch"; "--show-current"]) = None.

(** The branch, base branch and repository URL [runStart] settles on. *)
Definition start_branch {L : GoLib} (env : Env) : string :=
  strings_TrimSpace (exec_stdout (env_exec env "git" ["branch"; "--show-current"])).

Definition start_base {L : GoLib} (env : Env) (w : World) : string :=
  match value (run env (mob.GetBaseBranch {| mob.mobPath := mob_path env |}) w) with
  | Ok b => b
  | Fail _ => start_branch env
  end.

Definition start_repo {L : GoLib} (env : Env) (w : World) : string :=
  match value (run env (mob.GetRepoURL {| mob.mobPath := mob_path env |}) w) with
  | Ok u => u
  | Fail _ => "unknown"
  end.


(** The session file can be made, written and read, and the decoder
    reads what the encoder writes for the session [s]. *)
Definition session_file_ok {L : GoLib} (env : Env) (cwd : string) (s : CurrentSession)
    : Prop :=
  env_mkdir_fault env (filepath_Join [cwd; config.ConfigDir]) = None /\
  env_write_fault env (session_path cwd) = None /\
  env_read_fault env (session_path cwd) = None /\
  exists data, json_MarshalIndent_CurrentSession s = Ok data /\
               json_Unmarshal_CurrentSession data = Ok s.

(** The session [runStart] builds, from the world the plan reconciliation
    leaves. *)
Definition started_session {L : GoLib} (env : Env) (cfg : Config) (cwd : string)
    (w : World) : CurrentSession :=
  snd (value (run env (main.runStart_newSession cfg (start_base env w) (start_repo env w))
                  (final (run env (main.runStart_reconcile cfg {| plans.projectRoot := cwd |}
                                     (start_base env w)) w)))).

(** An HTTP request with the given method. *)
Definition is_method (method : string) (X : Type) (op : Eff X) : bool :=
  match op with HttpDo m _ _ => String.eqb m method | _ => false end.

(** *** The two copies of the plan, from the file and from the answer *)



(** The number of characters of a UTF-8 text: the bytes that do not
    continue a character (those outside 0x80..0xBF). *)
Fixpoint utf8_chars (s : string) : nat :=
  match s with
  | EmptyString => 0
  | String c r =>
      if (128 <=? N_of_ascii c)%N && (N_of_ascii c <=? 191)%N
      then utf8_chars r else S (utf8_chars r)
  end.

(** A note of [n] times the two-byte character U+00E9. *)
Definition accented_note (n : nat) : string :=
  String.concat EmptyString (repeat (String "195" (String "169" EmptyString)) n).

(** A change to the local files other than writing [content] to [path]. *)
Definition is_other_change (path content : string) (X : Type) (op : Eff X) : bool :=
  match op with
  | OsWriteFile p c => negb (String.eqb p path && String.eqb c content)
  | OsRemove _ => true
  | _ => false
  end.
(* ===================================================================== *)
(** ** Strings                                                            *)
(* ===================================================================== *)

Section StringFacts.

Lemma append_nil_r (s : string) : s ++ EmptyString = s.
Proof. induction s as [| c s IH]; simpl; [reflexivity | now rewrite IH]. Qed.

Lemma append_assoc (a b c : string) : (a ++ b) ++ c = a ++ (b ++ c).
Proof. induction a as [| x a IH]; simpl; [reflexivity | now rewrite IH]. Qed.

Lemma length_append (a b : string) :
  String.length (a ++ b) = (String.length a + String.length b)%nat.
Proof. induction a as [| x a IH]; simpl; [reflexivity | now rewrite IH]. Qed.

Lemma has_byte_append (c : ascii) (a b : string) :
  has_byte c (a ++ b) = has_byte c a || has_byte c b.
Proof.
  induction a as [| x a IH]; simpl; [reflexivity |].
  rewrite IH. now rewrite orb_assoc.
Qed.

Lemma prefix_nil (s : string) : String.prefix EmptyString s = true.
Proof. now destruct s. Qed.

(** [ReplaceAll] with a one-byte pattern works byte by byte. *)
Lemma ReplaceAll_byte (s : string) (c : ascii) (new : string) :
  ReplaceAll s (String c EmptyString) new = subst_byte c new s.
Proof.
  unfold ReplaceAll.
  induction s as [| x r IH]; simpl; [reflexivity |].
  destruct (ascii_dec c x) as [-> | Hne].
  - rewrite Ascii.eqb_refl, prefix_nil. now rewrite IH.
  - assert (Ascii.eqb x c = false) as ->
      by (apply Ascii.eqb_neq; congruence).
    simpl. now rewrite IH.
Qed.

Lemma subst_byte_removes (c : ascii) (new s : string) :
  has_byte c new = false -> has_byte c (subst_byte c new s) = false.
Proof.
  intros Hnew. induction s as [| x r IH]; simpl; [reflexivity |].
  rewrite has_byte_append, IH, orb_false_r.
  destruct (Ascii.eqb x c) eqn:E; [exact Hnew |].
  simpl. now rewrite E.
Qed.

Lemma subst_byte_keeps_out (c d : ascii) (new s : string) :
  has_byte d new = false -> has_byte d s = false ->
  has_byte d (subst_byte c new s) = false.
Proof.
  intros Hnew. induction s as [| x r IH]; simpl; [reflexivity |].
  intros H. apply orb_false_iff in H as [Hx Hr].
  rewrite has_byte_append, (IH Hr), orb_false_r.
  destruct (Ascii.eqb x c); [exact Hnew |].
  simpl. now rewrite Hx.
Qed.

Lemma length_substring_prefix (n : nat) (s : string) :
  (n <= String.length s)%nat -> String.length (substring 0 n s) = n.
Proof.
  revert s; induction n as [| n IH]; intros s Hn.
  - now destruct s.
  - destruct s as [| c s]; simpl in *; [lia |].
    rewrite IH; [reflexivity | lia].
Qed.

End StringFacts.

(* ===================================================================== *)
(** ** C8: the plan file name                                             *)
(* ===================================================================== *)

(** C8.  For every branch name the file name [GetPlanPath] derives from it
    ("mob-" + sanitized branch + ".md") contains neither '/' nor the
    backslash; the plan path is the plans directory of the project root
    followed by that file name; and the derivation is a function of the
    manager and the branch: equal branch names give equal plan paths. *)
Theorem plan_filename_has_no_separator (m : plans.Manager) (branch : string) :
  has_byte "/" (plans.GetPlanPath_filename branch) = false /\
  has_byte backslash (plans.GetPlanPath_filename branch) = false /\
  plans.GetPlanPath m branch =
    filepath_Join [plans.projectRoot m; plans.PlansDir] ++ "/"
      ++ plans.GetPlanPath_filename branch /\
  (forall branch', branch' = branch ->
     plans.GetPlanPath m branch' = plans.GetPlanPath m branch).
Proof.
  unfold plans.GetPlanPath_filename, str.
  rewrite !ReplaceAll_byte.
  repeat split.
  - simpl. rewrite !has_byte_append. simpl.
    rewrite subst_byte_keeps_out; [reflexivity | reflexivity |].
    now apply subst_byte_removes.
  - simpl. rewrite !has_byte_append. simpl.
    now rewrite subst_byte_removes.
  - unfold plans.GetPlanPath, plans.GetPlanPath_filename, filepath_Join, str.
    rewrite !ReplaceAll_byte.
    destruct (plans.projectRoot m) as [| c root]; simpl; [reflexivity |].
    now rewrite !append_assoc.
  - now intros branch' ->.
Qed.

(* ===================================================================== *)
(** ** Runs of programs                                                   *)
(* ===================================================================== *)

Section RunFacts.
Context (env : Env).

Lemma run_Ret {A : Type} (a : A) (w : World) : run env (Ret a) w = mkRun a w [].
Proof. reflexivity. Qed.

Lemma run_TimeNow (w : World) :
  run env (trigger TimeNow) w =
    mkRun (env_clock env (ticks w)) {| files := files w; ticks := S (ticks w) |}
          [Ev TimeNow (env_clock env (ticks w))].
Proof. reflexivity. Qed.

Lemma run_print (s : string) (w : World) :
  run env (Printf s) w = mkRun tt w [Ev (FmtPrint s) tt].
Proof. reflexivity. Qed.

Lemma run_bind {A B : Type} (p : Prog A) (f : A -> Prog B) (w : World) :
  run env (bind p f) w =
    let r1 := run env p w in
    let r2 := run env (f (value r1)) (final r1) in
    mkRun (value r2) (final r2) (events r1 ++ events r2)%list.
Proof.
  revert w; induction p as [a | X op k IH]; intros w; simpl.
  - now destruct (run env (f a) w).
  - now rewrite IH.
Qed.

Lemma value_bind {A B : Type} (p : Prog A) (f : A -> Prog B) (w : World) :
  value (run env (bind p f) w) =
    value (run env (f (value (run env p w))) (final (run env p w))).
Proof. now rewrite run_bind. Qed.

Lemma final_bind {A B : Type} (p : Prog A) (f : A -> Prog B) (w : World) :
  final (run env (bind p f) w) =
    final (run env (f (value (run env p w))) (final (run env p w))).
Proof. now rewrite run_bind. Qed.

Lemma events_bind {A B : Type} (p : Prog A) (f : A -> Prog B) (w : World) :
  events (run env (bind p f) w) =
    (events (run env p w)
     ++ events (run env (f (value (run env p w))) (final (run env p w))))%list.
Proof. now rewrite run_bind. Qed.

End RunFacts.

(* ===================================================================== *)
(** ** C6 and C4: the fallback summary and summary synthesis              *)
(* ===================================================================== *)

Section Summaries.
Context (env : Env).

Lemma fallbackSummary_value (g : summary.Generator) (note branch : string) (w : World) :
  value (run env (summary.fallbackSummary g note branch) w) =
    {| sTimestamp := env_clock env (ticks w);
       sDriverName := EmptyString;
       sDriverNote := note;
       sTLDR := if negb (is_empty note)
                then if (len note >? 100)%Z then slice note 0 97 ++ "..." else note
                else "Rotation completed";
       sChanges := ["Changes made during rotation"];
       sNextSteps := ["Continue from where the previous driver left off"];
       sBranch := branch |}.
Proof. reflexivity. Qed.

End Summaries.

(** C6, as the code has it.  The fallback summary measures and cuts the
    driver note in bytes, not in characters.  A note of more than 100
    bytes gives a tldr of exactly 100 bytes, the first 97 bytes of the
    note followed by the ellipsis "..." (a character of several bytes
    that lies across the cut is split); a (non-empty) note of at most 100
    bytes is the tldr verbatim; the empty note gives the fixed string
    "Rotation completed". *)
Theorem fallback_tldr_truncation (env : Env) (g : summary.Generator)
    (note branch : string) (w : World) :
  let tldr := sTLDR (value (run env (summary.fallbackSummary g note branch) w)) in
  ((100 < String.length note)%nat ->
     String.length tldr = 100%nat /\ tldr = substring 0 97 note ++ "...") /\
  ((0 < String.length note <= 100)%nat -> tldr = note) /\
  (note = EmptyString -> tldr = "Rotation completed").
Proof.
  rewrite fallbackSummary_value. cbv zeta. simpl sTLDR. unfold len, slice.
  split; [| split].
  - intros Hlong. destruct note as [| c note]; [simpl in Hlong; lia |].
    cbn [is_empty negb].
    destruct (Z.gtb_spec (Z.of_nat (String.length (String c note))) 100) as [_ | Hle];
      [| lia].
    split; [| reflexivity].
    rewrite length_append, length_substring_prefix by lia. reflexivity.
  - intros [Hpos Hshort]. destruct note as [| c note]; [simpl in Hpos; lia |].
    cbn [is_empty negb].
    destruct (Z.gtb_spec (Z.of_nat (String.length (String c note))) 100) as [Hgt | _];
      [lia | reflexivity].
  - now intros ->.
Qed.

(** The three cases of C6 on notes of 120, 5 and 0 bytes. *)
Lemma fallback_tldr_truncation_witness :
  let long := String.concat EmptyString (repeat "abcdefghij" 12) in
  let tldr (note : string) :=
    sTLDR (value (run (Demo.env EmptyString)
                      (summary.fallbackSummary Demo.generator note "feature-x")
                      Demo.empty_world)) in
  (String.length (tldr long) = 100%nat /\ tldr long = substring 0 97 long ++ "...") /\
  tldr "fixed" = "fixed" /\
  tldr EmptyString = "Rotation completed".
Proof.
  intros long tldr.
  pose proof (fallback_tldr_truncation (Demo.env EmptyString)
                Demo.generator long "feature-x" Demo.empty_world) as [Hlong _].
  pose proof (fallback_tldr_truncation (Demo.env EmptyString)
                Demo.generator "fixed" "feature-x" Demo.empty_world) as [_ [Hshort _]].
  pose proof (fallback_tldr_truncation (Demo.env EmptyString)
                Demo.generator EmptyString "feature-x" Demo.empty_world) as [_ [_ Hempty]].
  split; [apply Hlong; vm_compute; lia |].
  split; [apply Hshort; vm_compute; lia | apply Hempty; reflexivity].
Defined.

(** C6 fails as stated, in characters.  A note of 60 characters of two
    bytes each has at most 100 characters, yet it is not the tldr
    verbatim: it is cut to 100 bytes, 48 whole characters and the first
    byte of the 49th, then the ellipsis, which is no longer well-formed
    UTF-8.  And a note of 101 such characters gives a tldr of 52
    characters, not of 100. *)
Lemma fallback_tldr_characters_counterexample :
  let tldr (note : string) :=
    sTLDR (value (run (Demo.env EmptyString)
                      (summary.fallbackSummary Demo.generator note "feature-x")
                      Demo.empty_world)) in
  utf8_chars (accented_note 60) = 60%nat /\
  String.length (accented_note 60) = 120%nat /\
  tldr (accented_note 60) <> accented_note 60 /\
  tldr (accented_note 60) = accented_note 48 ++ String "195" "..." /\
  String.length (tldr (accented_note 60)) = 100%nat /\
  Json.utf8_valid (accented_note 60) = true /\
  Json.utf8_valid (tldr (accented_note 60)) = false /\
  utf8_chars (accented_note 101) = 101%nat /\
  utf8_chars (tldr (accented_note 101)) = 52%nat.
Proof. vm_compute. repeat split. discriminate. Qed.




(* ===================================================================== *)
(** ** Operations a program never performs                                *)
(* ===================================================================== *)

Section Never.
Context (env : Env) (P : forall X : Type, Eff X -> bool).

Lemma never_bind {A B : Type} (p : Prog A) (f : A -> Prog B) :
  never P p -> (forall a, never P (f a)) -> never P (bind p f).
Proof.
  intros Hp Hf. induction p as [a | X op k IH]; simpl in *; [apply Hf |].
  destruct Hp as [Hop Hk]. split; [exact Hop |].
  intros x. apply IH, Hk.
Qed.

Lemma never_events {A : Type} (p : Prog A) (w : World) :
  never P p -> none P (events (run env p w)).
Proof.
  unfold none. revert w. induction p as [a | X op k IH]; intros w Hp; simpl.
  - constructor.
  - destruct Hp as [Hop Hk]. constructor; [exact Hop |]. apply IH, Hk.
Qed.

Lemma none_app (a b : list Event) : none P a -> none P b -> none P (a ++ b)%list.
Proof. unfold none. intros Ha Hb. apply Forall_app. now split. Qed.

Lemma none_nil : none P [].
Proof. constructor. Qed.

Lemma none_cons (e : Event) (l : list Event) :
  event_is P e = false -> none P l -> none P (e :: l).
Proof. unfold none. now constructor. Qed.

End Never.

(** A program that never writes or removes a file leaves the files alone. *)
Lemma never_change_files (env : Env) {A : Type} (p : Prog A) (w : World) :
  never is_file_change p -> files (final (run env p w)) = files w.
Proof.
  revert w. induction p as [a | X op k IH]; intros w Hp; simpl; [reflexivity |].
  destruct Hp as [Hop Hk]. rewrite IH by apply Hk.
  destruct op; simpl in *; try reflexivity; try discriminate.
  - now destruct (env_read_fault env name), (files w !! name).
Qed.

(** A program that never removes a file keeps every file that exists. *)
Lemma never_remove_keeps (env : Env) {A : Type} (p : Prog A) (w : World) (path : string) :
  never is_remove p -> is_Some (files w !! path) ->
  is_Some (files (final (run env p w)) !! path).
Proof.
  revert w. induction p as [a | X op k IH]; intros w Hp Hex; simpl; [exact Hex |].
  destruct Hp as [Hop Hk]. apply IH; [apply Hk |].
  destruct op; simpl in *; try exact Hex; try discriminate.
  - now destruct (env_read_fault env name), (files w !! name).
  - destruct (env_write_fault env name); simpl; [exact Hex |].
    destruct (decide (name = path)) as [-> | Hne].
    + rewrite lookup_insert_eq. eauto.
    + now rewrite lookup_insert_ne.
Qed.

(** Solves [never P p] for the functions of the model: it follows the
    syntax of the program, unfolding the functions it calls. *)
Create HintDb model discriminated.
#[export] Hint Unfold trigger Println Printf
  config.GetConfigDir config.EnsureConfigDir config.Load config.LoadCurrentSession
  config.SaveCurrentSession config.ClearCurrentSession
  plans.NewManager plans.EnsureDirs plans.LoadPlan plans.SavePlan
  plans.CreateDefaultPlan plans.SaveSummary
  api.GetPlan api.CreateWorkstream api.UpdatePlan api.CreateRotation
  mob.NewWrapper mob.runPassthrough mob.Start mob.Next mob.Done mob.CheckMobInstalled
  mob.GetCurrentBranch mob.GetRepoURL mob.GetDiffSinceLastCommit mob.GetDiffFromBase
  mob.GetBaseBranch
  summary.callClaude summary.fallbackSummary summary.Generate
  main.getGitConfigValue main.getDriverName main.runStart_fetchPlan
  main.runStart_decidePlan main.runStart_reconcile main.runStart_newSession
  main.runStart_saveSession main.runStart_session
  main.runNext_summary main.runNext_record main.runDone_summary : model.

Ltac never_tac :=
  repeat first
    [ exact I
    | match goal with
      | |- never _ (bind _ _) => apply never_bind; [| intros ?]
      | |- never _ (Vis _ _) => split; [reflexivity | intros ?]
      | |- never _ (match ?x with _ => _ end) => destruct x
      | |- never _ (if ?b then _ else _) => destruct b
      end
    | progress cbv zeta
    | progress autounfold with model
    | progress cbn [plans.EnsureDirs_loop mob.GetDiffFromBase_loop] ].

(** Solves [none P evs] for a trace made of literal events and of the
    events of runs of model functions. *)
Ltac none_tac :=
  repeat match goal with
    | |- none _ (_ ++ _)%list => apply none_app
    | |- none _ [] => apply none_nil
    | |- none _ (_ :: _) => apply none_cons; [reflexivity |]
    | |- none _ (events (run _ _ _)) => apply never_events; never_tac
    end.

(* ===================================================================== *)
(** ** The first steps of every command                                   *)
(* ===================================================================== *)

Lemma never_change_world (env : Env) {A : Type} (p : Prog A) (w : World) :
  never is_world_change p -> final (run env p w) = w.
Proof.
  revert w. induction p as [a | X op k IH]; intros w Hp; simpl; [reflexivity |].
  destruct Hp as [Hop Hk]. rewrite IH by apply Hk.
  destruct op; simpl in *; try reflexivity; try discriminate.
  - now destruct (env_read_fault env name), (files w !! name).
Qed.

Section Prelude.
Context {L : GoLib} (env : Env).

Lemma run_NewWrapper (w : World) :
  run env mob.NewWrapper w =
    mkRun {| mob.mobPath := mob_path env |} w
          [Ev (ExecLookPath "mob") (env_lookpath env "mob")].
Proof.
  unfold mob.NewWrapper, mob_path. simpl.
  now destruct (env_lookpath env "mob").
Qed.

Lemma run_CheckMobInstalled (w : World) :
  run env (mob.CheckMobInstalled {| mob.mobPath := mob_path env |}) w =
    mkRun (match exec_err (env_exec env (mob_path env) ["version"]) with
           | Some _ => Some mob_missing_error
           | None => None
           end) w
          [Ev (ExecRun (mob_path env) ["version"]) (env_exec env (mob_path env) ["version"])].
Proof.
  unfold mob.CheckMobInstalled. simpl.
  now destruct (exec_err (env_exec env (mob_path env) ["version"])).
Qed.

Lemma LoadCurrentSession_pure (w : World) :
  final (run env config.LoadCurrentSession w) = w.
Proof. apply never_change_world. never_tac. Qed.

Lemma Load_pure (w : World) : final (run env config.Load w) = w.
Proof. apply never_change_world. never_tac. Qed.

Lemma NewManager_pure (w : World) : final (run env plans.NewManager w) = w.
Proof. apply never_change_world. never_tac. Qed.

End Prelude.

(* ===================================================================== *)
(** ** C3: next without a session                                         *)
(* ===================================================================== *)

(** C3, as the code has it.  When [next] is invoked with the mob tool
    installed and no session present, the command fails at once with the
    "no active mob session" error (exit status 1); it changes nothing in
    the world, so no summary file is written, and it sends no HTTP request.
    (The check that the mob tool is installed comes first: without the
    tool the command fails with that error instead.) *)
Theorem next_without_session_fails {L : GoLib} (env : Env) (w : World)
    (skipSummary : bool) (message : string) (args : list string) :
  mob_installed env ->
  session_absent env w ->
  let r := run env (main.runNext skipSummary message args) w in
  value r = Returned (Some no_session_error) /\
  exitCode (value r) = 1%Z /\
  final r = w /\
  none is_file_change (events r) /\
  none is_http (events r).
Proof.
  intros Hmob Habsent r. subst r. unfold main.runNext.
  rewrite run_bind, run_NewWrapper. cbv zeta. cbn [value final events].
  rewrite run_bind, run_CheckMobInstalled. cbv zeta. cbn [value final events].
  rewrite Hmob.
  rewrite run_bind. cbv zeta.
  rewrite LoadCurrentSession_pure, Habsent. cbv beta iota. rewrite run_Ret.
  cbn [value final events].
  repeat split; none_tac.
Qed.

(** C3 at work: a machine with the mob tool, a working copy without a
    session file. *)
Lemma next_without_session_fails_witness :
  mob_installed (Demo.env EmptyString) /\
  session_absent (L := RefLib.lib) (Demo.env EmptyString) Demo.empty_world /\
  let r := run (Demo.env EmptyString)
               (main.runNext (L := RefLib.lib) false "wip" []) Demo.empty_world in
  value r = Returned (Some no_session_error) /\
  exitCode (value r) = 1%Z /\
  final r = Demo.empty_world /\
  none is_file_change (events r) /\
  none is_http (events r).
Proof.
  split; [reflexivity |]. split; [reflexivity |].
  apply (next_without_session_fails (L := RefLib.lib) (Demo.env EmptyString)
           Demo.empty_world false "wip" []); reflexivity.
Defined.

(** C3 fails as stated: with no session present and the mob tool not
    installed, [next] fails with the error of the tool check, not with the
    "no active mob session" error. *)
Lemma next_without_mob_counterexample :
  session_absent (L := RefLib.lib) Demo.env_without_mob Demo.empty_world /\
  value (run Demo.env_without_mob
             (main.runNext (L := RefLib.lib) false "wip" []) Demo.empty_world)
    = Returned (Some mob_missing_error) /\
  mob_missing_error <> no_session_error.
Proof.
  split; [reflexivity |]. split; [reflexivity | discriminate].
Qed.

(* ===================================================================== *)
(** ** The session file                                                   *)
(* ===================================================================== *)

Section SessionFile.
Context {L : GoLib} (env : Env).

Lemma value_LoadCurrentSession (w : World) :
  value (run env config.LoadCurrentSession w) =
    match env_getwd env with
    | Fail err => Fail err
    | Ok cwd =>
        match env_read_fault env (session_path cwd) with
        | Some m => Fail (ErrMsg m)
        | None =>
            match files w !! session_path cwd with
            | None => Ok None
            | Some data =>
                match json_Unmarshal_CurrentSession data with
                | Ok s => Ok (Some s)
                | Fail err => Fail err
                end
            end
        end
    end.
Proof.
  unfold config.LoadCurrentSession, config.GetConfigDir, session_path. simpl.
  destruct (env_getwd env) as [cwd | err]; simpl; [| reflexivity].
  destruct (env_read_fault env _); simpl; [reflexivity |].
  destruct (files w !! _); simpl; [| reflexivity].
  now destruct (json_Unmarshal_CurrentSession _).
Qed.

(** A session can only be loaded from an existing, readable file. *)
Lemma session_is_inv (w : World) (s : CurrentSession) :
  session_is env w s ->
  exists cwd, env_getwd env = Ok cwd /\
              env_read_fault env (session_path cwd) = None /\
              is_Some (files w !! session_path cwd).
Proof.
  unfold session_is. rewrite value_LoadCurrentSession.
  destruct (env_getwd env) as [cwd | err]; [| discriminate].
  destruct (env_read_fault env _) eqn:Hrd; [discriminate |].
  destruct (files w !! _) eqn:Hf; [| discriminate].
  intros _. exists cwd. eauto.
Qed.

Lemma session_absent_inv (w : World) :
  session_absent env w ->
  exists cwd, env_getwd env = Ok cwd /\
              env_read_fault env (session_path cwd) = None /\
              files w !! session_path cwd = None.
Proof.
  unfold session_absent. rewrite value_LoadCurrentSession.
  destruct (env_getwd env) as [cwd | err]; [| discriminate].
  destruct (env_read_fault env _) eqn:Hrd; [discriminate |].
  destruct (files w !! _) eqn:Hf.
  - destruct (json_Unmarshal_CurrentSession _); discriminate.
  - intros _. exists cwd. eauto.
Qed.

(** [ClearCurrentSession] when the working directory is known. *)
Lemma run_ClearCurrentSession (w : World) (cwd : string) :
  env_getwd env = Ok cwd ->
  run env config.ClearCurrentSession w =
    let rm := answer env (OsRemove (session_path cwd)) w in
    mkRun (match fst rm with
           | Some e => if os_IsNotExist e then None else Some e
           | None => None
           end)
          (snd rm)
          [Ev OsGetwd (Ok cwd); Ev (OsRemove (session_path cwd)) (fst rm)].
Proof.
  intros Hwd.
  unfold config.ClearCurrentSession, config.GetConfigDir, session_path.
  simpl. rewrite Hwd. simpl.
  destruct (env_remove_fault env _); simpl; [reflexivity |].
  now destruct (files w !! _).
Qed.

(** When the removal does not fail, the session file is gone after
    [ClearCurrentSession] and the function returns nil. *)
Lemma ClearCurrentSession_clears (w : World) (cwd : string) :
  env_getwd env = Ok cwd ->
  env_remove_fault env (session_path cwd) = None ->
  let r := run env config.ClearCurrentSession w in
  value r = None /\
  files (final r) !! session_path cwd = None /\
  events r = [Ev OsGetwd (Ok cwd);
              Ev (OsRemove (session_path cwd))
                 (match files w !! session_path cwd with
                  | Some _ => None
                  | None => Some (ErrNotExist (session_path cwd))
                  end)].
Proof.
  intros Hwd Hrm. cbv zeta. rewrite (run_ClearCurrentSession w cwd Hwd).
  cbv zeta. simpl. rewrite Hrm.
  destruct (files w !! session_path cwd) eqn:Hf; simpl.
  - rewrite lookup_delete_eq. auto.
  - auto.
Qed.

End SessionFile.

(* ===================================================================== *)
(** ** The shape of a run of next and of done                             *)
(* ===================================================================== *)

Section NextDone.
Context {L : GoLib} (env : Env).

Lemma value_NewManager (w : World) (cwd : string) :
  env_getwd env = Ok cwd ->
  value (run env plans.NewManager w) = Ok {| plans.projectRoot := cwd |}.
Proof. intros Hwd. unfold plans.NewManager. simpl. now rewrite Hwd. Qed.

(** With the mob tool installed and a session present, [runNext] makes
    the summary, records it, and hands off. *)
Lemma run_runNext_with_session (w : World) (s : CurrentSession) (cwd : string)
    (skipSummary : bool) (message : string) (args : list string) :
  mob_installed env ->
  session_is env w s ->
  env_getwd env = Ok cwd ->
  let mw := {| mob.mobPath := mob_path env |} in
  let cfg := loaded_config env w in
  let planMgr := {| plans.projectRoot := cwd |} in
  let r1 := run env (main.runNext_summary mw cfg s skipSummary message) w in
  let r2 := run env (main.runNext_record planMgr cfg s message (value r1)) (final r1) in
  let r3 := run env (main.runNext_handoff mw args) (final r2) in
  run env (main.runNext skipSummary message args) w =
    mkRun (value r3) (final r3)
          (opening_events env w ++ events (run env config.Load w)
           ++ events (run env plans.NewManager w)
           ++ events r1 ++ events r2 ++ events r3)%list.
Proof.
  intros Hmob Hs Hwd. cbv zeta. unfold main.runNext, opening_events, loaded_config.
  rewrite run_bind, run_NewWrapper. cbv zeta. cbn [value final events].
  rewrite run_bind, run_CheckMobInstalled. cbv zeta. cbn [value final events].
  rewrite Hmob.
  rewrite run_bind. cbv zeta. rewrite LoadCurrentSession_pure, Hs. cbv beta iota.
  rewrite run_bind. cbv zeta. rewrite Load_pure.
  rewrite run_bind. cbv zeta. rewrite NewManager_pure, (value_NewManager w cwd Hwd).
  cbv beta iota.
  rewrite run_bind. cbv zeta. rewrite run_bind. cbv zeta.
  cbn [value final events].
  now rewrite <- !app_assoc.
Qed.

(** With the mob tool installed and the session loaded without error
    (present or not), [runDone] makes the final summary and completes. *)
Lemma run_runDone_loaded (w : World) (so : option CurrentSession)
    (skipSummary : bool) (message : string) (args : list string) :
  mob_installed env ->
  value (run env config.LoadCurrentSession w) = Ok so ->
  let mw := {| mob.mobPath := mob_path env |} in
  let cfg := loaded_config env w in
  let r1 := run env (main.runDone_summary mw cfg so skipSummary message) w in
  let r2 := run env (main.runDone_complete mw args) (final r1) in
  run env (main.runDone skipSummary message args) w =
    mkRun (value r2) (final r2)
          (opening_events env w ++ events (run env config.Load w)
           ++ events r1 ++ events r2)%list.
Proof.
  intros Hmob Hs. cbv zeta. unfold main.runDone, opening_events, loaded_config.
  rewrite run_bind, run_NewWrapper. cbv zeta. cbn [value final events].
  rewrite run_bind, run_CheckMobInstalled. cbv zeta. cbn [value final events].
  rewrite Hmob.
  rewrite run_bind. cbv zeta. rewrite LoadCurrentSession_pure, Hs. cbv beta iota.
  rewrite run_bind. cbv zeta. rewrite Load_pure.
  rewrite run_bind. cbv zeta.
  cbn [value final events].
  now rewrite <- !app_assoc.
Qed.

(** With the mob tool installed, a session that cannot be loaded aborts
    [runNext] and [runDone] on the spot. *)
Lemma run_runNext_load_error (w : World) (err : error)
    (skipSummary : bool) (message : string) (args : list string) :
  mob_installed env ->
  value (run env config.LoadCurrentSession w) = Fail err ->
  run env (main.runNext skipSummary message args) w =
    mkRun (Returned (Some (Errorf "failed to load session: " err))) w (opening_events env w).
Proof.
  intros Hmob Hs. unfold main.runNext, opening_events.
  rewrite run_bind, run_NewWrapper. cbv zeta. cbn [value final events].
  rewrite run_bind, run_CheckMobInstalled. cbv zeta. cbn [value final events].
  rewrite Hmob.
  rewrite run_bind. cbv zeta. rewrite LoadCurrentSession_pure, Hs. cbv beta iota.
  rewrite run_Ret. cbn [value final events].
  now rewrite app_nil_r.
Qed.

Lemma run_runDone_load_error (w : World) (err : error)
    (skipSummary : bool) (message : string) (args : list string) :
  mob_installed env ->
  value (run env config.LoadCurrentSession w) = Fail err ->
  run env (main.runDone skipSummary message args) w =
    mkRun (Returned (Some (Errorf "failed to load session: " err))) w (opening_events env w).
Proof.
  intros Hmob Hs. unfold main.runDone, opening_events.
  rewrite run_bind, run_NewWrapper. cbv zeta. cbn [value final events].
  rewrite run_bind, run_CheckMobInstalled. cbv zeta. cbn [value final events].
  rewrite Hmob.
  rewrite run_bind. cbv zeta. rewrite LoadCurrentSession_pure, Hs. cbv beta iota.
  rewrite run_Ret. cbn [value final events].
  now rewrite app_nil_r.
Qed.

(** The hand-off of [runNext]: clear the session, warn if that failed,
    announce, run mob next and return its result. *)
Lemma run_runNext_handoff (w : World) (mw : mob.Wrapper) (args : list string) :
  let rc := run env config.ClearCurrentSession w in
  let res := env_exec env (mob.mobPath mw) ("next" :: args) in
  run env (main.runNext_handoff mw args) w =
    mkRun (Returned (exec_err res)) (final rc)
          (events rc
           ++ warning "Warning: could not clear session: " (value rc)
           ++ [Ev (FmtPrint handoff_message) tt;
               Ev (ExecRun (mob.mobPath mw) ("next" :: args)) res])%list.
Proof.
  cbv zeta. unfold main.runNext_handoff, warning.
  rewrite run_bind. cbv zeta.
  destruct (value (run env config.ClearCurrentSession w)); reflexivity.
Qed.

(** The completion of [runDone]: clear the session (any error is
    dropped), announce, run mob done and return its result. *)
Lemma run_runDone_complete (w : World) (mw : mob.Wrapper) (args : list string) :
  let rc := run env config.ClearCurrentSession w in
  let res := env_exec env (mob.mobPath mw) ("done" :: args) in
  run env (main.runDone_complete mw args) w =
    mkRun (Returned (exec_err res)) (final rc)
          (events rc
           ++ [Ev (FmtPrint completing_message) tt;
               Ev (ExecRun (mob.mobPath mw) ("done" :: args)) res])%list.
Proof.
  cbv zeta. unfold main.runDone_complete.
  rewrite run_bind. cbv zeta. reflexivity.
Qed.

(** The last step of [runStart]: save the session, warn if that failed,
    report and return nil. *)
Lemma run_runStart_saveSession (w : World) (session : CurrentSession)
    (driverName currentBranch : string) :
  let rs := run env (config.SaveCurrentSession session) w in
  run env (main.runStart_saveSession session driverName currentBranch) w =
    mkRun (Returned None) (final rs)
          (events rs
           ++ warning "Warning: could not save session: " (value rs)
           ++ started_messages driverName currentBranch)%list.
Proof.
  cbv zeta. unfold main.runStart_saveSession, warning, started_messages.
  rewrite run_bind. cbv zeta.
  destruct (value (run env (config.SaveCurrentSession session) w)); reflexivity.
Qed.

End NextDone.

(* ===================================================================== *)
(** ** C2: the session is cleared before the hand-off                     *)
(* ===================================================================== *)

Section Cleared.
Context {L : GoLib} (env : Env).

Lemma session_absent_of_no_file (w : World) (cwd : string) :
  env_getwd env = Ok cwd ->
  env_read_fault env (session_path cwd) = None ->
  files w !! session_path cwd = None ->
  session_absent env w.
Proof.
  intros Hwd Hrd Hf. unfold session_absent.
  now rewrite value_LoadCurrentSession, Hwd, Hrd, Hf.
Qed.

Lemma runNext_summary_keeps (w : World) (mw : mob.Wrapper) (cfg : Config)
    (s : CurrentSession) (skip : bool) (msg path : string) :
  is_Some (files w !! path) ->
  is_Some (files (final (run env (main.runNext_summary mw cfg s skip msg) w)) !! path).
Proof. apply never_remove_keeps. never_tac. Qed.

Lemma runNext_record_keeps (w : World) (pm : plans.Manager) (cfg : Config)
    (s : CurrentSession) (msg : string) (so : option Summary) (path : string) :
  is_Some (files w !! path) ->
  is_Some (files (final (run env (main.runNext_record pm cfg s msg so) w)) !! path).
Proof. apply never_remove_keeps. never_tac. Qed.

Lemma runDone_summary_keeps (w : World) (mw : mob.Wrapper) (cfg : Config)
    (so : option CurrentSession) (skip : bool) (msg path : string) :
  is_Some (files w !! path) ->
  is_Some (files (final (run env (main.runDone_summary mw cfg so skip msg) w)) !! path).
Proof. apply never_remove_keeps. never_tac. Qed.

End Cleared.

(** C2, as the code has it.  Take a run of [next] with a session present,
    or a run of [done] whose session loads without error, on a machine with
    the mob tool, and suppose that removing the session file does not fail.
    Then the trace of the run ends with: the removal of the session file,
    the announcement, and the mob tool run with next (or done); nothing
    before that runs the tool with next (or done); the command returns the
    tool's result; and afterwards loading the current session returns
    absent.  This holds whatever the dashboard and the summary backend
    answer.  (If the removal fails, [next] only warns and [done] ignores
    it: the tool is still run and the session stays.) *)
Theorem session_cleared_before_handoff {L : GoLib} (env : Env) (w : World)
    (skipSummary : bool) (message : string) (args : list string) :
  mob_installed env ->
  remove_ok env ->
  (forall s, session_is env w s ->
     let r := run env (main.runNext skipSummary message args) w in
     exists pre cwd res,
       events r = (pre ++ [Ev OsGetwd (Ok cwd);
                           Ev (OsRemove (session_path cwd)) None;
                           Ev (FmtPrint handoff_message) tt;
                           Ev (ExecRun (mob_path env) ("next" :: args)) res])%list /\
       none (is_command "next") pre /\
       value r = Returned (exec_err res) /\
       session_absent env (final r)) /\
  (forall so, value (run env config.LoadCurrentSession w) = Ok so ->
     let r := run env (main.runDone skipSummary message args) w in
     exists pre cwd rm res,
       events r = (pre ++ [Ev OsGetwd (Ok cwd);
                           Ev (OsRemove (session_path cwd)) rm;
                           Ev (FmtPrint completing_message) tt;
                           Ev (ExecRun (mob_path env) ("done" :: args)) res])%list /\
       none (is_command "done") pre /\
       value r = Returned (exec_err res) /\
       session_absent env (final r)).
Proof.
  intros Hmob Hrm. split.
  - intros s Hs r. subst r.
    destruct (session_is_inv env w s Hs) as (cwd & Hwd & Hrd & Hex).
    unfold remove_ok in Hrm. rewrite Hwd in Hrm.
    rewrite (run_runNext_with_session env w s cwd) by assumption.
    cbv zeta. cbn [events value final].
    rewrite run_runNext_handoff. cbv zeta. cbn [events value final].
    set (w2 := final (run env (main.runNext_record _ _ _ _ _) _)).
    assert (is_Some (files w2 !! session_path cwd)) as [data Hdata]
      by (apply runNext_record_keeps, runNext_summary_keeps, Hex).
    destruct (ClearCurrentSession_clears env w2 cwd Hwd Hrm) as (Hv & Hgone & Hev).
    rewrite Hv, Hev, Hdata. cbn [mob.mobPath warning].
    exists (opening_events env w ++ events (run env config.Load w)
            ++ events (run env plans.NewManager w)
            ++ events (run env (main.runNext_summary {| mob.mobPath := mob_path env |}
                                  (loaded_config env w) s skipSummary message) w)
            ++ events (run env (main.runNext_record {| plans.projectRoot := cwd |}
                                  (loaded_config env w) s message
                                  (value (run env (main.runNext_summary
                                            {| mob.mobPath := mob_path env |}
                                            (loaded_config env w) s skipSummary message) w)))
                          (final (run env (main.runNext_summary
                                            {| mob.mobPath := mob_path env |}
                                            (loaded_config env w) s skipSummary message) w))))%list,
      cwd, (env_exec env (mob_path env) ("next" :: args)).
    split; [| split; [| split]].
    + now rewrite <- !app_assoc.
    + unfold opening_events. none_tac.
    + reflexivity.
    + now apply (session_absent_of_no_file env _ cwd).
  - intros so Hs r. subst r.
    assert (exists cwd, env_getwd env = Ok cwd /\
                        env_read_fault env (session_path cwd) = None)
      as (cwd & Hwd & Hrd).
    { rewrite value_LoadCurrentSession in Hs.
      destruct (env_getwd env) as [cwd | err]; [| discriminate].
      destruct (env_read_fault env _) eqn:Hrd; [discriminate |].
      exists cwd. auto. }
    unfold remove_ok in Hrm. rewrite Hwd in Hrm.
    rewrite (run_runDone_loaded env w so) by assumption.
    cbv zeta. cbn [events value final].
    rewrite run_runDone_complete. cbv zeta. cbn [events value final].
    set (w1 := final (run env (main.runDone_summary _ _ _ _ _) _)).
    destruct (ClearCurrentSession_clears env w1 cwd Hwd Hrm) as (Hv & Hgone & Hev).
    rewrite Hev. cbn [mob.mobPath].
    exists (opening_events env w ++ events (run env config.Load w)
            ++ events (run env (main.runDone_summary {| mob.mobPath := mob_path env |}
                                  (loaded_config env w) so skipSummary message) w))%list,
      cwd,
      (match files w1 !! session_path cwd with
       | Some _ => None
       | None => Some (ErrNotExist (session_path cwd))
       end),
      (env_exec env (mob_path env) ("done" :: args)).
    split; [| split; [| split]].
    + now rewrite <- !app_assoc.
    + unfold opening_events. none_tac.
    + reflexivity.
    + now apply (session_absent_of_no_file env _ cwd).
Qed.

(** C2 at work: next and done on a machine where everything works, the
    claude CLI answering with an empty object and no dashboard reachable. *)
Lemma session_cleared_before_handoff_witness :
  let env := Demo.env "{}" in
  let w := Demo.started_world in
  mob_installed env /\ remove_ok env /\
  session_is (L := RefLib.lib) env w Demo.session /\
  (let r := run env (main.runNext (L := RefLib.lib) false "wip" []) w in
   exists pre cwd res,
     events r = (pre ++ [Ev OsGetwd (Ok cwd);
                         Ev (OsRemove (session_path cwd)) None;
                         Ev (FmtPrint handoff_message) tt;
                         Ev (ExecRun (mob_path env) ["next"]) res])%list /\
     none (is_command "next") pre /\
     value r = Returned (exec_err res) /\
     session_absent (L := RefLib.lib) env (final r)) /\
  (let r := run env (main.runDone (L := RefLib.lib) false "wip" []) w in
   exists pre cwd rm res,
     events r = (pre ++ [Ev OsGetwd (Ok cwd);
                         Ev (OsRemove (session_path cwd)) rm;
                         Ev (FmtPrint completing_message) tt;
                         Ev (ExecRun (mob_path env) ["done"]) res])%list /\
     none (is_command "done") pre /\
     value r = Returned (exec_err res) /\
     session_absent (L := RefLib.lib) env (final r)).
Proof.
  intros env w.
  assert (mob_installed env) as Hmob by reflexivity.
  assert (remove_ok env) as Hrm by reflexivity.
  assert (session_is (L := RefLib.lib) env w Demo.session) as Hs by reflexivity.
  destruct (session_cleared_before_handoff (L := RefLib.lib) env w false "wip" [] Hmob Hrm)
    as [Hnext Hdone].
  split; [exact Hmob |]. split; [exact Hrm |]. split; [exact Hs |].
  split; [exact (Hnext Demo.session Hs) | exact (Hdone (Some Demo.session) Hs)].
Defined.

(** C2 fails as stated: when the session file cannot be removed, [next]
    prints a warning, runs mob next all the same and returns success, and
    loading the current session afterwards still returns the session. *)
Lemma session_survives_next_counterexample :
  let env := Demo.env_session_locked in
  let r := run env (main.runNext (L := RefLib.lib) true EmptyString []) Demo.started_world in
  mob_installed env /\
  session_is (L := RefLib.lib) env Demo.started_world Demo.session /\
  value r = Returned None /\
  printed ("Warning: could not clear session: operation not permitted" ++ nl) (events r) = true /\
  ran "/usr/bin/mob" ["next"] (events r) = true /\
  session_is (L := RefLib.lib) env (final r) Demo.session.
Proof. vm_compute. repeat split. Qed.

(* ===================================================================== *)
(** ** C5: failures on the session file                                   *)
(* ===================================================================== *)

(** C5, as the code has it.  Only a failure to read the session file is a
    hard error: with the mob tool installed, [next] and [done] abort with
    "failed to load session" and change nothing.  A failed session save in
    [start] and a failed session clear in [next] are warnings, like the
    summary and plan writes: the last step of [start] saves the session,
    prints a warning when that failed, prints its report and returns nil;
    the hand-off of [next] clears the session, prints a warning when that
    failed, and runs mob next, whose result it returns. *)
Theorem session_read_aborts_save_and_clear_warn {L : GoLib} (env : Env) (w : World) :
  (forall err skipSummary message args,
     mob_installed env ->
     value (run env config.LoadCurrentSession w) = Fail err ->
     let abort := Returned (Some (Errorf "failed to load session: " err)) in
     run env (main.runNext skipSummary message args) w = mkRun abort w (opening_events env w) /\
     run env (main.runDone skipSummary message args) w = mkRun abort w (opening_events env w) /\
     exitCode abort = 1%Z /\
     none is_file_change (opening_events env w) /\
     none is_http (opening_events env w)) /\
  (forall session driverName currentBranch,
     let rs := run env (config.SaveCurrentSession session) w in
     let r := run env (main.runStart_saveSession session driverName currentBranch) w in
     value r = Returned None /\
     exitCode (value r) = 0%Z /\
     events r = (events rs
                 ++ warning "Warning: could not save session: " (value rs)
                 ++ started_messages driverName currentBranch)%list) /\
  (forall mobWrapper args,
     let rc := run env config.ClearCurrentSession w in
     let r := run env (main.runNext_handoff mobWrapper args) w in
     let res := env_exec env (mob.mobPath mobWrapper) ("next" :: args) in
     value r = Returned (exec_err res) /\
     events r = (events rc
                 ++ warning "Warning: could not clear session: " (value rc)
                 ++ [Ev (FmtPrint handoff_message) tt;
                     Ev (ExecRun (mob.mobPath mobWrapper) ("next" :: args)) res])%list).
Proof.
  split; [| split].
  - intros err skipSummary message args Hmob Herr abort.
    rewrite (run_runNext_load_error env w err) by assumption.
    rewrite (run_runDone_load_error env w err) by assumption.
    repeat split; unfold opening_events; none_tac.
  - intros session driverName currentBranch rs r. subst rs r.
    rewrite run_runStart_saveSession. cbv zeta. cbn [value events].
    repeat split.
  - intros mobWrapper args rc r res. subst rc r res.
    rewrite run_runNext_handoff. cbv zeta. cbn [value events].
    repeat split.
Qed.

(** C5 at work: a session file that is not valid JSON. *)
Lemma session_read_aborts_witness :
  let env := Demo.env "{}" in
  let w := {| files := {[ Demo.session_path := "not json" ]}; ticks := 0 |} in
  let err := ErrMsg "invalid character or unexpected end of JSON input" in
  let abort := Returned (Some (Errorf "failed to load session: " err)) in
  mob_installed env /\
  value (run env (config.LoadCurrentSession (L := RefLib.lib)) w) = Fail err /\
  run env (main.runNext (L := RefLib.lib) false "wip" []) w
    = mkRun abort w (opening_events (L := RefLib.lib) env w) /\
  run env (main.runDone (L := RefLib.lib) false "wip" []) w
    = mkRun abort w (opening_events (L := RefLib.lib) env w) /\
  exitCode abort = 1%Z /\
  none is_file_change (opening_events (L := RefLib.lib) env w) /\
  none is_http (opening_events (L := RefLib.lib) env w).
Proof.
  intros env w err abort.
  assert (mob_installed env) as Hmob by reflexivity.
  assert (value (run env (config.LoadCurrentSession (L := RefLib.lib)) w) = Fail err)
    as Herr by (vm_compute; reflexivity).
  split; [exact Hmob |]. split; [exact Herr |].
  exact (proj1 (session_read_aborts_save_and_clear_warn (L := RefLib.lib) env w)
           err false "wip" [] Hmob Herr).
Defined.

(** C5 fails as stated.  With a session file that cannot be written,
    [start] prints a warning and returns success (exit status 0) without a
    session on disk; with a session file that cannot be removed, [next]
    prints a warning, runs mob next and returns success. *)
Lemma session_failures_do_not_abort_counterexample :
  (let r := run Demo.env_session_readonly (main.runStart (L := RefLib.lib) [])
                Demo.empty_world in
   value r = Returned None /\
   exitCode (value r) = 0%Z /\
   printed ("Warning: could not save session: permission denied" ++ nl) (events r) = true /\
   files (final r) !! Demo.session_path = None) /\
  (let r := run Demo.env_session_locked (main.runNext (L := RefLib.lib) false "wip" [])
                Demo.started_world in
   value r = Returned None /\
   exitCode (value r) = 0%Z /\
   printed ("Warning: could not clear session: operation not permitted" ++ nl) (events r) = true /\
   ran "/usr/bin/mob" ["next"] (events r) = true).
Proof. vm_compute. repeat split. Qed.

(* ===================================================================== *)
(** ** Plan reconciliation at start                                       *)
(* ===================================================================== *)

Section Reconcile.
Context {L : GoLib} (env : Env).

Lemma run_LoadPlan (planMgr : plans.Manager) (baseBranch : string) (w : World) :
  run env (plans.LoadPlan planMgr baseBranch) w =
    mkRun (value (run env (plans.LoadPlan planMgr baseBranch) w)) w
          (events (run env (plans.LoadPlan planMgr baseBranch) w)).
Proof.
  assert (final (run env (plans.LoadPlan planMgr baseBranch) w) = w) as Hpure
    by (apply never_change_world; never_tac).
  destruct (run env (plans.LoadPlan planMgr baseBranch) w) as [v f evs].
  simpl in *. now subst f.
Qed.

(** The local copy, from the file and the read fault. *)
Lemma local_plan_eq (planMgr : plans.Manager) (baseBranch : string) (w : World) :
  local_plan env planMgr baseBranch w =
    match env_read_fault env (plans.GetPlanPath planMgr baseBranch) with
    | Some _ => EmptyString
    | None =>
        match files w !! plans.GetPlanPath planMgr baseBranch with
        | Some text => text
        | None => EmptyString
        end
    end.
Proof.
  unfold local_plan, plans.LoadPlan. simpl.
  destruct (env_read_fault env _); simpl; [reflexivity |].
  now destruct (files w !! _).
Qed.

(** The remote copy does not depend on the local world. *)
Lemma remote_plan_world (cfg : Config) (baseBranch : string) (w w' : World) :
  remote_plan env cfg baseBranch w = remote_plan env cfg baseBranch w'.
Proof.
  unfold remote_plan, api.GetPlan. simpl.
  destruct (main.api_configured cfg); [| reflexivity].
  destruct (env_http env _ _ _) as [err | status body]; simpl; [reflexivity |].
  destruct (status =? api.http_StatusNotFound)%Z; simpl; [reflexivity |].
  destruct (negb (status =? api.http_StatusOK)%Z); simpl; [reflexivity |].
  destruct body as [body | err]; simpl; [| reflexivity].
  destruct (json_Unmarshal_PlanText body) as [planText | err]; simpl; [| reflexivity].
  now destruct (negb (is_empty planText)).
Qed.

(** Fetching the plan changes nothing locally and yields the remote copy. *)
Lemma run_fetchPlan (cfg : Config) (baseBranch : string) (w : World) :
  final (run env (main.runStart_fetchPlan cfg baseBranch) w) = w /\
  value (run env (main.runStart_fetchPlan cfg baseBranch) w)
    = remote_plan env cfg baseBranch w.
Proof.
  split; [apply never_change_world; never_tac |].
  unfold main.runStart_fetchPlan, remote_plan.
  destruct (main.api_configured cfg); [| reflexivity].
  rewrite value_bind.
  destruct (value (run env (api.GetPlan _ baseBranch) w)) as [remotePlan | err];
    [| reflexivity].
  destruct remotePlan; reflexivity.
Qed.

Lemma EnsureDirs_value (planMgr : plans.Manager) (w : World) :
  final (run env (plans.EnsureDirs planMgr) w) = w /\
  (value (run env (plans.EnsureDirs planMgr) w) = None <->
   env_mkdir_fault env (filepath_Join [plans.projectRoot planMgr; plans.PlansDir]) = None /\
   env_mkdir_fault env (filepath_Join [plans.projectRoot planMgr; plans.SummariesDir]) = None).
Proof.
  split; [apply never_change_world; never_tac |].
  unfold plans.EnsureDirs. simpl.
  destruct (env_mkdir_fault env (filepath_Join [plans.projectRoot planMgr; plans.PlansDir]));
    simpl; [split; [discriminate | intros [? _]; discriminate] |].
  destruct (env_mkdir_fault env (filepath_Join [plans.projectRoot planMgr; plans.SummariesDir]));
    simpl; [split; [discriminate | intros [_ ?]; discriminate] |].
  split; auto.
Qed.

(** What [SavePlan] leaves: the plan file holds the content when the save
    can be done, and nothing changes otherwise. *)
Lemma final_SavePlan (planMgr : plans.Manager) (baseBranch content : string) (w : World) :
  final (run env (plans.SavePlan planMgr baseBranch content) w) =
    {| files := saved env planMgr baseBranch content (files w); ticks := ticks w |}.
Proof.
  unfold plans.SavePlan, saved, can_save. rewrite final_bind.
  destruct (EnsureDirs_value planMgr w) as [-> Hv].
  destruct (value (run env (plans.EnsureDirs planMgr) w)) as [e |].
  - simpl.
    destruct (env_mkdir_fault env (filepath_Join [plans.projectRoot planMgr; plans.PlansDir]));
      [now destruct w |].
    destruct (env_mkdir_fault env
                (filepath_Join [plans.projectRoot planMgr; plans.SummariesDir]));
      [now destruct w |].
    destruct Hv as [_ Hv]. now specialize (Hv (conj eq_refl eq_refl)).
  - destruct Hv as [Hv _]. destruct (Hv eq_refl) as [-> ->]. simpl.
    destruct (env_write_fault env _); simpl; [now destruct w | reflexivity].
Qed.

Lemma final_CreateDefaultPlan (planMgr : plans.Manager) (baseBranch : string) (w : World) :
  final (run env (plans.CreateDefaultPlan planMgr baseBranch) w) =
    {| files := saved env planMgr baseBranch
                  (plans.defaultPlanTemplate baseBranch
                     (time_Format (env_clock env (ticks w)) time_RFC3339))
                  (files w);
       ticks := S (ticks w) |}.
Proof.
  unfold plans.CreateDefaultPlan. rewrite final_bind, run_TimeNow. cbn [value final].
  now rewrite final_SavePlan.
Qed.

(** The files the decision step leaves are those of the table's action. *)
Lemma files_decidePlan (planMgr : plans.Manager) (baseBranch planText : string) (w : World) :
  files (final (run env (main.runStart_decidePlan planMgr baseBranch planText) w)) =
    reconciled env planMgr baseBranch (local_plan env planMgr baseBranch w) planText
               (env_clock env (ticks w)) (files w).
Proof.
  unfold main.runStart_decidePlan, reconciled, plan_table, present, local_plan.
  rewrite final_bind, run_LoadPlan. cbn [value final].
  destruct (value (run env (plans.LoadPlan planMgr baseBranch) w)) as [localPlan | err].
  - destruct planText as [| c planText], localPlan as [| d localPlan]; cbn [is_empty negb andb].
    + rewrite final_bind. simpl value. simpl final at 2.
      rewrite final_bind, final_CreateDefaultPlan.
      now destruct (value (run env (plans.CreateDefaultPlan planMgr baseBranch) w)).
    + reflexivity.
    + cbn [String.eqb negb]. rewrite final_bind, final_SavePlan.
      now destruct (value (run env (plans.SavePlan planMgr baseBranch _) w)).
    + destruct (String.eqb (String c planText) (String d localPlan)); cbn [negb].
      * reflexivity.
      * rewrite final_bind, final_SavePlan.
        now destruct (value (run env (plans.SavePlan planMgr baseBranch _) w)).
  - destruct planText as [| c planText]; cbn [is_empty negb andb].
    + rewrite final_bind. simpl value. simpl final at 2.
      rewrite final_bind, final_CreateDefaultPlan.
      now destruct (value (run env (plans.CreateDefaultPlan planMgr baseBranch) w)).
    + cbn [String.eqb negb]. rewrite final_bind, final_SavePlan.
      now destruct (value (run env (plans.SavePlan planMgr baseBranch _) w)).
Qed.


End Reconcile.

(** What [GetPlan] returns, from the answer of the dashboard. *)
Section Fetched.
Context {L : GoLib} (env : Env).

Lemma value_GetPlan (c : api.Client) (baseBranch : string) (w : World) :
  value (run env (api.GetPlan c baseBranch) w) =
    match env_http env "GET" (plan_endpoint c baseBranch) EmptyString with
    | HttpFail err => Fail (Errorf "failed to fetch plan: " err)
    | HttpResp status body =>
        if (status =? 404)%Z then Ok EmptyString
        else if negb (status =? 200)%Z then Fail (api.api_error status body)
        else
          match body with
          | Fail err => Fail (Errorf "failed to read plan: " err)
          | Ok body =>
              match json_Unmarshal_PlanText body with
              | Ok planText => if negb (is_empty planText) then Ok planText else Ok body
              | Fail _ => Ok body
              end
          end
    end.
Proof.
  unfold api.GetPlan, plan_endpoint. simpl.
  destruct (env_http env _ _ _) as [err | status body]; simpl; [reflexivity |].
  unfold api.http_StatusNotFound, api.http_StatusOK.
  destruct (status =? 404)%Z; simpl; [reflexivity |].
  destruct (negb (status =? 200)%Z); simpl; [reflexivity |].
  destruct body as [body | err]; simpl; [| reflexivity].
  destruct (json_Unmarshal_PlanText body) as [planText | err]; simpl; [| reflexivity].
  now destruct (negb (is_empty planText)).
Qed.

End Fetched.



Section ReconcileRun.
Context {L : GoLib} (env : Env).

(** The files the reconciliation leaves are those of the table's action
    on the local and the remote copy. *)
Lemma files_reconcile (cfg : Config) (planMgr : plans.Manager) (baseBranch : string)
    (w : World) :
  files (final (run env (main.runStart_reconcile cfg planMgr baseBranch) w)) =
    reconciled env planMgr baseBranch
               (local_plan env planMgr baseBranch w)
               (remote_plan env cfg baseBranch w)
               (env_clock env (ticks w)) (files w).
Proof.
  unfold main.runStart_reconcile. rewrite final_bind.
  destruct (run_fetchPlan env cfg baseBranch w) as [-> ->].
  apply files_decidePlan.
Qed.

Lemma reconcile_no_remote_write (cfg : Config) (planMgr : plans.Manager)
    (baseBranch : string) (w : World) :
  none is_remote_write (events (run env (main.runStart_reconcile cfg planMgr baseBranch) w)).
Proof. apply never_events. never_tac. Qed.



End ReconcileRun.

(* ===================================================================== *)
(** ** C1: reconciliation follows the table of section 4.2                *)
(* ===================================================================== *)




(* ===================================================================== *)
(** ** C7: running the reconciliation twice                               *)
(* ===================================================================== *)

(** C7, as the code has it.  Run the reconciliation twice in a row, the
    second run starting from the files the first one left, with the same
    dashboard answers.  If the local plan file can be read, or a remote
    plan is present, the second run leaves every file as the first run
    left it; and neither run sends a request other than a GET to the
    dashboard.  (A plan file that cannot be read counts as absent: with no
    remote plan, each run then writes a fresh template, stamped with its
    own time.) *)
Theorem reconciliation_idempotent {L : GoLib} (env : Env) (cfg : Config)
    (planMgr : plans.Manager) (baseBranch : string) (w : World) :
  env_read_fault env (plans.GetPlanPath planMgr baseBranch) = None \/
  remote_plan env cfg baseBranch w <> EmptyString ->
  let first := run env (main.runStart_reconcile cfg planMgr baseBranch) w in
  let second := run env (main.runStart_reconcile cfg planMgr baseBranch) (final first) in
  files (final second) = files (final first) /\
  none is_remote_write (events first) /\
  none is_remote_write (events second).
Proof.
  intros Hread. cbv zeta.
  split; [| split; apply reconcile_no_remote_write].
  rewrite (files_reconcile env cfg planMgr baseBranch (final _)).
  rewrite (remote_plan_world env cfg baseBranch (final _) w).
  rewrite (local_plan_eq env planMgr baseBranch (final _)).
  rewrite (files_reconcile env cfg planMgr baseBranch w).
  rewrite (local_plan_eq env planMgr baseBranch w).
  set (path := plans.GetPlanPath planMgr baseBranch) in *.
  set (r := remote_plan env cfg baseBranch w) in *.
  generalize (env_clock env (ticks (final (run env
                (main.runStart_reconcile cfg planMgr baseBranch) w)))).
  generalize (env_clock env (ticks w)).
  intros t1 t2.
  unfold reconciled, saved, plan_table, present.
  fold path.
  destruct (can_save env planMgr baseBranch) eqn:Hsave.
  - destruct (env_read_fault env path) as [m |] eqn:Hrd.
    + (* unreadable: a remote plan is present, and is written twice *)
      destruct Hread as [Hread | Hr]; [discriminate |].
      destruct r as [| c r]; [congruence |]. cbn [is_empty negb].
      apply insert_insert_eq.
    + destruct (files w !! path) as [text |] eqn:Hf.
      * destruct text as [| c text], r as [| d r]; cbn [is_empty negb].
        -- rewrite lookup_insert_eq. reflexivity.
        -- rewrite lookup_insert_eq. cbn [is_empty negb].
           now rewrite String.eqb_refl.
        -- rewrite Hf. reflexivity.
        -- destruct (String.eqb (String d r) (String c text)) eqn:E.
           ++ rewrite Hf. cbn [is_empty negb]. now rewrite E.
           ++ rewrite lookup_insert_eq. cbn [is_empty negb].
              now rewrite String.eqb_refl.
      * destruct r as [| d r]; cbn [is_empty negb].
        -- rewrite lookup_insert_eq. reflexivity.
        -- rewrite lookup_insert_eq. cbn [is_empty negb].
           now rewrite String.eqb_refl.
  - (* nothing can be saved: both runs leave the files alone *)
    assert (forall a : Action,
              match a with
              | CreateTemplate => files w
              | AdoptRemote => files w
              | KeepLocal => files w
              end = files w) as Hsame by (now intros []).
    now rewrite !Hsame.
Qed.

(** C7 at work: local plan "A", remote plan "B". *)
Lemma reconciliation_idempotent_witness :
  let env := Demo.env_with_dashboard "B" in
  let cfg := Demo.team_config in
  let w := Demo.world_with_plan "A" in
  let first := run env (main.runStart_reconcile (L := RefLib.lib) cfg Demo.manager "feature-x") w in
  let second := run env (main.runStart_reconcile (L := RefLib.lib) cfg Demo.manager "feature-x")
                    (final first) in
  (env_read_fault env (plans.GetPlanPath Demo.manager "feature-x") = None \/
   remote_plan (L := RefLib.lib) env cfg "feature-x" w <> EmptyString) /\
  files (final first) !! Demo.plan_path = Some "B" /\
  files (final second) = files (final first) /\
  none is_remote_write (events first) /\
  none is_remote_write (events second).
Proof.
  intros env cfg w first second.
  assert (env_read_fault env (plans.GetPlanPath Demo.manager "feature-x") = None \/
          remote_plan (L := RefLib.lib) env cfg "feature-x" w <> EmptyString) as Hread
    by (left; reflexivity).
  split; [exact Hread |].
  split; [vm_compute; reflexivity |].
  exact (reconciliation_idempotent (L := RefLib.lib) env cfg Demo.manager "feature-x" w Hread).
Defined.

(** C7 fails as stated: with a plan file that can be written but not read
    and no dashboard configured, the first run replaces the plan "A" by a
    template stamped 06:00:00 and the second run, with local and remote
    content untouched in between, replaces it by a template stamped
    06:00:01. *)
Lemma reconciliation_twice_counterexample :
  let env := Demo.env_plan_unreadable in
  let cfg := config.DefaultConfig in
  let w := Demo.world_with_plan "A" in
  let first := run env (main.runStart_reconcile (L := RefLib.lib) cfg Demo.manager "feature-x") w in
  let second := run env (main.runStart_reconcile (L := RefLib.lib) cfg Demo.manager "feature-x")
                    (final first) in
  remote_plan (L := RefLib.lib) env cfg "feature-x" w = EmptyString /\
  files (final first) !! Demo.plan_path
    = Some (plans.defaultPlanTemplate "feature-x" "2024-10-31T06:00:00Z") /\
  files (final second) !! Demo.plan_path
    = Some (plans.defaultPlanTemplate "feature-x" "2024-10-31T06:00:01Z") /\
  files (final second) !! Demo.plan_path <> files (final first) !! Demo.plan_path.
Proof.
  cbv zeta. split; [reflexivity |].
  split; [vm_compute; reflexivity |].
  split; [vm_compute; reflexivity |].
  vm_compute. discriminate.
Qed.



(* ===================================================================== *)
(** ** C10: an empty plan is an absent plan                               *)
(* ===================================================================== *)




(* ===================================================================== *)
(** ** escapeJSON, byte by byte                                           *)
(* ===================================================================== *)

Section Escape.

Lemma subst_byte_append (c : ascii) (new a b : string) :
  subst_byte c new (a ++ b) = subst_byte c new a ++ subst_byte c new b.
Proof.
  induction a as [| x a IH]; simpl; [reflexivity |].
  now rewrite IH, append_assoc.
Qed.

Lemma escapeJSON_passes (s : string) : plans.escapeJSON s = five_passes s.
Proof.
  unfold plans.escapeJSON, five_passes, str. now rewrite !ReplaceAll_byte.
Qed.

Lemma five_passes_append (a b : string) :
  five_passes (a ++ b) = five_passes a ++ five_passes b.
Proof. unfold five_passes. now rewrite !subst_byte_append. Qed.

Lemma five_passes_byte (c : ascii) : five_passes (str c) = escape_byte c.
Proof.
  destruct c as [[] [] [] [] [] [] [] []]; reflexivity.
Qed.

(** [escapeJSON] escapes each byte on its own: the later passes never
    touch what the earlier ones produced. *)
Lemma escapeJSON_bytes (s : string) : plans.escapeJSON s = escape_bytes s.
Proof.
  rewrite escapeJSON_passes.
  induction s as [| c s IH]; [reflexivity |].
  change (String c s) with (str c ++ s).
  rewrite five_passes_append, five_passes_byte, IH. reflexivity.
Qed.

End Escape.

(* ===================================================================== *)
(** ** UTF-8 sequences                                                    *)
(* ===================================================================== *)

Section Utf8.

Lemma all_bytes_app (p : ascii -> bool) (a b : string) :
  all_bytes p (a ++ b) = all_bytes p a && all_bytes p b.
Proof.
  induction a as [| x a IH]; [reflexivity |].
  cbn [String.append all_bytes]. now rewrite IH, andb_assoc.
Qed.

Lemma length_app_string (a b : string) :
  String.length (a ++ b) = (String.length a + String.length b)%nat.
Proof. induction a as [| x a IH]; cbn; [reflexivity | now rewrite IH]. Qed.

(** A byte of 0x80 or more is none of the bytes the reader and the
    escaping look for. *)
Lemma high_byte (c : ascii) :
  is_ascii c = false ->
  Ascii.eqb c quote = false /\ Ascii.eqb c backslash = false /\
  Json.is_control c = false /\ escape_byte c = str c /\ escapable c = true.
Proof.
  destruct c as [[] [] [] [] [] [] [] []]; intros H; try discriminate H; repeat split.
Qed.

Lemma cont_high (c : ascii) : Json.is_cont c = true -> is_ascii c = false.
Proof.
  unfold Json.is_cont, is_ascii. intros H. apply andb_prop in H as [H _].
  apply N.leb_le in H. apply N.ltb_ge. lia.
Qed.

Lemma second_ok_cont (c c2 : ascii) :
  Json.second_ok c c2 = true -> Json.is_cont c2 = true.
Proof.
  unfold Json.second_ok, Json.is_cont. cbv zeta.
  repeat match goal with |- context [if ?b then _ else _] => destruct b end;
    intros H; try exact H; apply andb_prop in H as [H1 H2];
    apply N.leb_le in H1, H2; apply andb_true_intro; split; apply N.leb_le; lia.
Qed.

(** What [escapeJSON] makes of a byte: the byte, or a backslash and an
    ASCII letter for an ASCII byte. *)
Lemma escape_byte_cases (y : ascii) :
  escape_byte y = str y \/
  (is_ascii y = true /\
   exists e, is_ascii e = true /\ escape_byte y = String backslash (str e)).
Proof.
  destruct y as [[] [] [] [] [] [] [] []];
    first [left; reflexivity
          | right; split; [reflexivity | eexists; split; [| reflexivity]; reflexivity]].
Qed.

(** The continuation bytes [rune_split] returns. *)
Lemma rune_split_spec (c : ascii) (R cs R' : string) :
  Json.rune_split c R = Some (cs, R') ->
  R = cs ++ R' /\ all_bytes Json.is_cont cs = true /\
  (0 < String.length cs)%nat /\
  forall X, Json.rune_split c (cs ++ X) = Some (cs, X).
Proof.
  unfold Json.rune_split.
  destruct (Json.seq_len c) as [| [| [| [| [| n]]]]];
    destruct R as [| c2 [| c3 [| c4 R4]]]; try discriminate.
  all: match goal with |- context [if ?b then _ else _] => destruct b eqn:Hb end;
    try discriminate.
  all: intros [= <- <-].
  all: repeat match goal with
         | H : _ && _ = true |- _ => apply andb_prop in H as [? ?]
         end.
  all: repeat split; cbn [String.append str all_bytes String.length]; try lia.
  all: repeat match goal with
         | H : Json.second_ok _ _ = true |- _ =>
             rewrite ?H; apply second_ok_cont in H
         | H : Json.is_cont _ = true |- _ => rewrite ?H; clear H
         end; reflexivity.
Qed.

(** One step of the reader at a byte of 0x80 or more. *)
Lemma parse_chars_high (hi : option N) (c : ascii) (R : string) :
  is_ascii c = false ->
  Json.parse_chars Json.InStr hi (String c R) =
    match Json.rune_split c R with
    | Some (cs, R') =>
        Json.emit (Json.flush hi ++ String c cs) (Json.parse_chars Json.InStr None R')
    | None =>
        Json.emit (Json.flush hi ++ Json.replacement) (Json.parse_chars Json.InStr None R)
    end.
Proof.
  intros H. destruct (high_byte c H) as (Hq & Hb & Hc & _). unfold is_ascii in H.
  cbn [Json.parse_chars]. rewrite Hq, Hb, Hc, H. unfold Json.rune_split. cbv zeta.
  destruct (Json.seq_len c) as [| [| [| [| [| n]]]]];
    destruct R as [| c2 [| c3 [| c4 R4]]]; try reflexivity.
  all: match goal with |- context [if ?b then _ else _] => destruct b end; reflexivity.
Qed.

Lemma utf8_valid_low (c : ascii) (r : string) :
  is_ascii c = true -> Json.utf8_valid (String c r) = Json.utf8_valid r.
Proof. unfold is_ascii. intros H. cbn [Json.utf8_valid]. now rewrite H. Qed.

Lemma utf8_valid_high (c : ascii) (r : string) :
  is_ascii c = false ->
  Json.utf8_valid (String c r) =
    match Json.rune_split c r with
    | Some (_, r') => Json.utf8_valid r'
    | None => false
    end.
Proof.
  unfold is_ascii. intros H. cbn [Json.utf8_valid]. rewrite H. unfold Json.rune_split.
  destruct (Json.seq_len c) as [| [| [| [| [| n]]]]];
    destruct r as [| c2 [| c3 [| c4 r4]]]; try reflexivity.
  all: match goal with |- context [if ?b then _ else _] => destruct b end; reflexivity.
Qed.

Lemma as_utf8_low (c : ascii) (r : string) :
  is_ascii c = true -> as_utf8 (String c r) = String c (as_utf8 r).
Proof. unfold is_ascii. intros H. cbn [as_utf8]. now rewrite H. Qed.

Lemma as_utf8_high (c : ascii) (r : string) :
  is_ascii c = false ->
  as_utf8 (String c r) =
    match Json.rune_split c r with
    | Some (cs, r') => String c cs ++ as_utf8 r'
    | None => Json.replacement ++ as_utf8 r
    end.
Proof.
  unfold is_ascii. intros H. cbn [as_utf8]. rewrite H. unfold Json.rune_split.
  destruct (Json.seq_len c) as [| [| [| [| [| n]]]]];
    destruct r as [| c2 [| c3 [| c4 r4]]]; try reflexivity.
  all: match goal with |- context [if ?b then _ else _] => destruct b end; reflexivity.
Qed.

(** Continuation bytes are written as they are. *)
Lemma escape_bytes_conts (cs r : string) :
  all_bytes Json.is_cont cs = true ->
  escape_bytes (cs ++ r) = cs ++ escape_bytes r.
Proof.
  induction cs as [| k cs IH]; intros H; [reflexivity |].
  cbn [all_bytes] in H. apply andb_prop in H as [Hk H].
  cbn [String.append escape_bytes]. rewrite IH by assumption.
  destruct (high_byte k (cont_high k Hk)) as (_ & _ & _ & -> & _). reflexivity.
Qed.

(** Continuation bytes at the head of an escaped text are the head of
    the text itself, unless the text ends before them. *)
Lemma escape_split (cs : string) :
  forall r b R' : string,
    all_bytes Json.is_cont cs = true ->
    all_bytes escapable r = false \/ ok_head b = true ->
    escape_bytes r ++ b = cs ++ R' ->
    exists r', r = cs ++ r' /\ R' = escape_bytes r' ++ b /\
               (all_bytes escapable r = false -> all_bytes escapable r' = false).
Proof.
  induction cs as [| k cs IH]; intros r b R' Hcs Hr Heq.
  - exists r. cbn [String.append] in *. auto.
  - cbn [all_bytes] in Hcs. apply andb_prop in Hcs as [Hk Hcs].
    destruct r as [| y r].
    + destruct Hr as [Hr | Hb]; [discriminate Hr |].
      cbn [escape_bytes String.append] in Heq. subst b.
      cbn [ok_head] in Hb. now rewrite Hk in Hb.
    + cbn [escape_bytes] in Heq. rewrite append_assoc in Heq.
      destruct (escape_byte_cases y) as [Hy | (Hy & e & _ & He)].
      * rewrite Hy in Heq. cbn [String.append str] in Heq.
        injection Heq as -> Heq.
        destruct (high_byte k (cont_high k Hk)) as (_ & _ & _ & _ & Hesc).
        destruct (IH r b R' Hcs) as (r' & -> & -> & Hbad); [| exact Heq |].
        { destruct Hr as [Hr | Hb]; [left | now right].
          cbn [all_bytes] in Hr. now rewrite Hesc in Hr. }
        exists r'. repeat split; try reflexivity.
        intros Hr'. apply Hbad. cbn [all_bytes String.append] in Hr'.
        now rewrite Hesc in Hr'.
      * rewrite He in Heq. cbn [String.append str] in Heq.
        injection Heq as <- _. discriminate Hk.
Qed.

(** The sequence a byte starts in an escaped text is the sequence it
    starts in the text itself. *)
Lemma rune_split_escape (c : ascii) (r b : string) :
  ok_head b = true ->
  Json.rune_split c (escape_bytes r ++ b) =
    match Json.rune_split c r with
    | Some (cs, r') => Some (cs, escape_bytes r' ++ b)
    | None => None
    end.
Proof.
  intros Hb.
  destruct (Json.rune_split c r) as [[cs r'] |] eqn:Hr.
  - destruct (rune_split_spec c r cs r' Hr) as (-> & Hcs & _ & Hstable).
    rewrite escape_bytes_conts, append_assoc by assumption. apply Hstable.
  - destruct (Json.rune_split c (escape_bytes r ++ b)) as [[cs R'] |] eqn:HR;
      [| reflexivity].
    destruct (rune_split_spec c _ cs R' HR) as (Heq & Hcs & _ & Hstable).
    destruct (escape_split cs r b R' Hcs (or_intror Hb) Heq) as (r' & -> & _ & _).
    rewrite Hstable in Hr. discriminate Hr.
Qed.

End Utf8.

(* ===================================================================== *)
(** ** Reading back what was escaped                                      *)
(* ===================================================================== *)

Section StringLiterals.

(** One escaped ASCII byte is read back as that byte. *)
Lemma parse_chars_escape_byte (c : ascii) (tail : string) :
  escapable c = true -> is_ascii c = true ->
  Json.parse_chars Json.InStr None (escape_byte c ++ tail) =
    Json.emit (str c) (Json.parse_chars Json.InStr None tail).
Proof.
  destruct c as [[] [] [] [] [] [] [] []]; intros H H'; try discriminate H;
    try discriminate H'; reflexivity.
Qed.

Lemma parse_chars_plain_byte (c : ascii) (tail : string) :
  plain_byte c = true ->
  Json.parse_chars Json.InStr None (String c tail) =
    Json.emit (str c) (Json.parse_chars Json.InStr None tail).
Proof.
  destruct c as [[] [] [] [] [] [] [] []]; intros H; try discriminate H; reflexivity.
Qed.

Lemma parse_chars_quote (tail : string) :
  Json.parse_chars Json.InStr None (String quote tail) = Some (EmptyString, tail).
Proof. reflexivity. Qed.

(** An escaped string followed by a quote is read back as the string,
    its ill-formed bytes replaced. *)
Lemma parse_chars_escaped_bytes (n : nat) :
  forall s tail : string,
    (String.length s <= n)%nat -> clean s ->
    Json.parse_chars Json.InStr None (escape_bytes s ++ String quote tail) =
      Some (as_utf8 s, tail).
Proof.
  unfold clean.
  induction n as [| n IH]; intros s tail Hlen Hs.
  - destruct s; [reflexivity | cbn in Hlen; lia].
  - destruct s as [| c r]; [reflexivity |].
    cbn [all_bytes escape_bytes String.length] in *.
    apply andb_prop in Hs as [Hc Hs]. rewrite append_assoc.
    destruct (is_ascii c) eqn:Hlow.
    + rewrite parse_chars_escape_byte, IH, as_utf8_low by (assumption || lia).
      reflexivity.
    + destruct (high_byte c Hlow) as (_ & _ & _ & -> & _).
      cbn [String.append str].
      rewrite parse_chars_high, rune_split_escape, as_utf8_high by (assumption || reflexivity).
      destruct (Json.rune_split c r) as [[cs r'] |] eqn:Hr.
      * destruct (rune_split_spec c r cs r' Hr) as (-> & Hcs & _ & _).
        rewrite all_bytes_app in Hs. apply andb_prop in Hs as [_ Hs].
        rewrite length_app_string in Hlen.
        rewrite IH by (assumption || lia). reflexivity.
      * rewrite IH by (assumption || lia). reflexivity.
Qed.

Lemma parse_chars_escaped (s tail : string) :
  clean s ->
  Json.parse_chars Json.InStr None (plans.escapeJSON s ++ String quote tail) =
    Some (as_utf8 s, tail).
Proof.
  rewrite escapeJSON_bytes. now apply (parse_chars_escaped_bytes (String.length s)).
Qed.

(** Well-formed UTF-8 is read back as it is. *)
Lemma as_utf8_valid_bytes (n : nat) :
  forall s : string,
    (String.length s <= n)%nat -> Json.utf8_valid s = true -> as_utf8 s = s.
Proof.
  induction n as [| n IH]; intros s Hlen Hs.
  - destruct s; [reflexivity | cbn in Hlen; lia].
  - destruct s as [| c r]; [reflexivity |].
    cbn [String.length] in Hlen.
    destruct (is_ascii c) eqn:Hlow.
    + rewrite utf8_valid_low in Hs by assumption.
      rewrite as_utf8_low, IH by (assumption || lia). reflexivity.
    + rewrite utf8_valid_high in Hs by assumption.
      rewrite as_utf8_high by assumption.
      destruct (Json.rune_split c r) as [[cs r'] |] eqn:Hr; [| discriminate Hs].
      destruct (rune_split_spec c r cs r' Hr) as (-> & _ & _ & _).
      rewrite length_app_string in Hlen.
      rewrite IH by (assumption || lia). reflexivity.
Qed.

Lemma as_utf8_valid (s : string) : Json.utf8_valid s = true -> as_utf8 s = s.
Proof. now apply (as_utf8_valid_bytes (String.length s)). Qed.

(** Plain bytes followed by a quote are read back as they are. *)
Lemma parse_chars_plain (s tail : string) :
  plain s ->
  Json.parse_chars Json.InStr None (s ++ String quote tail) = Some (s, tail).
Proof.
  unfold plain.
  induction s as [| c s IH]; intros Hs; [reflexivity |].
  cbn [all_bytes String.append] in *.
  apply andb_prop in Hs as [Hc Hs].
  rewrite parse_chars_plain_byte, IH by assumption.
  reflexivity.
Qed.

End StringLiterals.

(* ===================================================================== *)
(** ** Well-formed UTF-8 in what is written                               *)
(* ===================================================================== *)

Section WellFormed.

Lemma utf8_valid_ascii (a b : string) :
  all_bytes is_ascii a = true -> Json.utf8_valid (a ++ b) = Json.utf8_valid b.
Proof.
  induction a as [| x a IH]; intros H; [reflexivity |].
  cbn [all_bytes] in H. apply andb_prop in H as [Hx H].
  cbn [String.append]. rewrite utf8_valid_low by assumption. now apply IH.
Qed.

Lemma plain_ascii (s : string) : plain s -> all_bytes is_ascii s = true.
Proof.
  unfold plain. induction s as [| c s IH]; intros H; [reflexivity |].
  cbn [all_bytes] in *. apply andb_prop in H as [Hc H]. rewrite IH by assumption.
  unfold plain_byte in Hc. apply andb_prop in Hc as [_ Hc]. unfold is_ascii.
  now rewrite Hc.
Qed.

(** Escaping neither repairs nor breaks a text. *)
Lemma utf8_valid_escape_bytes (n : nat) :
  forall s b : string,
    (String.length s <= n)%nat -> ok_head b = true ->
    Json.utf8_valid (escape_bytes s ++ b) = Json.utf8_valid s && Json.utf8_valid b.
Proof.
  induction n as [| n IH]; intros s b Hlen Hb.
  - destruct s; [reflexivity | cbn in Hlen; lia].
  - destruct s as [| c r]; [reflexivity |].
    cbn [escape_bytes String.length] in *. rewrite append_assoc.
    destruct (is_ascii c) eqn:Hlow.
    + rewrite (utf8_valid_low c r) by assumption.
      destruct (escape_byte_cases c) as [-> | (_ & e & He & ->)];
        cbn [String.append str].
      * rewrite utf8_valid_low by assumption. apply IH; [lia | assumption].
      * rewrite !utf8_valid_low by (assumption || reflexivity).
        apply IH; [lia | assumption].
    + destruct (high_byte c Hlow) as (_ & _ & _ & -> & _).
      cbn [String.append str].
      rewrite !utf8_valid_high, rune_split_escape by assumption.
      destruct (Json.rune_split c r) as [[cs r'] |] eqn:Hr; [| reflexivity].
      destruct (rune_split_spec c r cs r' Hr) as (-> & _ & _ & _).
      rewrite length_app_string in Hlen. apply IH; [lia | assumption].
Qed.

Lemma utf8_valid_escaped (s b : string) :
  ok_head b = true ->
  Json.utf8_valid (plans.escapeJSON s ++ b) = Json.utf8_valid s && Json.utf8_valid b.
Proof.
  intros Hb. rewrite escapeJSON_bytes.
  now apply (utf8_valid_escape_bytes (String.length s)).
Qed.

End WellFormed.

(* ===================================================================== *)
(** ** Reading back values, arrays and objects                            *)
(* ===================================================================== *)

Section Values.

Lemma string_member_ok (key body value : string) :
  (forall tail, Json.parse_chars Json.InStr None (body ++ String quote tail)
                = Some (value, tail)) ->
  value_ok (string_member key body value).
Proof.
  intros Hbody f tail _. unfold string_member. cbn [m_text m_value].
  change (str quote ++ body ++ str quote) with (String quote (body ++ str quote)).
  cbn [String.append]. rewrite append_assoc. cbn [String.append str].
  cbn [Json.parse_value Json.skip_ws Json.is_ws]. cbn.
  now rewrite Hbody.
Qed.

Lemma skip_ws_blank (pre : string) (c : ascii) (r : string) :
  blank pre -> Json.is_ws c = false ->
  Json.skip_ws (pre ++ String c r) = String c r.
Proof.
  unfold blank. intros Hpre Hc.
  induction pre as [| x pre IH]; cbn [String.append Json.skip_ws all_bytes] in *.
  - now rewrite Hc.
  - apply andb_prop in Hpre as [Hx Hpre]. rewrite Hx. now apply IH.
Qed.

Lemma skip_ws_nonws (c : ascii) (r : string) :
  Json.is_ws c = false -> Json.skip_ws (String c r) = String c r.
Proof. intros Hc. cbn [Json.skip_ws]. now rewrite Hc. Qed.

(** One step of each of the three mutually recursive readers. *)
Lemma parse_value_S (f : nat) (s : string) :
  Json.parse_value (S f) s =
    match Json.skip_ws s with
    | EmptyString => None
    | String c r =>
        if Ascii.eqb c quote then
          match Json.parse_chars Json.InStr None r with
          | Some (x, r') => Some (Json.Str x, r')
          | None => None
          end
        else if Ascii.eqb c "[" then
          match Json.skip_ws r with
          | String "]" r' => Some (Json.Arr [], r')
          | _ =>
              match Json.parse_elements f r with
              | Some (vs, r') => Some (Json.Arr vs, r')
              | None => None
              end
          end
        else if Ascii.eqb c "{" then
          match Json.skip_ws r with
          | String "}" r' => Some (Json.Obj [], r')
          | _ =>
              match Json.parse_members f r with
              | Some (ms, r') => Some (Json.Obj ms, r')
              | None => None
              end
          end
        else Json.parse_literal (String c r)
    end.
Proof. reflexivity. Qed.

Lemma parse_elements_S (f : nat) (s : string) :
  Json.parse_elements (S f) s =
    match Json.parse_value f s with
    | None => None
    | Some (v, r) =>
        match Json.skip_ws r with
        | String c r' =>
            if Ascii.eqb c "," then
              match Json.parse_elements f r' with
              | Some (vs, r'') => Some (v :: vs, r'')
              | None => None
              end
            else if Ascii.eqb c "]" then Some ([v], r')
            else None
        | EmptyString => None
        end
    end.
Proof. reflexivity. Qed.

Lemma parse_members_S (f : nat) (s : string) :
  Json.parse_members (S f) s =
    match Json.skip_ws s with
    | String q r =>
        if Ascii.eqb q quote then
          match Json.parse_chars Json.InStr None r with
          | None => None
          | Some (key, r1) =>
              match Json.skip_ws r1 with
              | String ":" r2 =>
                  match Json.parse_value f r2 with
                  | None => None
                  | Some (v, r3) =>
                      match Json.skip_ws r3 with
                      | String c r4 =>
                          if Ascii.eqb c "," then
                            match Json.parse_members f r4 with
                            | Some (ms, r5) => Some ((key, v) :: ms, r5)
                            | None => None
                            end
                          else if Ascii.eqb c "}" then Some ([(key, v)], r4)
                          else None
                      | EmptyString => None
                      end
                  end
              | _ => None
              end
          end
        else None
    | EmptyString => None
    end.
Proof. reflexivity. Qed.

Lemma parse_value_quoted (pre x : string) (f : nat) (tail : string) :
  blank pre -> clean x ->
  Json.parse_value (S f) (pre ++ String quote (plans.escapeJSON x ++ String quote tail))
    = Some (Json.Str (as_utf8 x), tail).
Proof.
  intros Hpre Hx. rewrite parse_value_S.
  rewrite skip_ws_blank by (assumption || reflexivity).
  change (Ascii.eqb quote quote) with true. cbv match.
  now rewrite parse_chars_escaped.
Qed.

Lemma formatStringArray_cons (x : string) (l : list string) :
  plans.formatStringArray (x :: l) = Join (map quoted (x :: l)) ", ".
Proof. reflexivity. Qed.

(** The elements [formatStringArray] writes, up to the closing bracket. *)
Lemma parse_elements_strings (l : list string) :
  forall (x pre : string) (f : nat) (tail : string),
    blank pre -> Forall clean (x :: l) -> (List.length l + 1 <= f)%nat ->
    Json.parse_elements (S f) (pre ++ Join (map quoted (x :: l)) ", " ++ String "]" tail)
      = Some (map Json.Str (map as_utf8 (x :: l)), tail).
Proof.
  induction l as [| y l IH]; intros x pre f tail Hpre Hclean Hf.
  - destruct f as [| f]; [simpl in Hf; lia |].
    apply Forall_inv in Hclean.
    cbn [map Join]. unfold quoted.
    rewrite !append_assoc. cbn [String.append str].
    rewrite parse_elements_S.
    rewrite parse_value_quoted by assumption.
    cbv beta match. rewrite skip_ws_nonws by reflexivity.
    reflexivity.
  - destruct f as [| f]; [simpl in Hf; lia |].
    pose proof (Forall_inv Hclean) as Hx. apply Forall_inv_tail in Hclean.
    change (Join (map quoted (x :: y :: l)) ", ")
      with (quoted x ++ ", " ++ Join (map quoted (y :: l)) ", ").
    unfold quoted at 1.
    rewrite !append_assoc. cbn [String.append str].
    rewrite parse_elements_S.
    rewrite parse_value_quoted by assumption.
    cbv beta match. rewrite skip_ws_nonws by reflexivity.
    simpl (Ascii.eqb _ _). cbv beta match.
    change (String " " (Join (map quoted (y :: l)) ", " ++ String "]" tail))
      with (" " ++ Join (map quoted (y :: l)) ", " ++ String "]" tail).
    rewrite IH; [reflexivity | reflexivity | assumption | simpl in Hf; lia].
Qed.

Lemma elements_head (x : string) (l : list string) (tail : string) :
  exists rest, Join (map quoted (x :: l)) ", " ++ String "]" tail = String quote rest.
Proof.
  destruct l as [| y l].
  - cbn [map Join]. unfold quoted. rewrite !append_assoc. cbn [String.append str]. eauto.
  - change (Join (map quoted (x :: y :: l)) ", ")
      with (quoted x ++ ", " ++ Join (map quoted (y :: l)) ", ").
    unfold quoted at 1. rewrite !append_assoc. cbn [String.append str]. eauto.
Qed.

(** An array that does not start with its closing bracket. *)
Lemma parse_value_array (f : nat) (r : string) :
  (exists rest, r = String quote rest) ->
  Json.parse_value (S f) (String " " (String "[" r)) =
    match Json.parse_elements f r with
    | Some (vs, r') => Some (Json.Arr vs, r')
    | None => None
    end.
Proof. intros [rest ->]. reflexivity. Qed.

Lemma array_member_ok (key : string) (l : list string) :
  Forall clean l -> value_ok (array_member key l).
Proof.
  intros Hclean f tail Hf. unfold array_member in *. cbn [m_text m_value m_fuel] in *.
  destruct l as [| x l].
  - reflexivity.
  - rewrite formatStringArray_cons.
    rewrite !append_assoc. cbn [String.append].
    rewrite parse_value_array by apply elements_head.
    destruct f as [| f]; [simpl in Hf; lia |].
    change (Join (map quoted (x :: l)) ", " ++ String "]" tail)
      with (EmptyString ++ Join (map quoted (x :: l)) ", " ++ String "]" tail).
    rewrite (parse_elements_strings l x EmptyString f tail);
      [reflexivity | reflexivity | assumption | simpl in Hf; lia].
Qed.

End Values.

Section Objects.

Lemma skip_ws_indent (r : string) :
  Json.skip_ws (nl ++ "  " ++ str quote ++ r) = String quote r.
Proof. reflexivity. Qed.

Lemma skip_ws_closing (tail : string) :
  Json.skip_ws (nl ++ String "}" tail) = String "}" tail.
Proof. reflexivity. Qed.

Lemma render_cons (m : member) (rest : list member) (tail : string) :
  render (m :: rest) tail =
    "  " ++ str quote ++ m_key m ++ str quote ++ ": " ++ m_text m
    ++ match rest with
       | [] => nl ++ tail
       | _ :: _ => "," ++ nl ++ render rest tail
       end.
Proof. reflexivity. Qed.

(** The lines of an object are read back as its members, up to the
    closing brace.  [bound] bounds the fuel the values take. *)
Lemma parse_members_render (bound : nat) (ms : list member) :
  forall (m : member) (f : nat) (tail : string),
    Forall (fun m => plain (m_key m) /\ value_ok m /\ (m_fuel m <= bound)%nat) (m :: ms) ->
    (List.length ms + bound + 2 <= f)%nat ->
    Json.parse_members f (nl ++ render (m :: ms) (String "}" tail))
      = Some (map (fun m => (m_key m, m_value m)) (m :: ms), tail).
Proof.
  induction ms as [| m' ms IH]; intros m f tail Hall Hf.
  - apply Forall_inv in Hall as (Hkey & Hval & Hfuel).
    destruct f as [| [| f]]; [simpl in Hf; lia | simpl in Hf; lia |].
    rewrite render_cons, parse_members_S, skip_ws_indent.
    change (Ascii.eqb quote quote) with true. cbv beta match.
    cbn [String.append str]. rewrite parse_chars_plain by assumption.
    cbv beta match. rewrite skip_ws_nonws by reflexivity. cbv beta match.
    rewrite Hval by (simpl in Hf; lia).
    cbv beta match. rewrite skip_ws_closing. reflexivity.
  - pose proof (Forall_inv Hall) as (Hkey & Hval & Hfuel).
    apply Forall_inv_tail in Hall.
    destruct f as [| [| f]]; [simpl in Hf; lia | simpl in Hf; lia |].
    rewrite render_cons, parse_members_S, skip_ws_indent.
    change (Ascii.eqb quote quote) with true. cbv beta match.
    cbn [String.append str]. rewrite parse_chars_plain by assumption.
    cbv beta match. rewrite skip_ws_nonws by reflexivity. cbv beta match.
    rewrite Hval by (simpl in Hf; lia).
    cbv beta match. rewrite skip_ws_nonws by reflexivity.
    simpl (Ascii.eqb _ _). cbv beta match.
    change (String newline (render (m' :: ms) (String "}" tail)))
      with (nl ++ render (m' :: ms) (String "}" tail)).
    rewrite IH; [reflexivity | assumption | simpl in Hf |- *; lia].
Qed.

(** An object written one member per line is read back as an object. *)
Lemma parse_value_render (bound : nat) (m : member) (ms : list member)
    (f : nat) (tail : string) :
  Forall (fun m => plain (m_key m) /\ value_ok m /\ (m_fuel m <= bound)%nat) (m :: ms) ->
  (List.length ms + bound + 2 <= f)%nat ->
  Json.parse_value (S f) ("{" ++ nl ++ render (m :: ms) (String "}" tail))
    = Some (Json.Obj (map (fun m => (m_key m, m_value m)) (m :: ms)), tail).
Proof.
  intros Hall Hf.
  rewrite parse_value_S. cbn [String.append]. rewrite skip_ws_nonws by reflexivity.
  simpl (Ascii.eqb _ _). cbv beta match.
  change (String newline (render (m :: ms) (String "}" tail)))
    with (nl ++ render (m :: ms) (String "}" tail)).
  rewrite render_cons at 1. rewrite skip_ws_indent. cbv beta match.
  now rewrite (parse_members_render bound ms m f tail).
Qed.

End Objects.

(* ===================================================================== *)
(** ** C9: the summary file is JSON and reads back                        *)
(* ===================================================================== *)

Section Rejected.

Lemma parse_chars_raw_control (c : ascii) (tail : string) :
  escapable c = false ->
  Json.parse_chars Json.InStr None (escape_byte c ++ tail) = None.
Proof.
  destruct c as [[] [] [] [] [] [] [] []]; intros H; try discriminate H; reflexivity.
Qed.

(** A string with a byte outside the domain is written with that byte
    raw, and the reader stops there. *)
Lemma parse_chars_unclean_bytes (n : nat) :
  forall s tail : string,
    (String.length s <= n)%nat -> all_bytes escapable s = false ->
    Json.parse_chars Json.InStr None (escape_bytes s ++ tail) = None.
Proof.
  induction n as [| n IH]; intros s tail Hlen Hs.
  - destruct s; [discriminate Hs | cbn in Hlen; lia].
  - destruct s as [| c r]; [discriminate Hs |].
    cbn [all_bytes escape_bytes String.length] in *. rewrite append_assoc.
    destruct (escapable c) eqn:Hc; [| now apply parse_chars_raw_control].
    cbn [andb] in Hs.
    destruct (is_ascii c) eqn:Hlow.
    + rewrite parse_chars_escape_byte, IH by (assumption || lia). reflexivity.
    + destruct (high_byte c Hlow) as (_ & _ & _ & -> & _).
      cbn [String.append str]. rewrite parse_chars_high by assumption.
      destruct (Json.rune_split c (escape_bytes r ++ tail)) as [[cs R'] |] eqn:HR.
      * destruct (rune_split_spec c _ cs R' HR) as (Heq & Hcs & _ & _).
        destruct (escape_split cs r tail R' Hcs (or_introl Hs) Heq)
          as (r' & -> & -> & Hbad).
        rewrite length_app_string in Hlen.
        rewrite IH by first [lia | exact (Hbad Hs)]. reflexivity.
      * rewrite IH by (assumption || lia). reflexivity.
Qed.

Lemma parse_chars_unclean (s tail : string) :
  all_bytes escapable s = false ->
  Json.parse_chars Json.InStr None (plans.escapeJSON s ++ tail) = None.
Proof.
  rewrite escapeJSON_bytes. now apply (parse_chars_unclean_bytes (String.length s)).
Qed.

Lemma parse_value_quoted_bad (pre x : string) (f : nat) (tail : string) :
  blank pre -> all_bytes escapable x = false ->
  Json.parse_value (S f) (pre ++ String quote (plans.escapeJSON x ++ tail)) = None.
Proof.
  intros Hpre Hx. rewrite parse_value_S.
  rewrite skip_ws_blank by (assumption || reflexivity).
  change (Ascii.eqb quote quote) with true. cbv match.
  now rewrite parse_chars_unclean.
Qed.

Lemma string_member_bad (key value read : string) :
  all_bytes escapable value = false ->
  value_bad (string_member key (plans.escapeJSON value) read).
Proof.
  intros Hbad f tail. unfold string_member. cbn [m_text].
  change (str quote ++ plans.escapeJSON value ++ str quote)
    with (String quote (plans.escapeJSON value ++ str quote)).
  cbn [String.append]. rewrite append_assoc.
  change (String " " (String quote (plans.escapeJSON value ++ str quote ++ tail)))
    with (" " ++ String quote (plans.escapeJSON value ++ str quote ++ tail)).
  now apply parse_value_quoted_bad.
Qed.

Lemma all_clean_Forall (l : list string) : all_clean l = true <-> Forall clean l.
Proof.
  unfold all_clean, clean. rewrite forallb_forall, List.Forall_forall. reflexivity.
Qed.

(** The elements [formatStringArray] writes are rejected as soon as one of
    them is outside the domain. *)
Lemma parse_elements_strings_bad (l : list string) :
  forall (x pre : string) (f : nat) (tail : string),
    blank pre -> all_clean (x :: l) = false ->
    Json.parse_elements f (pre ++ Join (map quoted (x :: l)) ", " ++ String "]" tail)
      = None.
Proof.
  induction l as [| y l IH]; intros x pre f tail Hpre Hbad.
  - destruct f as [| [| f]]; [reflexivity | reflexivity |].
    cbn [all_clean forallb] in Hbad. rewrite andb_true_r in Hbad.
    cbn [map Join]. unfold quoted.
    rewrite !append_assoc. cbn [String.append str].
    rewrite parse_elements_S.
    now rewrite parse_value_quoted_bad.
  - destruct f as [| [| f]]; [reflexivity | reflexivity |].
    change (Join (map quoted (x :: y :: l)) ", ")
      with (quoted x ++ ", " ++ Join (map quoted (y :: l)) ", ").
    unfold quoted at 1.
    rewrite !append_assoc. cbn [String.append str].
    rewrite parse_elements_S.
    change (all_clean (x :: y :: l)) with (all_bytes escapable x && all_clean (y :: l)) in Hbad.
    destruct (all_bytes escapable x) eqn:Hx.
    + rewrite parse_value_quoted by assumption.
      cbv beta match. rewrite skip_ws_nonws by reflexivity.
      simpl (Ascii.eqb _ _). cbv beta match.
      change (String " " (Join (map quoted (y :: l)) ", " ++ String "]" tail))
        with (" " ++ Join (map quoted (y :: l)) ", " ++ String "]" tail).
      rewrite IH; [reflexivity | reflexivity | assumption].
    + now rewrite parse_value_quoted_bad.
Qed.

Lemma array_member_bad (key : string) (l : list string) :
  all_clean l = false -> value_bad (array_member key l).
Proof.
  intros Hbad f tail. unfold array_member. cbn [m_text].
  destruct l as [| x l]; [discriminate Hbad |].
  rewrite formatStringArray_cons.
  rewrite !append_assoc. cbn [String.append].
  rewrite parse_value_array by apply elements_head.
  change (Join (map quoted (x :: l)) ", " ++ String "]" tail)
    with (EmptyString ++ Join (map quoted (x :: l)) ", " ++ String "]" tail).
  rewrite (parse_elements_strings_bad l x EmptyString f tail);
    [reflexivity | reflexivity | assumption].
Qed.

(** The lines of an object are rejected when the value of one of them is,
    the values before it being read back. *)
Lemma parse_members_render_bad (bound : nat) (ms : list member) :
  forall (m : member) (f : nat) (tail : string),
    Forall (fun m => plain (m_key m) /\ (m_fuel m <= bound)%nat /\
                     (value_ok m \/ value_bad m)) (m :: ms) ->
    Exists value_bad (m :: ms) ->
    (List.length ms + bound + 2 <= f)%nat ->
    Json.parse_members f (nl ++ render (m :: ms) (String "}" tail)) = None.
Proof.
  induction ms as [| m' ms IH]; intros m f tail Hall Hex Hf.
  - apply Forall_inv in Hall as (Hkey & Hfuel & _).
    apply Exists_cons in Hex as [Hbad | Hex]; [| now apply Exists_nil in Hex].
    destruct f as [| [| f]]; [simpl in Hf; lia | simpl in Hf; lia |].
    rewrite render_cons, parse_members_S, skip_ws_indent.
    change (Ascii.eqb quote quote) with true. cbv beta match.
    cbn [String.append str]. rewrite parse_chars_plain by assumption.
    cbv beta match. rewrite skip_ws_nonws by reflexivity. cbv beta match.
    now rewrite Hbad.
  - pose proof (Forall_inv Hall) as (Hkey & Hfuel & Hval).
    apply Forall_inv_tail in Hall.
    destruct f as [| [| f]]; [simpl in Hf; lia | simpl in Hf; lia |].
    rewrite render_cons, parse_members_S, skip_ws_indent.
    change (Ascii.eqb quote quote) with true. cbv beta match.
    cbn [String.append str]. rewrite parse_chars_plain by assumption.
    cbv beta match. rewrite skip_ws_nonws by reflexivity. cbv beta match.
    assert (Hcases : value_bad m \/ (value_ok m /\ Exists value_bad (m' :: ms))).
    { apply Exists_cons in Hex as [Hbad | Hex]; [now left |].
      destruct Hval as [Hok | Hbad]; [right; now split | now left]. }
    destruct Hcases as [Hbad | [Hok Hex']]; [now rewrite Hbad |].
    rewrite Hok by (simpl in Hf; lia).
    cbv beta match. rewrite skip_ws_nonws by reflexivity.
    simpl (Ascii.eqb _ _). cbv beta match.
    change (String newline (render (m' :: ms) (String "}" tail)))
      with (nl ++ render (m' :: ms) (String "}" tail)).
    rewrite IH; [reflexivity | assumption | assumption | simpl in Hf |- *; lia].
Qed.

Lemma parse_value_render_bad (bound : nat) (m : member) (ms : list member)
    (f : nat) (tail : string) :
  Forall (fun m => plain (m_key m) /\ (m_fuel m <= bound)%nat /\
                   (value_ok m \/ value_bad m)) (m :: ms) ->
  Exists value_bad (m :: ms) ->
  (List.length ms + bound + 2 <= f)%nat ->
  Json.parse_value (S f) ("{" ++ nl ++ render (m :: ms) (String "}" tail)) = None.
Proof.
  intros Hall Hex Hf.
  rewrite parse_value_S. cbn [String.append]. rewrite skip_ws_nonws by reflexivity.
  simpl (Ascii.eqb _ _). cbv beta match.
  change (String newline (render (m :: ms) (String "}" tail)))
    with (nl ++ render (m :: ms) (String "}" tail)).
  rewrite render_cons at 1. rewrite skip_ws_indent. cbv beta match.
  now rewrite (parse_members_render_bad bound ms m f tail).
Qed.

End Rejected.

Section SummaryFile.
Context {L : GoLib}.

(** The text [SaveSummary] writes is an object of seven lines. *)
Lemma summaryContent_render (s : Summary) :
  plans.summaryContent s = "{" ++ nl ++ render (summary_members s) (String "}" EmptyString).
Proof.
  unfold plans.summaryContent, summary_members, string_member, array_member.
  cbv zeta. rewrite !render_cons. cbn [m_key m_text render].
  rewrite !append_assoc. reflexivity.
Qed.

Lemma length_formatStringArray (l : list string) :
  (List.length l <= String.length (plans.formatStringArray l))%nat.
Proof.
  destruct l as [| x l]; [simpl; lia |].
  rewrite formatStringArray_cons.
  revert x. induction l as [| y l IH]; intros x.
  - cbn [map Join List.length]. unfold quoted. rewrite !length_append. simpl. lia.
  - change (Join (map quoted (x :: y :: l)) ", ")
      with (quoted x ++ ", " ++ Join (map quoted (y :: l)) ", ").
    rewrite !length_append. specialize (IH y). simpl in *. lia.
Qed.

Lemma length_summaryContent (s : Summary) :
  (List.length (sChanges s) + List.length (sNextSteps s) + 8
   <= String.length (plans.summaryContent s))%nat.
Proof.
  unfold plans.summaryContent. cbv zeta. rewrite !length_append.
  pose proof (length_formatStringArray (sChanges s)).
  pose proof (length_formatStringArray (sNextSteps s)).
  simpl. lia.
Qed.

Lemma summary_members_ok (s : Summary) :
  plain (time_Format (sTimestamp s) time_RFC3339) ->
  no_control s ->
  Forall (fun m => plain (m_key m) /\ value_ok m /\
                   (m_fuel m <= S (List.length (sChanges s) + List.length (sNextSteps s)))%nat)
         (summary_members s).
Proof.
  intros Hts (Hname & Hnote & Htldr & Hbranch & Hchanges & Hnext).
  unfold summary_members.
  repeat (apply List.Forall_cons); try apply List.Forall_nil.
  all: split; [vm_compute; reflexivity | split].
  all: try (apply string_member_ok; intros tail).
  all: try (now apply parse_chars_escaped).
  all: try (now apply parse_chars_plain).
  all: try (now apply array_member_ok).
  all: cbn [m_fuel string_member array_member]; lia.
Qed.

Lemma summary_members_status (s : Summary) :
  plain (time_Format (sTimestamp s) time_RFC3339) ->
  Forall (fun m => plain (m_key m) /\
                   (m_fuel m <= S (List.length (sChanges s) + List.length (sNextSteps s)))%nat /\
                   (value_ok m \/ value_bad m))
         (summary_members s).
Proof.
  intros Hts. unfold summary_members.
  assert (Hstr : forall key v,
             value_ok (string_member key (plans.escapeJSON v) (as_utf8 v)) \/
             value_bad (string_member key (plans.escapeJSON v) (as_utf8 v))).
  { intros key v. destruct (all_bytes escapable v) eqn:Hv.
    - left. apply string_member_ok. intros tail. now apply parse_chars_escaped.
    - right. now apply string_member_bad. }
  assert (Harr : forall key l, value_ok (array_member key l) \/ value_bad (array_member key l)).
  { intros key l. destruct (all_clean l) eqn:Hl.
    - left. apply array_member_ok. now apply all_clean_Forall.
    - right. now apply array_member_bad. }
  repeat (apply List.Forall_cons); try apply List.Forall_nil.
  all: split; [vm_compute; reflexivity | split].
  all: try (cbn [m_fuel string_member array_member]; lia).
  all: try apply Hstr; try apply Harr.
  left. apply string_member_ok. intros tail. now apply parse_chars_plain.
Qed.

Lemma summary_members_bad (s : Summary) :
  ~ no_control s -> Exists value_bad (summary_members s).
Proof.
  intros Hout. unfold summary_members.
  destruct (all_bytes escapable (sDriverName s)) eqn:Hname;
    [| apply Exists_cons_tl, Exists_cons_hd; now apply string_member_bad].
  destruct (all_bytes escapable (sDriverNote s)) eqn:Hnote;
    [| do 2 apply Exists_cons_tl; apply Exists_cons_hd; now apply string_member_bad].
  destruct (all_bytes escapable (sTLDR s)) eqn:Htldr;
    [| do 3 apply Exists_cons_tl; apply Exists_cons_hd; now apply string_member_bad].
  destruct (all_clean (sChanges s)) eqn:Hchanges;
    [| do 4 apply Exists_cons_tl; apply Exists_cons_hd; now apply array_member_bad].
  destruct (all_clean (sNextSteps s)) eqn:Hnext;
    [| do 5 apply Exists_cons_tl; apply Exists_cons_hd; now apply array_member_bad].
  destruct (all_bytes escapable (sBranch s)) eqn:Hbranch;
    [| do 6 apply Exists_cons_tl; apply Exists_cons_hd; now apply string_member_bad].
  exfalso. apply Hout. unfold no_control, clean.
  rewrite <- !all_clean_Forall. tauto.
Qed.

(** Without such control characters the text is read back as the object
    of the fields, as the reader returns them. *)
Lemma parse_summaryContent (s : Summary) :
  plain (time_Format (sTimestamp s) time_RFC3339) ->
  no_control s ->
  Json.parse (plans.summaryContent s)
    = Some (summary_json (time_Format (sTimestamp s) time_RFC3339) (as_read s)).
Proof.
  intros Hts Hdom. unfold Json.parse.
  pose proof (length_summaryContent s) as Hlen.
  set (n := String.length (plans.summaryContent s)) in *.
  replace (2 * n + 2)%nat with (S (2 * n + 1)) by lia.
  rewrite summaryContent_render.
  unfold summary_members at 1.
  rewrite (parse_value_render (S (List.length (sChanges s) + List.length (sNextSteps s))));
    [reflexivity | now apply summary_members_ok | cbn [List.length]; lia].
Qed.

(** With such a control character the text is no JSON text. *)
Lemma parse_summaryContent_outside (s : Summary) :
  plain (time_Format (sTimestamp s) time_RFC3339) ->
  ~ no_control s ->
  Json.parse (plans.summaryContent s) = None.
Proof.
  intros Hts Hout. unfold Json.parse.
  pose proof (length_summaryContent s) as Hlen.
  set (n := String.length (plans.summaryContent s)) in *.
  replace (2 * n + 2)%nat with (S (2 * n + 1)) by lia.
  rewrite summaryContent_render.
  pose proof (summary_members_status s Hts) as Hall.
  pose proof (summary_members_bad s Hout) as Hex.
  unfold summary_members in Hall, Hex |- *.
  rewrite (parse_value_render_bad
             (S (List.length (sChanges s) + List.length (sNextSteps s))));
    [reflexivity | assumption | assumption | cbn [List.length]; lia].
Qed.

Lemma no_control_decide (s : Summary) : no_control s \/ ~ no_control s.
Proof.
  unfold no_control, clean. rewrite <- !all_clean_Forall.
  destruct (all_bytes escapable (sDriverName s)); [| right; intros H; now destruct H].
  destruct (all_bytes escapable (sDriverNote s)); [| right; intros H; now destruct H].
  destruct (all_bytes escapable (sTLDR s)); [| right; intros H; now destruct H].
  destruct (all_bytes escapable (sBranch s)); [| right; intros H; now destruct H].
  destruct (all_clean (sChanges s)); [| right; intros H; now destruct H].
  destruct (all_clean (sNextSteps s)); [| right; intros H; now destruct H].
  left. tauto.
Qed.

Lemma Forall_text_ok (l : list string) :
  Forall text_ok l <-> Forall clean l /\ forallb Json.utf8_valid l = true.
Proof.
  unfold text_ok. induction l as [| x l IH].
  - split; [intros _; split; [constructor | reflexivity] | constructor].
  - cbn [forallb]. rewrite andb_true_iff. split.
    + intros H. pose proof (Forall_inv H) as [Hx Hv].
      apply Forall_inv_tail, IH in H as [Hl Hvl].
      repeat split; try assumption. now apply List.Forall_cons.
    + intros (H & Hv & Hvl). pose proof (Forall_inv H) as Hx.
      apply Forall_inv_tail in H. apply List.Forall_cons; [now split |].
      apply IH. now split.
Qed.

(** The domain of the round trip: the domain C9 names, and well-formed
    UTF-8 in every field. *)
Lemma in_domain_iff (s : Summary) :
  in_domain s <-> no_control s /\ fields_utf8 s = true.
Proof.
  unfold in_domain, no_control, fields_utf8, text_ok.
  rewrite !Forall_text_ok, !andb_true_iff. tauto.
Qed.

Lemma map_as_utf8 (l : list string) :
  forallb Json.utf8_valid l = true -> map as_utf8 l = l.
Proof.
  induction l as [| x l IH]; [reflexivity |].
  cbn [forallb map]. intros H. apply andb_prop in H as [Hx H].
  now rewrite as_utf8_valid, IH.
Qed.

(** In the domain the reader returns the fields as they are. *)
Lemma as_read_in_domain (timestamp : string) (s : Summary) :
  in_domain s -> summary_json timestamp (as_read s) = summary_json timestamp s.
Proof.
  intros H. apply in_domain_iff in H as [_ H]. unfold fields_utf8 in H.
  repeat (apply andb_prop in H as [H ?]).
  unfold summary_json, as_read. cbn.
  now rewrite !as_utf8_valid, !map_as_utf8 by assumption.
Qed.

(** The elements of an array are well-formed when the strings are. *)
Lemma utf8_valid_elements (l : list string) :
  forall (x b : string),
    ok_head b = true ->
    Json.utf8_valid (Join (map quoted (x :: l)) ", " ++ b)
      = forallb Json.utf8_valid (x :: l) && Json.utf8_valid b.
Proof.
  induction l as [| y l IH]; intros x b Hb.
  - cbn [map Join forallb]. unfold quoted. rewrite !append_assoc.
    rewrite utf8_valid_ascii by reflexivity.
    rewrite utf8_valid_escaped by reflexivity.
    rewrite utf8_valid_ascii by reflexivity.
    now rewrite andb_true_r.
  - change (Join (map quoted (x :: y :: l)) ", ")
      with (quoted x ++ ", " ++ Join (map quoted (y :: l)) ", ").
    unfold quoted at 1. rewrite !append_assoc.
    rewrite utf8_valid_ascii by reflexivity.
    rewrite utf8_valid_escaped by reflexivity.
    rewrite utf8_valid_ascii by reflexivity.
    rewrite utf8_valid_ascii by reflexivity.
    rewrite IH by assumption.
    change (forallb Json.utf8_valid (x :: y :: l))
      with (Json.utf8_valid x && forallb Json.utf8_valid (y :: l)).
    now rewrite andb_assoc.
Qed.

Lemma utf8_valid_array (l : list string) (b : string) :
  ok_head b = true ->
  Json.utf8_valid (plans.formatStringArray l ++ b)
    = forallb Json.utf8_valid l && Json.utf8_valid b.
Proof.
  intros Hb. destruct l as [| x l]; [reflexivity |].
  rewrite formatStringArray_cons. now apply utf8_valid_elements.
Qed.

(** The text [SaveSummary] writes is well-formed UTF-8 exactly when the
    string fields are. *)
Lemma utf8_valid_summaryContent (s : Summary) :
  plain (time_Format (sTimestamp s) time_RFC3339) ->
  Json.utf8_valid (plans.summaryContent s) = fields_utf8 s.
Proof.
  intros Hts. apply plain_ascii in Hts.
  unfold plans.summaryContent, fields_utf8. cbv zeta.
  repeat first
    [ rewrite utf8_valid_escaped by reflexivity
    | rewrite utf8_valid_array by reflexivity
    | rewrite (utf8_valid_ascii (time_Format _ _)) by exact Hts
    | rewrite utf8_valid_ascii by reflexivity ].
  change (Json.utf8_valid "}") with true.
  now rewrite andb_true_r, !andb_assoc.
Qed.

(** What a successful [SaveSummary] leaves at the path of the summary. *)
Lemma SaveSummary_file (env : Env) (m : plans.Manager) (s : Summary) (w : World) :
  value (run env (plans.SaveSummary m s) w) = None ->
  files (final (run env (plans.SaveSummary m s) w)) !! summary_path m s
    = Some (plans.summaryContent s).
Proof.
  unfold plans.SaveSummary, summary_path. rewrite value_bind, final_bind.
  destruct (EnsureDirs_value env m w) as [-> _].
  destruct (value (run env (plans.EnsureDirs m) w)) as [e |]; [discriminate |].
  simpl. destruct (env_write_fault env _); simpl; [discriminate | intros _].
  apply lookup_insert_eq.
Qed.

End SummaryFile.

(** C9, as the code has it.  When [SaveSummary] returns without error,
    the file at the path of the summary holds the text it formatted.  The
    round trip holds in a smaller domain than the one named, and for the
    string fields only.  If every string field of the summary (driverName,
    driverNote, tldr, branch, the elements of changes and of nextSteps) is
    well-formed UTF-8 and has no control character other than newline,
    carriage return and tab, that text is a JSON text (well-formed UTF-8
    that reads as one value), an object, and reading it gives back the
    string fields as they were; of the time stamp it gives back the text
    RFC 3339 renders, not the instant.  If the fields have no such control
    character but are not all well-formed UTF-8, the reader still accepts
    the text, and returns the fields with every ill-formed byte replaced
    by U+FFFD.  Outside the domain the text is no JSON text: with such a
    control character in a field the reader rejects it, and with an
    ill-formed field the text is ill-formed UTF-8. *)
Theorem SaveSummary_json_round_trip {L : GoLib} (env : Env) (m : plans.Manager)
    (s : Summary) (w : World) :
  plain (time_Format (sTimestamp s) time_RFC3339) ->
  value (run env (plans.SaveSummary m s) w) = None ->
  exists content : string,
    files (final (run env (plans.SaveSummary m s) w)) !! summary_path m s = Some content /\
    (in_domain s ->
       Json.valid content /\
       Json.parse content
         = Some (summary_json (time_Format (sTimestamp s) time_RFC3339) s)) /\
    (no_control s ->
       Json.parse content
         = Some (summary_json (time_Format (sTimestamp s) time_RFC3339) (as_read s))) /\
    (~ no_control s -> Json.parse content = None) /\
    (~ in_domain s -> ~ Json.valid content).
Proof.
  intros Hts Hsaved. exists (plans.summaryContent s).
  split; [now apply SaveSummary_file |].
  split; [| split; [| split]].
  - intros Hdom. pose proof Hdom as Hin. apply in_domain_iff in Hin as [Hclean Hutf8].
    pose proof (parse_summaryContent s Hts Hclean) as Hparse.
    rewrite as_read_in_domain in Hparse by assumption.
    split; [| exact Hparse].
    split; [now rewrite utf8_valid_summaryContent | eexists; exact Hparse].
  - now apply parse_summaryContent.
  - now apply parse_summaryContent_outside.
  - intros Hout [Hutf8 [v Hparse]]. apply Hout, in_domain_iff.
    rewrite utf8_valid_summaryContent in Hutf8 by assumption.
    split; [| exact Hutf8].
    destruct (no_control_decide s) as [Hclean | Hbad]; [exact Hclean |].
    rewrite parse_summaryContent_outside in Hparse by assumption. discriminate Hparse.
Qed.

Lemma SaveSummary_json_round_trip_witness :
  let s := {| sTimestamp := 1700000000000000000%Z;
              sDriverName := "ada";
              sDriverNote := "first line" ++ nl ++ "then" ++ str tab ++ "a tab";
              sTLDR := "said " ++ str quote ++ "done" ++ str quote;
              sChanges := ["C:" ++ str backslash ++ "tmp"; "caf" ++ accented_note 1];
              sNextSteps := [];
              sBranch := "feature/x" |} in
  let r := run (Demo.env EmptyString)
               (plans.SaveSummary (L := RefLib.lib) Demo.manager s) Demo.empty_world in
  exists content : string,
    files (final r) !! summary_path (L := RefLib.lib) Demo.manager s = Some content /\
    Json.parse content = Some (summary_json "2023-11-14T22:13:20Z" s).
Proof.
  intros s r.
  destruct (SaveSummary_json_round_trip (L := RefLib.lib) (Demo.env EmptyString)
              Demo.manager s Demo.empty_world) as (content & Hfile & Hin & _).
  - vm_compute. reflexivity.
  - vm_compute. reflexivity.
  - exists content. split; [exact Hfile |].
    apply Hin. unfold in_domain, text_ok, clean.
    repeat split; repeat (apply List.Forall_cons); try apply List.Forall_nil;
      try split; vm_compute; reflexivity.
Defined.

(** C9 fails as stated, in two ways.  The time stamp does not come back:
    two summaries one nanosecond apart are written as the same text, so
    no reader recovers the original value.  And the named domain is too
    wide: the tldr the fallback summary cuts out of a note of two-byte
    characters has no control character, yet it is ill-formed UTF-8; the
    text written is then ill-formed too, and the reader returns a tldr
    that differs from the original (U+FFFD in place of the cut byte). *)
Lemma SaveSummary_round_trip_counterexample :
  let at_time (t : Z) (tldr : string) :=
    {| sTimestamp := t;
       sDriverName := "ada";
       sDriverNote := "note";
       sTLDR := tldr;
       sChanges := ["Changes made during rotation"];
       sNextSteps := ["Continue from where the previous driver left off"];
       sBranch := "feature/x" |} in
  let s1 := at_time 1700000000000000000%Z "done" in
  let s2 := at_time 1700000000000000001%Z "done" in
  let cut :=
    sTLDR (value (run (Demo.env EmptyString)
                      (summary.fallbackSummary Demo.generator (accented_note 60) "feature/x")
                      Demo.empty_world)) in
  let s3 := at_time 1700000000000000000%Z cut in
  (no_control s1 /\ no_control s2 /\ sTimestamp s1 <> sTimestamp s2 /\
   plans.summaryContent (L := RefLib.lib) s1 = plans.summaryContent (L := RefLib.lib) s2) /\
  (no_control s3 /\
   Json.utf8_valid (plans.summaryContent (L := RefLib.lib) s3) = false /\
   Json.parse (plans.summaryContent (L := RefLib.lib) s3)
     = Some (summary_json "2023-11-14T22:13:20Z"
               (at_time 1700000000000000000%Z
                        (accented_note 48 ++ Json.replacement ++ "..."))) /\
   accented_note 48 ++ Json.replacement ++ "..." <> cut).
Proof.
  intros at_time s1 s2 cut s3.
  assert (Hclean : forall t tldr, all_bytes escapable tldr = true ->
                                  no_control (at_time t tldr)).
  { intros t tldr Htldr. unfold no_control, clean.
    repeat split; repeat (apply List.Forall_cons); try apply List.Forall_nil;
      try exact Htldr; vm_compute; reflexivity. }
  split; [split; [| split; [| split]] | split; [| split; [| split]]].
  - apply (Hclean 1700000000000000000%Z "done"). reflexivity.
  - apply (Hclean 1700000000000000001%Z "done"). reflexivity.
  - discriminate.
  - vm_compute. reflexivity.
  - apply (Hclean 1700000000000000000%Z cut). vm_compute. reflexivity.
  - vm_compute. reflexivity.
  - vm_compute. reflexivity.
  - intros H. apply (f_equal String.length) in H. vm_compute in H. discriminate H.
Qed.

(* ===================================================================== *)
(** ** escapeJSON, GetPlanPath and buildPrompt as functions on strings    *)
(* ===================================================================== *)

Section EscapeFacts.

Lemma escape_bytes_append (a b : string) :
  escape_bytes (a ++ b) = escape_bytes a ++ escape_bytes b.
Proof.
  induction a as [| c a IH]; [reflexivity |].
  cbn [String.append escape_bytes]. now rewrite IH, append_assoc.
Qed.

Lemma unescape_escape_byte (c : ascii) (r : string) :
  unescape (escape_byte c ++ r) = String c (unescape r).
Proof.
  destruct c as [[] [] [] [] [] [] [] []]; reflexivity.
Qed.

Lemma escape_byte_no_raw (c : ascii) :
  has_byte newline (escape_byte c) = false /\
  has_byte creturn (escape_byte c) = false /\
  has_byte tab (escape_byte c) = false /\
  (1 <= String.length (escape_byte c) <= 2)%nat.
Proof.
  destruct c as [[] [] [] [] [] [] [] []]; cbn; repeat split; lia.
Qed.

End EscapeFacts.

(** [escapeJSON] works byte by byte, although it is written as five
    passes over the whole string: the escape of a concatenation is the
    concatenation of the escapes, and a byte is escaped on its own, by a
    backslash and a letter (backslash, quote, n, r, t) or as itself.  No
    later pass touches what an earlier pass wrote. *)
Theorem escapeJSON_byte_by_byte (a b : string) (c : ascii) :
  plans.escapeJSON (a ++ b) = plans.escapeJSON a ++ plans.escapeJSON b /\
  plans.escapeJSON (String c b) = escape_byte c ++ plans.escapeJSON b.
Proof.
  rewrite !escapeJSON_bytes. split; [apply escape_bytes_append | reflexivity].
Qed.

(** [escapeJSON] loses nothing: reading a backslash and the byte after it
    as one byte gives the string back, so that different strings have
    different escapes. *)
Theorem escapeJSON_can_be_undone (s t : string) :
  unescape (plans.escapeJSON s) = s /\
  (plans.escapeJSON s = plans.escapeJSON t <-> s = t).
Proof.
  assert (Hundo : forall x, unescape (plans.escapeJSON x) = x).
  { intros x. rewrite escapeJSON_bytes.
    induction x as [| c x IH]; [reflexivity |].
    cbn [escape_bytes]. now rewrite unescape_escape_byte, IH. }
  split; [apply Hundo |].
  split; [| now intros ->].
  intros Heq. rewrite <- (Hundo s), <- (Hundo t). now rewrite Heq.
Qed.

(** The text [escapeJSON] returns has no raw newline, carriage return or
    tab, and is at least as long and at most twice as long as its
    argument. *)
Theorem escapeJSON_no_raw_line_breaks (s : string) :
  has_byte newline (plans.escapeJSON s) = false /\
  has_byte creturn (plans.escapeJSON s) = false /\
  has_byte tab (plans.escapeJSON s) = false /\
  (String.length s <= String.length (plans.escapeJSON s) <= 2 * String.length s)%nat.
Proof.
  rewrite escapeJSON_bytes.
  induction s as [| c s (IHn & IHr & IHt & IHl)]; [cbn; repeat split; lia |].
  cbn [escape_bytes String.length].
  destruct (escape_byte_no_raw c) as (Hn & Hr & Ht & Hl).
  rewrite !has_byte_append, length_append, Hn, Hr, Ht, IHn, IHr, IHt.
  repeat split; lia.
Qed.

Section PlanPath.

Lemma subst_byte_twice (c d : ascii) (s : string) :
  d <> c -> subst_byte c (str d) (subst_byte c (str d) s) = subst_byte c (str d) s.
Proof.
  intros Hne. induction s as [| x s IH]; [reflexivity |].
  cbn [subst_byte]. destruct (Ascii.eqb x c) eqn:E.
  - cbn [str String.append subst_byte].
    assert (Ascii.eqb d c = false) as -> by now apply Ascii.eqb_neq.
    cbn [String.append]. now rewrite IH.
  - cbn [str String.append subst_byte]. rewrite E. cbn [String.append]. now rewrite IH.
Qed.

Lemma subst_byte_after (a b d : ascii) (s : string) :
  d <> a -> d <> b ->
  subst_byte b (str d) (subst_byte a (str d) (subst_byte b (str d) s))
    = subst_byte b (str d) (subst_byte a (str d) s).
Proof.
  intros Ha Hb. induction s as [| x s IH]; [reflexivity |].
  assert (Eda : Ascii.eqb d a = false) by now apply Ascii.eqb_neq.
  assert (Edb : Ascii.eqb d b = false) by now apply Ascii.eqb_neq.
  cbn [subst_byte].
  destruct (Ascii.eqb x b) eqn:Exb, (Ascii.eqb x a) eqn:Exa;
    cbn [str String.append subst_byte];
    rewrite ?Eda, ?Edb, ?Exa, ?Exb; cbn [str String.append subst_byte];
    rewrite ?Eda, ?Edb, ?Exa, ?Exb; cbn [String.append]; now rewrite IH.
Qed.

End PlanPath.

(** The plan path does not tell a separator from a dash: a branch and the
    same branch with its '/' (or its backslashes) already written as '-'
    have the same plan file.  So do, for instance, feature/x and
    feature-x. *)
Theorem plan_path_collides_on_separators (m : plans.Manager) (branch : string) :
  plans.GetPlanPath m (ReplaceAll branch "/" "-") = plans.GetPlanPath m branch /\
  plans.GetPlanPath m (ReplaceAll branch (str backslash) "-") = plans.GetPlanPath m branch /\
  plans.GetPlanPath m "feature/x" = plans.GetPlanPath m "feature-x".
Proof.
  unfold plans.GetPlanPath, plans.GetPlanPath_filename, str.
  rewrite !ReplaceAll_byte.
  change (String "-" EmptyString) with (str "-"%char).
  rewrite subst_byte_twice by discriminate.
  rewrite subst_byte_after by discriminate.
  repeat split.
Qed.

(** The prompt carries at most 10000 bytes of the diff: whatever the size
    of the diff, the prompt is at most 10016 bytes longer than the prompt
    for the empty diff, and a diff of at most 10000 bytes is carried
    whole. *)
Theorem buildPrompt_length_bounded (g : summary.Generator) (diff driverNote : string) :
  (len (summary.buildPrompt g diff driverNote)
   <= len (summary.buildPrompt g EmptyString driverNote) + 10016)%Z /\
  ((len diff <= 10000)%Z ->
   len (summary.buildPrompt g diff driverNote)
   = (len (summary.buildPrompt g EmptyString driverNote) + len diff)%Z).
Proof.
  unfold summary.buildPrompt, slice. cbv zeta.
  change (len EmptyString >? 10000)%Z with false. cbv iota.
  destruct (len diff >? 10000)%Z eqn:Hlen; unfold len in *.
  - apply Z.gtb_lt in Hlen.
    rewrite !length_append.
    rewrite length_substring_prefix by lia.
    change (String.length nl) with 1%nat.
    split; [cbn [String.length]; lia | intros Hle; lia].
  - assert (Z.of_nat (String.length diff) <= 10000)%Z
      by (destruct (Z.gtb_spec (Z.of_nat (String.length diff)) 10000); [discriminate | lia]).
    rewrite !length_append.
    split; [| intros _]; cbn [String.length]; lia.
Qed.

Lemma buildPrompt_length_bounded_witness :
  len (summary.buildPrompt Demo.generator "+ one line" "note")
  = (len (summary.buildPrompt Demo.generator EmptyString "note") + 10)%Z.
Proof.
  apply (buildPrompt_length_bounded Demo.generator "+ one line" "note").
  vm_compute. discriminate.
Defined.

(* ===================================================================== *)
(** ** Plan and summary files                                             *)
(* ===================================================================== *)

Section PlanFiles.
Context {L : GoLib} (env : Env).

Lemma value_SavePlan (m : plans.Manager) (branch content : string) (w : World) :
  value (run env (plans.SavePlan m branch content) w) = None <->
  can_save env m branch = true.
Proof.
  unfold plans.SavePlan, can_save. rewrite value_bind.
  destruct (EnsureDirs_value env m w) as [-> Hv].
  destruct (value (run env (plans.EnsureDirs m) w)) as [e |].
  - split; [discriminate |]. intros Hcan.
    destruct (env_mkdir_fault env (filepath_Join [plans.projectRoot m; plans.PlansDir]));
      [discriminate |].
    destruct (env_mkdir_fault env (filepath_Join [plans.projectRoot m; plans.SummariesDir]));
      [discriminate |].
    destruct Hv as [_ Hv]. now specialize (Hv (conj eq_refl eq_refl)).
  - destruct Hv as [Hv _]. destruct (Hv eq_refl) as [-> ->]. simpl.
    destruct (env_write_fault env _); simpl; split; congruence.
Qed.

Lemma run_SaveSummary (m : plans.Manager) (s : Summary) (w : World) :
  let r := run env (plans.SaveSummary m s) w in
  match value r with
  | None =>
      env_write_fault env (summary_path m s) = None /\
      final r = {| files := <[summary_path m s := plans.summaryContent s]> (files w);
                   ticks := ticks w |}
  | Some _ => final r = w
  end.
Proof.
  cbv zeta. unfold plans.SaveSummary, summary_path. rewrite value_bind, final_bind.
  destruct (EnsureDirs_value env m w) as [-> _].
  destruct (value (run env (plans.EnsureDirs m) w)) as [e |]; [reflexivity |].
  simpl. destruct (env_write_fault env _); simpl; [reflexivity | now split].
Qed.

Lemma value_SaveSummary (m : plans.Manager) (s : Summary) (w : World) :
  value (run env (plans.SaveSummary m s) w) = None <->
  env_mkdir_fault env (filepath_Join [plans.projectRoot m; plans.PlansDir]) = None /\
  env_mkdir_fault env (filepath_Join [plans.projectRoot m; plans.SummariesDir]) = None /\
  env_write_fault env (summary_path m s) = None.
Proof.
  unfold plans.SaveSummary, plans.EnsureDirs, summary_path. simpl.
  destruct (env_mkdir_fault env (filepath_Join [plans.projectRoot m; plans.PlansDir]));
    simpl; [split; [discriminate | now intros (? & _)] |].
  destruct (env_mkdir_fault env (filepath_Join [plans.projectRoot m; plans.SummariesDir]));
    simpl; [split; [discriminate | now intros (_ & ? & _)] |].
  destruct (env_write_fault env _); simpl; [split; [discriminate | now intros (_ & _ & ?)] |].
  now split.
Qed.

End PlanFiles.

(** A plan that was saved is the plan that is loaded: when [SavePlan]
    returns nil and the plan file can be read, [LoadPlan] on the same
    branch returns the saved content. *)
Theorem SavePlan_then_LoadPlan {L : GoLib} (env : Env) (m : plans.Manager)
    (branch content : string) (w : World) :
  value (run env (plans.SavePlan m branch content) w) = None ->
  env_read_fault env (plans.GetPlanPath m branch) = None ->
  value (run env (plans.LoadPlan m branch)
             (final (run env (plans.SavePlan m branch content) w)))
    = Ok content.
Proof.
  intros Hsaved Hread. apply value_SavePlan in Hsaved.
  rewrite final_SavePlan. unfold saved. rewrite Hsaved.
  unfold plans.LoadPlan. simpl. rewrite Hread, lookup_insert_eq. reflexivity.
Qed.

Lemma SavePlan_then_LoadPlan_witness :
  value (run (Demo.env EmptyString) (plans.LoadPlan Demo.manager "feature/x")
             (final (run (Demo.env EmptyString)
                         (plans.SavePlan Demo.manager "feature/x" "# Plan")
                         Demo.empty_world)))
    = Ok "# Plan".
Proof.
  apply (SavePlan_then_LoadPlan (L := RefLib.lib) (Demo.env EmptyString) Demo.manager
           "feature/x" "# Plan" Demo.empty_world); reflexivity.
Defined.

(** [SavePlan] touches the plan file only.  The one change it ever makes
    to the files is writing the content to the plan file of the branch:
    no file is removed and nothing else is written, so every other file
    is as it was, whether the call succeeds or not.  When it returns nil
    the plan file holds the content.  When it returns an error, the error
    says which step failed: when a directory could not be made, the write
    was not even tried; otherwise the write of the plan failed. *)
Theorem SavePlan_touches_only_the_plan_file {L : GoLib} (env : Env) (m : plans.Manager)
    (branch content : string) (w : World) :
  let path := plans.GetPlanPath m branch in
  let r := run env (plans.SavePlan m branch content) w in
  none (is_other_change path content) (events r) /\
  (forall p, p <> path -> files (final r) !! p = files w !! p) /\
  match value r with
  | None => files (final r) !! path = Some content
  | Some err =>
      (HasPrefix (Error err) "failed to create directory " = true /\
       none is_file_change (events r)) \/
      (HasPrefix (Error err) "failed to write plan: " = true /\
       exists e, In (Ev (OsWriteFile path content) (Some e)) (events r))
  end.
Proof.
  cbv zeta. unfold plans.SavePlan, plans.EnsureDirs. simpl.
  destruct (env_mkdir_fault env (filepath_Join [plans.projectRoot m; plans.PlansDir]));
    simpl.
  { split; [none_tac |]. split; [reflexivity |]. left. split; [apply prefix_nil | none_tac]. }
  destruct (env_mkdir_fault env (filepath_Join [plans.projectRoot m; plans.SummariesDir]));
    simpl.
  { split; [none_tac |]. split; [reflexivity |]. left. split; [apply prefix_nil | none_tac]. }
  destruct (env_write_fault env (plans.GetPlanPath m branch)) as [e |] eqn:Hw; simpl.
  - split; [repeat constructor; cbn; now rewrite !String.eqb_refl |].
    split; [reflexivity |]. right. split; [apply prefix_nil |].
    eexists. rewrite ?in_app_iff. cbn. eauto 10.
  - split; [repeat constructor; cbn; now rewrite !String.eqb_refl |].
    split; [intros p Hp; now apply lookup_insert_ne | apply lookup_insert_eq].
Qed.

(** Summaries are filed by the second: of two summaries saved one after
    the other whose time stamps fall in the same second, only the second
    one is left.  Both go to the same path, and the files after the two
    saves are the files after saving the second one alone. *)
Theorem SaveSummary_same_second_overwrites {L : GoLib} (env : Env) (m : plans.Manager)
    (s1 s2 : Summary) (w : World) :
  time_Format (sTimestamp s1) "2006-01-02T15-04-05"
    = time_Format (sTimestamp s2) "2006-01-02T15-04-05" ->
  let r1 := run env (plans.SaveSummary m s1) w in
  let r2 := run env (plans.SaveSummary m s2) (final r1) in
  value r2 = None ->
  summary_path m s1 = summary_path m s2 /\
  value r1 = None /\
  files (final r2) = <[summary_path m s2 := plans.summaryContent s2]> (files w) /\
  files (final r2) = files (final (run env (plans.SaveSummary m s2) w)).
Proof.
  intros Hsame r1 r2 Hsaved.
  assert (Hpath : summary_path m s1 = summary_path m s2)
    by (unfold summary_path; now rewrite Hsame).
  split; [exact Hpath |].
  apply value_SaveSummary in Hsaved.
  assert (Hvalue1 : value r1 = None)
    by (apply value_SaveSummary; now rewrite Hpath).
  split; [exact Hvalue1 |].
  pose proof (run_SaveSummary env m s1 w) as H1. cbv zeta in H1.
  fold r1 in H1. rewrite Hvalue1 in H1. destruct H1 as [_ H1].
  pose proof (run_SaveSummary env m s2 (final r1)) as H2. cbv zeta in H2.
  rewrite (proj2 (value_SaveSummary env m s2 (final r1)) Hsaved) in H2.
  destruct H2 as [_ H2].
  pose proof (run_SaveSummary env m s2 w) as H3. cbv zeta in H3.
  rewrite (proj2 (value_SaveSummary env m s2 w) Hsaved) in H3.
  destruct H3 as [_ H3].
  subst r2. rewrite H2, H3, H1. cbn [files]. rewrite Hpath, insert_insert_eq. now split.
Qed.

Lemma SaveSummary_same_second_overwrites_witness :
  let env := Demo.env EmptyString in
  let s (t : Time) (tldr : string) :=
    {| sTimestamp := t; sDriverName := "ada"; sDriverNote := EmptyString; sTLDR := tldr;
       sChanges := []; sNextSteps := []; sBranch := "feature-x" |} in
  let s1 := s 1730354400000000000%Z "first" in
  let s2 := s 1730354400900000000%Z "second" in
  let r1 := run env (plans.SaveSummary (L := RefLib.lib) Demo.manager s1) Demo.empty_world in
  let r2 := run env (plans.SaveSummary (L := RefLib.lib) Demo.manager s2) (final r1) in
  summary_path (L := RefLib.lib) Demo.manager s1
    = "/work/repo/.claude/mob/summaries/2024-10-31T06-00-00.json" /\
  files (final r2)
    = {[ summary_path (L := RefLib.lib) Demo.manager s2
         := plans.summaryContent (L := RefLib.lib) s2 ]}.
Proof.
  intros env s s1 s2 r1 r2.
  destruct (SaveSummary_same_second_overwrites (L := RefLib.lib) env Demo.manager s1 s2
              Demo.empty_world) as (_ & _ & Hfiles & _).
  - vm_compute. reflexivity.
  - vm_compute. reflexivity.
  - split; [vm_compute; reflexivity |].
    fold r1 r2 in Hfiles. rewrite Hfiles. reflexivity.
Defined.

(* ===================================================================== *)
(** ** The configuration file and the session file                        *)
(* ===================================================================== *)

Section ConfigFile.
Context {L : GoLib} (env : Env).

Lemma value_Load (w : World) :
  value (run env config.Load w) =
    match env_getwd env with
    | Fail _ => Ok config.DefaultConfig
    | Ok cwd =>
        match env_read_fault env (config_path cwd) with
        | Some m => Fail (ErrMsg m)
        | None =>
            match files w !! config_path cwd with
            | None => Ok config.DefaultConfig
            | Some data =>
                match json_Unmarshal_Config data with
                | Ok cfg => Ok (with_defaults cfg)
                | Fail err => Fail err
                end
            end
        end
    end.
Proof.
  unfold config.Load, config.GetConfigDir, config_path. simpl.
  destruct (env_getwd env) as [cwd | err]; simpl; [| reflexivity].
  destruct (env_read_fault env _); simpl; [reflexivity |].
  destruct (files w !! _); simpl; [| reflexivity].
  now destruct (json_Unmarshal_Config _).
Qed.

(** What a successful save into the configuration directory leaves. *)
Lemma run_Save (cfg : Config) (w : World) :
  value (run env (config.Save cfg) w) = None ->
  exists cwd data,
    env_getwd env = Ok cwd /\
    json_MarshalIndent_Config cfg = Ok data /\
    final (run env (config.Save cfg) w)
      = {| files := <[config_path cwd := data]> (files w); ticks := ticks w |}.
Proof.
  unfold config.Save, config.EnsureConfigDir, config.GetConfigDir, config_path. simpl.
  destruct (env_getwd env) as [cwd | err]; simpl; [| discriminate].
  destruct (env_mkdir_fault env _); simpl; [discriminate |].
  destruct (json_MarshalIndent_Config cfg) as [data | err]; simpl; [| discriminate].
  destruct (env_write_fault env _); simpl; [discriminate |].
  intros _. now exists cwd, data.
Qed.

Lemma run_SaveCurrentSession (s : CurrentSession) (w : World) :
  value (run env (config.SaveCurrentSession s) w) = None ->
  exists cwd data,
    env_getwd env = Ok cwd /\
    json_MarshalIndent_CurrentSession s = Ok data /\
    final (run env (config.SaveCurrentSession s) w)
      = {| files := <[session_path cwd := data]> (files w); ticks := ticks w |}.
Proof.
  unfold config.SaveCurrentSession, config.EnsureConfigDir, config.GetConfigDir,
    session_path. simpl.
  destruct (env_getwd env) as [cwd | err]; simpl; [| discriminate].
  destruct (env_mkdir_fault env _); simpl; [discriminate |].
  destruct (json_MarshalIndent_CurrentSession s) as [data | err]; simpl; [| discriminate].
  destruct (env_write_fault env _); simpl; [discriminate |].
  intros _. now exists cwd, data.
Qed.

End ConfigFile.

(** [Load] never returns a configuration with an empty model, zero turns
    or an empty dashboard URL: a file that leaves them out, or sets them to
    the empty string or zero, gets the defaults.  So the dashboard is
    configured exactly when the team name is set. *)
Theorem Load_never_returns_blank_settings {L : GoLib} (env : Env) (w : World)
    (cfg : Config) :
  value (run env config.Load w) = Ok cfg ->
  Model cfg <> EmptyString /\ MaxTurns cfg <> 0%Z /\ APIURL cfg <> EmptyString /\
  main.api_configured cfg = negb (is_empty (TeamName cfg)).
Proof.
  rewrite value_Load. intros Hload.
  assert (Hcases : cfg = config.DefaultConfig \/ exists c, cfg = with_defaults c).
  { destruct (env_getwd env); [| left; congruence].
    destruct (env_read_fault env _); [discriminate |].
    destruct (files w !! _); [| left; congruence].
    destruct (json_Unmarshal_Config _) as [c |]; [| discriminate].
    right. exists c. congruence. }
  destruct Hcases as [-> | [c ->]]; [repeat split; discriminate |].
  assert (Hne : forall x d : string, d <> EmptyString ->
                  (if is_empty x then d else x) <> EmptyString)
    by (intros [|] d Hd; [exact Hd | discriminate]).
  unfold with_defaults, main.api_configured. cbn [Model MaxTurns APIURL TeamName].
  repeat split.
  - now apply Hne.
  - destruct (MaxTurns c =? 0)%Z eqn:Ht; [discriminate | now apply Z.eqb_neq].
  - now apply Hne.
  - destruct (is_empty (APIURL c)) eqn:Hu; [apply andb_true_r |].
    destruct (APIURL c); [discriminate | apply andb_true_r].
Qed.

Lemma Load_never_returns_blank_settings_witness :
  let text := "{" ++ str quote ++ "teamName" ++ str quote ++ ": "
              ++ str quote ++ "crew" ++ str quote ++ "}" in
  let w := {| files := {[ config_path Demo.cwd := text ]}; ticks := 0 |} in
  let cfg := {| APIURL := "http://localhost:3000"; TeamName := "crew"; Model := "haiku";
                MaxTurns := 3; SkipSummary := false |} in
  value (run (Demo.env EmptyString) (config.Load (L := RefLib.lib)) w) = Ok cfg /\
  Model cfg <> EmptyString /\ MaxTurns cfg <> 0%Z /\ APIURL cfg <> EmptyString /\
  main.api_configured cfg = true.
Proof.
  intros text w cfg.
  assert (Hload : value (run (Demo.env EmptyString) (config.Load (L := RefLib.lib)) w) = Ok cfg)
    by (vm_compute; reflexivity).
  split; [exact Hload |].
  exact (Load_never_returns_blank_settings (L := RefLib.lib) (Demo.env EmptyString) w cfg Hload).
Defined.

(** Without a configuration file [Load] returns the defaults, without
    error and without touching anything; so it does when the working
    directory cannot be determined.  The defaults name no team. *)
Theorem Load_defaults_without_file {L : GoLib} (env : Env) (w : World) :
  (forall cwd, env_getwd env = Ok cwd ->
     env_read_fault env (config_path cwd) = None /\ files w !! config_path cwd = None) ->
  run env config.Load w
    = mkRun (Ok config.DefaultConfig) w (events (run env config.Load w)) /\
  none is_file_change (events (run env config.Load w)) /\
  main.api_configured config.DefaultConfig = false.
Proof.
  intros Hfile.
  assert (Hvalue : value (run env config.Load w) = Ok config.DefaultConfig).
  { rewrite value_Load. destruct (env_getwd env) as [cwd | err]; [| reflexivity].
    destruct (Hfile cwd eq_refl) as [-> ->]. reflexivity. }
  pose proof (Load_pure env w) as Hpure.
  split; [| split; [apply never_events; never_tac | reflexivity]].
  destruct (run env config.Load w) as [v f evs]. cbn in *. now subst.
Qed.

Lemma Load_defaults_without_file_witness :
  value (run (Demo.env EmptyString) (config.Load (L := RefLib.lib)) Demo.empty_world)
    = Ok config.DefaultConfig.
Proof.
  destruct (Load_defaults_without_file (L := RefLib.lib) (Demo.env EmptyString)
              Demo.empty_world) as [Hrun _].
  - intros cwd _. split; reflexivity.
  - now rewrite Hrun.
Defined.

(** A configuration that was saved is loaded back with the defaults
    filled in, provided the decoder reads what the encoder writes: after
    [Save] returns nil, [Load] returns the saved configuration, except
    that an empty model, zero turns and an empty URL come back as the
    defaults. *)
Theorem Save_then_Load {L : GoLib} (env : Env) (cfg : Config) (w : World) (cwd : string) :
  env_getwd env = Ok cwd ->
  env_read_fault env (config_path cwd) = None ->
  (forall data, json_MarshalIndent_Config cfg = Ok data ->
                json_Unmarshal_Config data = Ok cfg) ->
  value (run env (config.Save cfg) w) = None ->
  value (run env config.Load (final (run env (config.Save cfg) w)))
    = Ok (with_defaults cfg).
Proof.
  intros Hwd Hread Hcodec Hsaved.
  destruct (run_Save env cfg w Hsaved) as (cwd' & data & Hwd' & Hdata & ->).
  assert (cwd' = cwd) as -> by congruence.
  rewrite value_Load, Hwd, Hread. cbn [files].
  rewrite lookup_insert_eq, (Hcodec data Hdata). reflexivity.
Qed.

Lemma Save_then_Load_witness :
  let cfg := {| APIURL := EmptyString; TeamName := "crew"; Model := "sonnet";
                MaxTurns := 0; SkipSummary := true |} in
  value (run (Demo.env EmptyString) (config.Load (L := RefLib.lib))
             (final (run (Demo.env EmptyString) (config.Save (L := RefLib.lib) cfg)
                         Demo.empty_world)))
    = Ok {| APIURL := "http://localhost:3000"; TeamName := "crew"; Model := "sonnet";
            MaxTurns := 3; SkipSummary := true |}.
Proof.
  intros cfg.
  apply (Save_then_Load (L := RefLib.lib) (Demo.env EmptyString) cfg Demo.empty_world
           Demo.cwd).
  - reflexivity.
  - reflexivity.
  - intros data Hdata. injection Hdata as <-. vm_compute. reflexivity.
  - vm_compute. reflexivity.
Defined.

(** A session that was saved is the session that is loaded, provided the
    decoder reads what the encoder writes: after [SaveCurrentSession]
    returns nil, [LoadCurrentSession] returns the saved session. *)
Theorem SaveCurrentSession_then_Load {L : GoLib} (env : Env) (s : CurrentSession)
    (w : World) (cwd : string) :
  env_getwd env = Ok cwd ->
  env_read_fault env (session_path cwd) = None ->
  (forall data, json_MarshalIndent_CurrentSession s = Ok data ->
                json_Unmarshal_CurrentSession data = Ok s) ->
  value (run env (config.SaveCurrentSession s) w) = None ->
  session_is env (final (run env (config.SaveCurrentSession s) w)) s.
Proof.
  intros Hwd Hread Hcodec Hsaved.
  destruct (run_SaveCurrentSession env s w Hsaved) as (cwd' & data & Hwd' & Hdata & ->).
  assert (cwd' = cwd) as -> by congruence.
  unfold session_is. rewrite value_LoadCurrentSession, Hwd, Hread. cbn [files].
  rewrite lookup_insert_eq, (Hcodec data Hdata). reflexivity.
Qed.

Lemma SaveCurrentSession_then_Load_witness :
  session_is (L := RefLib.lib) (Demo.env EmptyString)
    (final (run (Demo.env EmptyString)
                (config.SaveCurrentSession (L := RefLib.lib) Demo.session)
                Demo.empty_world))
    Demo.session.
Proof.
  apply (SaveCurrentSession_then_Load (L := RefLib.lib) (Demo.env EmptyString)
           Demo.session Demo.empty_world Demo.cwd).
  - reflexivity.
  - reflexivity.
  - intros data Hdata. injection Hdata as <-. vm_compute. reflexivity.
  - vm_compute. reflexivity.
Defined.

(** Clearing the session twice is clearing it once: when the working
    directory is known and the removal itself does not fail,
    [ClearCurrentSession] returns nil whether or not there is a session
    file, leaves no session file, and a second call returns nil and
    changes nothing. *)
Theorem ClearCurrentSession_twice {L : GoLib} (env : Env) (w : World) (cwd : string) :
  env_getwd env = Ok cwd ->
  env_remove_fault env (session_path cwd) = None ->
  let r1 := run env config.ClearCurrentSession w in
  let r2 := run env config.ClearCurrentSession (final r1) in
  value r1 = None /\ value r2 = None /\
  files (final r1) = delete (session_path cwd) (files w) /\
  final r2 = final r1.
Proof.
  intros Hwd Hrm r1 r2. subst r1 r2.
  rewrite !(run_ClearCurrentSession env _ cwd Hwd). cbv zeta. cbn [value final answer].
  rewrite Hrm.
  destruct (files w !! session_path cwd) eqn:Hfile; cbn [fst snd files os_IsNotExist].
  - rewrite lookup_delete_eq. cbn [fst snd files os_IsNotExist]. repeat split.
  - rewrite Hfile. cbn [fst snd files os_IsNotExist]. repeat split.
    symmetry. now apply delete_id.
Qed.

Lemma ClearCurrentSession_twice_witness :
  let env := Demo.env EmptyString in
  let r1 := run env (config.ClearCurrentSession) Demo.started_world in
  let r2 := run env (config.ClearCurrentSession) (final r1) in
  value r1 = None /\ value r2 = None /\ files (final r2) = ∅.
Proof.
  intros env r1 r2.
  destruct (ClearCurrentSession_twice (L := RefLib.lib) env Demo.started_world Demo.cwd)
    as (H1 & H2 & Hfiles & Hsame); [reflexivity | reflexivity |].
  fold r1 in H1, Hfiles, Hsame. fold r2 in H2, Hsame.
  split; [exact H1 | split; [exact H2 |]].
  rewrite Hsame, Hfiles. apply delete_singleton_eq.
Defined.

(* ===================================================================== *)
(** ** The dashboard client                                               *)
(* ===================================================================== *)

Lemma run_HttpDo (env : Env) (method url body : string) (w : World) :
  run env (trigger (HttpDo method url body)) w
    = mkRun (env_http env method url body) w
            [Ev (HttpDo method url body) (env_http env method url body)].
Proof. reflexivity. Qed.

(** A 200 answer with a body always counts as a plan.  [GetPlan] returns
    the planText of the body when the body decodes to a non-empty one, and
    the body itself in every other case: when the planText is empty and
    when the body does not decode.  So with a non-empty body the result is
    never the empty string, and a body whose planText is empty is returned
    as it is, JSON and all. *)
Theorem GetPlan_answer_with_body_is_a_plan {L : GoLib} (env : Env) (c : api.Client)
    (branch body : string) (w : World) :
  env_http env "GET" (plan_endpoint c branch) EmptyString = HttpResp 200 (Ok body) ->
  body <> EmptyString ->
  exists text,
    value (run env (api.GetPlan c branch) w) = Ok text /\
    text <> EmptyString /\
    (forall planText, json_Unmarshal_PlanText body = Ok planText ->
                      planText <> EmptyString -> text = planText) /\
    (json_Unmarshal_PlanText body = Ok EmptyString -> text = body) /\
    (forall err, json_Unmarshal_PlanText body = Fail err -> text = body) /\
    events (run env (api.GetPlan c branch) w)
      = [Ev (HttpDo "GET" (plan_endpoint c branch) EmptyString) (HttpResp 200 (Ok body))].
Proof.
  intros Hresp Hbody.
  assert (Hev : events (run env (api.GetPlan c branch) w)
                = [Ev (HttpDo "GET" (plan_endpoint c branch) EmptyString)
                      (HttpResp 200 (Ok body))]).
  { unfold api.GetPlan. cbv zeta. fold (plan_endpoint c branch).
    rewrite run_bind, run_HttpDo. cbv zeta. cbn [value final events]. rewrite Hresp.
    unfold api.http_StatusNotFound, api.http_StatusOK. cbn [Z.eqb Pos.eqb negb].
    destruct (json_Unmarshal_PlanText body) as [planText | err]; [| reflexivity].
    now destruct (negb (is_empty planText)). }
  rewrite Hev, value_GetPlan, Hresp. cbn [Z.eqb Pos.eqb negb].
  destruct (json_Unmarshal_PlanText body) as [planText | err] eqn:Hdecode.
  - destruct planText as [| x planText]; cbn [is_empty negb].
    + exists body. repeat split; auto; congruence.
    + exists (String x planText). repeat split; auto; congruence.
  - exists body. repeat split; auto; congruence.
Qed.

Lemma GetPlan_answer_with_body_is_a_plan_witness :
  let body := "{" ++ str quote ++ "planText" ++ str quote ++ ":"
              ++ str quote ++ str quote ++ "}" in
  let env := Demo.env_with_dashboard body in
  RefLib.Unmarshal_PlanText body = Ok EmptyString /\
  value (run env (api.GetPlan (L := RefLib.lib) (client_of Demo.team_config) "feature-x")
             Demo.empty_world) = Ok body /\
  files (final (run env (main.runStart_reconcile (L := RefLib.lib) Demo.team_config
                           Demo.manager "feature-x")
                    (Demo.world_with_plan "# Plan"))) !! Demo.plan_path = Some body.
Proof.
  intros body env.
  destruct (GetPlan_answer_with_body_is_a_plan (L := RefLib.lib) env
              (client_of Demo.team_config) "feature-x" body Demo.empty_world)
    as (text & Hvalue & _ & _ & Hraw & _); [reflexivity | discriminate |].
  assert (Hdecode : RefLib.Unmarshal_PlanText body = Ok EmptyString)
    by (vm_compute; reflexivity).
  split; [exact Hdecode |].
  split; [rewrite Hvalue; f_equal; exact (Hraw Hdecode) |].
  vm_compute. reflexivity.
Defined.

(** [UpdatePlan] takes status 200 only for success: it returns nil exactly
    when the dashboard answers 200, and for every other status, 201
    included, the error that names the status and the body. *)
Theorem UpdatePlan_accepts_only_200 {L : GoLib} (env : Env) (c : api.Client)
    (branch planText payload : string) (status : Z) (rbody : result string) (w : World) :
  json_Marshal_UpdatePlanRequest {| upPlanText := planText |} = Ok payload ->
  env_http env "PUT" (plan_endpoint c branch) payload = HttpResp status rbody ->
  let r := run env (api.UpdatePlan c branch planText) w in
  (value r = None <-> status = 200%Z) /\
  (status <> 200%Z -> value r = Some (api.api_error status rbody)) /\
  events r = [Ev (HttpDo "PUT" (plan_endpoint c branch) payload) (HttpResp status rbody)].
Proof.
  intros Hmarshal Hresp r. subst r. unfold api.UpdatePlan. cbv zeta.
  fold (plan_endpoint c branch). rewrite Hmarshal, run_bind, run_HttpDo.
  cbv zeta. cbn [value final events]. rewrite Hresp. unfold api.http_StatusOK.
  destruct (Z.eqb_spec status 200) as [-> | Hne]; cbn [negb]; rewrite run_Ret;
    cbn [value events app]; repeat split; congruence.
Qed.

Lemma UpdatePlan_accepts_only_200_witness :
  let env := set_http (Demo.env EmptyString) (fun _ _ _ => HttpResp 201 (Ok "created")) in
  value (run env (api.UpdatePlan (L := RefLib.lib) (client_of Demo.team_config)
                    "feature-x" "# Plan") Demo.empty_world)
    = Some (ErrMsg "API error (201): created").
Proof.
  intros env.
  destruct (UpdatePlan_accepts_only_200 (L := RefLib.lib) env (client_of Demo.team_config)
              "feature-x" "# Plan"
              ("{" ++ str quote ++ "planText" ++ str quote ++ ":"
               ++ str quote ++ "# Plan" ++ str quote ++ "}")
              201 (Ok "created") Demo.empty_world) as (_ & Hother & _).
  - reflexivity.
  - reflexivity.
  - rewrite Hother by discriminate. reflexivity.
Defined.

(** A call to the dashboard is one HTTP request at most and nothing else:
    every function of the client leaves the files and the clock as they
    were, runs no process, and its trace is empty (when the request could
    not be encoded) or a single request. *)
Theorem api_calls_make_one_request {L : GoLib} (env : Env) (c : api.Client)
    (branch repoURL planText : string) (rotation : CreateRotationRequest) (w : World) :
  let quiet {A : Type} (p : Prog A) :=
    final (run env p w) = w /\ at_most_one_request (events (run env p w)) in
  quiet (api.GetPlan c branch) /\
  quiet (api.GetWorkstream c branch) /\
  quiet (api.CreateWorkstream c repoURL branch) /\
  quiet (api.UpdatePlan c branch planText) /\
  quiet (api.CreateRotation c branch rotation) /\
  quiet (api.Ping c).
Proof.
  cbv zeta. repeat split.
  all: try (apply never_change_world; unfold api.GetWorkstream, api.Ping; never_tac).
  - unfold api.GetPlan. simpl.
    destruct (env_http env _ _ _) as [err | status body]; simpl; [reflexivity |].
    destruct (status =? api.http_StatusNotFound)%Z; simpl; [reflexivity |].
    destruct (negb (status =? api.http_StatusOK)%Z); simpl; [reflexivity |].
    destruct body as [body | err]; simpl; [| reflexivity].
    destruct (json_Unmarshal_PlanText body) as [t | err]; simpl; [| reflexivity].
    now destruct (negb (is_empty t)).
  - unfold api.GetWorkstream. simpl.
    destruct (env_http env _ _ _) as [err | status body]; simpl; [reflexivity |].
    destruct (status =? api.http_StatusNotFound)%Z; simpl; [reflexivity |].
    destruct (negb (status =? api.http_StatusOK)%Z); simpl; [reflexivity |].
    destruct body as [body | err]; simpl; [| reflexivity].
    now destruct (json_Decode_Workstream body).
  - unfold api.CreateWorkstream.
    destruct (json_Marshal_CreateWorkstreamRequest _); simpl; [| exact I].
    destruct (env_http env _ _ _) as [err | status body]; simpl; [reflexivity |].
    destruct (negb (status =? api.http_StatusOK)%Z && negb (status =? api.http_StatusCreated)%Z);
      simpl; [reflexivity |].
    destruct body as [body | err]; simpl; [| reflexivity].
    now destruct (json_Decode_Workstream body).
  - unfold api.UpdatePlan.
    destruct (json_Marshal_UpdatePlanRequest _); simpl; [| exact I].
    destruct (env_http env _ _ _) as [err | status body]; simpl; [reflexivity |].
    now destruct (negb (status =? api.http_StatusOK)%Z).
  - unfold api.CreateRotation.
    destruct (json_Marshal_CreateRotationRequest _); simpl; [| exact I].
    destruct (env_http env _ _ _) as [err | status body]; simpl; [reflexivity |].
    destruct (negb (status =? api.http_StatusOK)%Z && negb (status =? api.http_StatusCreated)%Z);
      simpl; [reflexivity |].
    destruct body as [body | err]; simpl; [| reflexivity].
    now destruct (json_Decode_Rotation body).
  - unfold api.Ping. simpl.
    destruct (env_http env _ _ _) as [err | status body]; simpl; [reflexivity |].
    now destruct (negb (status =? api.http_StatusOK)%Z).
Qed.

(* ===================================================================== *)
(** ** The mob wrapper and the summary generator                          *)
(* ===================================================================== *)

Section Wrapper.
Context {L : GoLib} (env : Env).

Lemma GetDiffFromBase_loop_ok (mw : mob.Wrapper) (bases : list string) (w : World) :
  exec_err (env_exec env "git" ["diff"; "HEAD"]) = None \/
  exec_err (env_exec env "git" ["diff"]) = None ->
  exists d, value (run env (mob.GetDiffFromBase_loop mw bases) w) = Ok d.
Proof.
  intros Hdiff. induction bases as [| base rest IH].
  - unfold mob.GetDiffFromBase_loop, mob.GetDiffSinceLastCommit. simpl.
    destruct (exec_err (env_exec env "git" ["diff"; "HEAD"])) eqn:Hhead; simpl; [| eauto].
    destruct Hdiff as [Hdiff | Hdiff]; [discriminate |]. rewrite Hdiff. simpl. eauto.
  - cbn [mob.GetDiffFromBase_loop]. rewrite value_bind. simpl.
    set (mb := env_exec env "git" ["merge-base"; base; "HEAD"]).
    destruct (exec_err mb); [exact IH |].
    simpl.
    set (df := env_exec env "git" ["diff"; strings_TrimSpace (exec_stdout mb)]).
    destruct (exec_err df); [exact IH | simpl; eauto].
Qed.

Lemma GetDiffFromBase_loop_git (mw : mob.Wrapper) (bases : list string) (w : World) :
  runs_only "git" (events (run env (mob.GetDiffFromBase_loop mw bases) w)).
Proof.
  unfold runs_only. induction bases as [| base rest IH].
  - unfold mob.GetDiffFromBase_loop, mob.GetDiffSinceLastCommit. simpl.
    destruct (exec_err (env_exec env "git" ["diff"; "HEAD"])); simpl;
      [| repeat constructor].
    destruct (exec_err (env_exec env "git" ["diff"])); simpl; repeat constructor.
  - cbn [mob.GetDiffFromBase_loop]. rewrite events_bind. simpl.
    constructor; [reflexivity |].
    set (mb := env_exec env "git" ["merge-base"; base; "HEAD"]).
    destruct (exec_err mb); [exact IH |].
    simpl. constructor; [reflexivity |].
    set (df := env_exec env "git" ["diff"; strings_TrimSpace (exec_stdout mb)]).
    destruct (exec_err df); [exact IH | simpl; constructor].
Qed.

End Wrapper.

(** [GetDiffFromBase] gives a diff whenever a plain diff can be had: if
    git diff HEAD or git diff runs without error, it returns a diff
    without error, whatever the merge bases do.  It only runs git and
    leaves the files and the clock alone. *)
Theorem GetDiffFromBase_falls_back_to_plain_diff {L : GoLib} (env : Env)
    (mw : mob.Wrapper) (w : World) :
  exec_err (env_exec env "git" ["diff"; "HEAD"]) = None \/
  exec_err (env_exec env "git" ["diff"]) = None ->
  let r := run env (mob.GetDiffFromBase mw) w in
  (exists d, value r = Ok d) /\ final r = w /\ runs_only "git" (events r).
Proof.
  intros Hdiff r. subst r. unfold mob.GetDiffFromBase.
  split; [now apply GetDiffFromBase_loop_ok |].
  split; [| apply GetDiffFromBase_loop_git].
  apply never_change_world.
  change (never is_world_change (mob.GetDiffFromBase mw)). never_tac.
Qed.

Lemma GetDiffFromBase_falls_back_to_plain_diff_witness :
  let env := Demo.env EmptyString in
  exec_err (env_exec env "git" ["merge-base"; "origin/main"; "HEAD"]) <> None /\
  value (run env (mob.GetDiffFromBase (L := RefLib.lib) {| mob.mobPath := "/usr/bin/mob" |})
             Demo.empty_world) = Ok "diff --git a/x b/x".
Proof.
  intros env. split; [discriminate |].
  destruct (GetDiffFromBase_falls_back_to_plain_diff (L := RefLib.lib) env
              {| mob.mobPath := "/usr/bin/mob" |} Demo.empty_world)
    as ([d Hd] & _ & _); [left; reflexivity |].
  rewrite Hd. revert Hd. vm_compute. intros Hd. exact (eq_sym Hd).
Defined.

(** A branch that [IsMobBranch] does not take for a mob branch is its own
    base: when [IsMobBranch] returns false, [GetBaseBranch] returns the
    current branch as [GetCurrentBranch] does, nothing stripped. *)
Theorem GetBaseBranch_keeps_plain_branch {L : GoLib} (env : Env) (mw : mob.Wrapper)
    (w : World) :
  value (run env (mob.IsMobBranch mw) w) = Ok false ->
  value (run env (mob.GetBaseBranch mw) w) = value (run env (mob.GetCurrentBranch mw) w) /\
  exists branch, value (run env (mob.GetCurrentBranch mw) w) = Ok branch.
Proof.
  unfold mob.IsMobBranch, mob.GetBaseBranch, mob.GetCurrentBranch. simpl.
  destruct (exec_err (env_exec env "git" ["branch"; "--show-current"])); simpl;
    [discriminate |].
  intros Hplain. injection Hplain as Hplain.
  apply orb_false_iff in Hplain as [Hplain _].
  apply orb_false_iff in Hplain as [Hprefix Hsuffix].
  split; [| eauto].
  unfold TrimPrefix. rewrite Hprefix. unfold TrimSuffix. now rewrite Hsuffix.
Qed.

Lemma GetBaseBranch_keeps_plain_branch_witness :
  let mw := {| mob.mobPath := "/usr/bin/mob" |} in
  value (run (env_on_branch "main") (mob.IsMobBranch (L := RefLib.lib) mw) Demo.empty_world)
    = Ok false /\
  value (run (env_on_branch "main") (mob.GetBaseBranch (L := RefLib.lib) mw) Demo.empty_world)
    = Ok "main" /\
  value (run (env_on_branch "mob/feature-x-wip") (mob.GetBaseBranch (L := RefLib.lib) mw)
             Demo.empty_world)
    = Ok "feature-x".
Proof.
  intros mw.
  assert (Hplain : value (run (env_on_branch "main") (mob.IsMobBranch (L := RefLib.lib) mw)
                              Demo.empty_world) = Ok false) by (vm_compute; reflexivity).
  split; [exact Hplain |].
  destruct (GetBaseBranch_keeps_plain_branch (L := RefLib.lib) (env_on_branch "main") mw
              Demo.empty_world Hplain) as [Hbase _].
  split; [rewrite Hbase |]; vm_compute; reflexivity.
Defined.

Lemma Generate_never_fails {L : GoLib} (env : Env) (g : summary.Generator)
    (diff note branch : string) (w : World) :
  exists s : Summary,
    value (run env (summary.Generate g diff note branch) w) = Ok s /\
    sDriverNote s = note /\ sBranch s = branch.
Proof.
  unfold summary.Generate. cbv zeta. rewrite value_bind.
  destruct (value (run env (summary.callClaude g (summary.buildPrompt g diff note)) w))
    as [out | err].
  - destruct (summary.parseResponse g out) as [generated | err].
    + eexists. split; [reflexivity |]. simpl. auto.
    + rewrite value_bind. eexists. split; [reflexivity |].
      now rewrite fallbackSummary_value.
  - rewrite value_bind. eexists. split; [reflexivity |].
    now rewrite fallbackSummary_value.
Qed.

(** [Generate] only looks for the claude CLI, runs it at most once and
    reads the clock once: it writes and removes no file, sends no HTTP
    request, and the summary it returns carries the time read and an empty
    driver name (the caller fills it in). *)
Theorem Generate_runs_claude_and_reads_the_clock {L : GoLib} (env : Env)
    (g : summary.Generator) (diff note branch : string) (w : World) :
  let r := run env (summary.Generate g diff note branch) w in
  none is_file_change (events r) /\ none is_http (events r) /\
  final r = {| files := files w; ticks := S (ticks w) |} /\
  (forall s, value r = Ok s ->
     sTimestamp s = env_clock env (ticks w) /\ sDriverName s = EmptyString) /\
  (forall n a res, In (Ev (ExecRun n a) res) (events r) ->
     n = "claude" /\
     a = ["-p"; summary.buildPrompt g diff note; "--model"; summary.model g;
          "--max-turns"; itoa (summary.maxTurns g); "--output-format"; "text"]).
Proof.
  intros r. subst r.
  split; [apply never_events; never_tac |].
  split; [apply never_events; never_tac |].
  unfold summary.Generate, summary.callClaude, summary.fallbackSummary.
  set (prompt := summary.buildPrompt g diff note). simpl.
  destruct (env_lookpath env "claude") as [path | err]; simpl.
  - destruct (exec_err (env_exec env "claude" _)) as [err |] eqn:Hrun; simpl.
    + split; [reflexivity |]. split; [intros s [= <-]; now split |].
      intros n a res [H | [H | [H | []]]]; try discriminate H.
      injection H as <- <-. now split.
    + destruct (summary.parseResponse g _) as [gen | err]; simpl.
      * split; [reflexivity |]. split; [intros s [= <-]; now split |].
        intros n a res [H | [H | [H | []]]]; try discriminate H.
        injection H as <- <-. now split.
      * split; [reflexivity |]. split; [intros s [= <-]; now split |].
        intros n a res [H | [H | [H | []]]]; try discriminate H.
        injection H as <- <-. now split.
  - split; [reflexivity |]. split; [intros s [= <-]; now split |].
    intros n a res [H | [H | []]]; discriminate H.
Qed.

(* ===================================================================== *)
(** ** The commands                                                       *)
(* ===================================================================== *)

Section Commands.
Context {L : GoLib} (env : Env).

Lemma none_bind (P : forall X : Type, Eff X -> bool) {A B : Type}
    (p : Prog A) (f : A -> Prog B) (w : World) :
  none P (events (run env p w)) ->
  none P (events (run env (f (value (run env p w))) (final (run env p w)))) ->
  none P (events (run env (bind p f) w)).
Proof. intros Hp Hf. rewrite events_bind. now apply none_app. Qed.

Lemma value_getDriverName (w : World) :
  value (run env main.getDriverName w) =
    let git := env_exec env "git" ["config"; "--get"; "user.name"] in
    let name := match exec_err git with
                | Some _ => EmptyString
                | None => strings_TrimSpace (exec_stdout git)
                end in
    if negb (is_empty name) then name
    else match env_user env with
         | Ok username => username
         | Fail _ => "unknown"
         end.
Proof.
  unfold main.getDriverName, main.getGitConfigValue. simpl.
  destruct (exec_err (env_exec env "git" ["config"; "--get"; "user.name"])); simpl.
  - now destruct (env_user env).
  - destruct (is_empty (strings_TrimSpace _)); simpl; [| reflexivity].
    now destruct (env_user env).
Qed.

(** Without the mob tool a command stops right after the check. *)
Lemma run_without_mob (k : mob.Wrapper -> Prog Outcome) (w : World) :
  ~ mob_installed env ->
  run env (let* mobWrapper := mob.NewWrapper in
           let* err := mob.CheckMobInstalled mobWrapper in
           match err with
           | Some e => Ret (Returned (Some e))
           | None => k mobWrapper
           end) w
    = mkRun (Returned (Some mob_missing_error)) w
            [Ev (ExecLookPath "mob") (env_lookpath env "mob");
             Ev (ExecRun (mob_path env) ["version"])
                (env_exec env (mob_path env) ["version"])].
Proof.
  intros Hmob. unfold mob_installed in Hmob.
  rewrite run_bind, run_NewWrapper. cbv zeta. cbn [value final events].
  rewrite run_bind, run_CheckMobInstalled. cbv zeta. cbn [value final events].
  destruct (exec_err (env_exec env (mob_path env) ["version"])); [| contradiction].
  reflexivity.
Qed.

End Commands.

(** The driver name is never empty unless the system reports an empty
    user name: it is the trimmed git user.name when that is set, else the
    name of the current user, else "unknown". *)
Theorem getDriverName_not_empty {L : GoLib} (env : Env) (w : World) :
  env_user env <> Ok EmptyString ->
  value (run env main.getDriverName w) <> EmptyString /\
  final (run env main.getDriverName w) = w.
Proof.
  intros Huser. split; [| apply never_change_world; never_tac].
  rewrite value_getDriverName. cbv zeta.
  destruct (exec_err (env_exec env "git" ["config"; "--get"; "user.name"])).
  - cbn [is_empty negb]. destruct (env_user env) as [[| c u] | err];
      [congruence | discriminate | discriminate].
  - destruct (strings_TrimSpace _) as [| c name]; cbn [is_empty negb]; [| discriminate].
    destruct (env_user env) as [[| c u] | err]; [congruence | discriminate | discriminate].
Qed.

Lemma getDriverName_not_empty_witness :
  value (run (Demo.env EmptyString) (main.getDriverName (L := RefLib.lib)) Demo.empty_world)
    = "Ada" /\
  value (run (set_exec (Demo.env EmptyString) (fun _ _ => exec_fail "exit status 1"))
             (main.getDriverName (L := RefLib.lib)) Demo.empty_world) = "ada".
Proof.
  pose proof (getDriverName_not_empty (L := RefLib.lib) (Demo.env EmptyString)
                Demo.empty_world) as H.
  split; [| reflexivity].
  destruct H as [Hname _]; [discriminate |].
  revert Hname. vm_compute. reflexivity.
Defined.

(** With --help or -h anywhere among its arguments, [start] shows the
    help and does nothing else: the mob tool is neither looked for nor
    started, and nothing is read or written. *)
Theorem start_with_help_flag_only_shows_help {L : GoLib} (env : Env)
    (args : list string) (w : World) :
  In "--help" args \/ In "-h" args ->
  run env (main.runStart args) w = mkRun (Returned None) w [Ev CobraHelp None].
Proof.
  intros Hflag. unfold main.runStart.
  assert (existsb main.is_help_flag args = true) as ->.
  { apply existsb_exists. destruct Hflag as [H | H]; eexists; (split; [exact H |]);
      reflexivity. }
  reflexivity.
Qed.

Lemma start_with_help_flag_only_shows_help_witness :
  run (Demo.env EmptyString) (main.runStart (L := RefLib.lib) ["-i"; "--help"])
      Demo.empty_world
    = mkRun (Returned None) Demo.empty_world [Ev CobraHelp None].
Proof.
  apply (start_with_help_flag_only_shows_help (L := RefLib.lib)).
  left. right. left. reflexivity.
Defined.

(** Without the mob tool no command does anything: [start] (without a
    help flag), [next] and [done] all return the tool-missing error right
    after looking for the tool and running its version command, and the
    files and the clock are as before. *)
Theorem commands_need_the_mob_tool {L : GoLib} (env : Env) (args : list string)
    (skipSummary : bool) (message : string) (w : World) :
  ~ mob_installed env ->
  existsb main.is_help_flag args = false ->
  let stopped :=
    mkRun (Returned (Some mob_missing_error)) w
          [Ev (ExecLookPath "mob") (env_lookpath env "mob");
           Ev (ExecRun (mob_path env) ["version"])
              (env_exec env (mob_path env) ["version"])] in
  run env (main.runStart args) w = stopped /\
  run env (main.runNext skipSummary message args) w = stopped /\
  run env (main.runDone skipSummary message args) w = stopped /\
  exitCode (value stopped) = 1%Z.
Proof.
  intros Hmob Hhelp stopped. subst stopped.
  unfold main.runStart, main.runNext, main.runDone. rewrite Hhelp.
  repeat split; now apply (run_without_mob env).
Qed.

Lemma commands_need_the_mob_tool_witness :
  ~ mob_installed Demo.env_without_mob /\
  value (run Demo.env_without_mob (main.runStart (L := RefLib.lib) ["-i"]) Demo.empty_world)
    = Returned (Some mob_missing_error) /\
  value (run Demo.env_without_mob (main.runDone (L := RefLib.lib) false "bye" ["-i"])
             Demo.empty_world)
    = Returned (Some mob_missing_error).
Proof.
  assert (Hmob : ~ mob_installed Demo.env_without_mob)
    by (unfold mob_installed; vm_compute; discriminate).
  split; [exact Hmob |].
  destruct (commands_need_the_mob_tool (L := RefLib.lib) Demo.env_without_mob ["-i"]
              false "bye" Demo.empty_world Hmob eq_refl) as (Hstart & _ & Hdone & _).
  rewrite Hstart, Hdone. split; reflexivity.
Defined.

#[export] Hint Unfold main.runNext_handoff main.runDone_complete : model.

(** [never P p] when the dashboard is not configured: as [never_tac],
    with the test on the configuration decided by [H]. *)
Ltac never_with H :=
  repeat first
    [ exact I
    | progress rewrite H
    | match goal with
      | |- never _ (bind _ _) => apply never_bind; [| intros ?]
      | |- never _ (Vis _ _) => split; [reflexivity | intros ?]
      | |- never _ (match ?x with _ => _ end) => destruct x
      | |- never _ (if ?b then _ else _) => destruct b
      end
    | progress cbv beta iota zeta
    | progress autounfold with model
    | progress cbn [plans.EnsureDirs_loop mob.GetDiffFromBase_loop] ].

(** Without a team name no command talks to the dashboard: when the
    configuration the command works with (the loaded one, or the defaults)
    names no team or no URL, the trace of [start], of [next] and of [done]
    holds no HTTP request at all. *)
Theorem no_team_no_dashboard {L : GoLib} (env : Env) (args : list string)
    (skipSummary : bool) (message : string) (w : World) :
  main.api_configured (loaded_config env w) = false ->
  none is_http (events (run env (main.runStart args) w)) /\
  none is_http (events (run env (main.runNext skipSummary message args) w)) /\
  none is_http (events (run env (main.runDone skipSummary message args) w)).
Proof.
  intros Hcfg. unfold loaded_config in Hcfg. repeat split.
  - unfold main.runStart.
    destruct (existsb main.is_help_flag args); [apply never_events; never_tac |].
    apply none_bind; [none_tac |]. rewrite run_NewWrapper. cbn [value final].
    apply none_bind; [none_tac |]. rewrite run_CheckMobInstalled. cbn [value final].
    destruct (exec_err (env_exec env (mob_path env) ["version"]));
      [rewrite run_Ret; apply none_nil |].
    apply none_bind; [none_tac |]. rewrite Load_pure.
    destruct (value (run env config.Load w)) as [cfg | err] eqn:Hload;
      apply never_events; never_with Hcfg.
  - unfold main.runNext.
    apply none_bind; [none_tac |]. rewrite run_NewWrapper. cbn [value final].
    apply none_bind; [none_tac |]. rewrite run_CheckMobInstalled. cbn [value final].
    destruct (exec_err (env_exec env (mob_path env) ["version"]));
      [rewrite run_Ret; apply none_nil |].
    apply none_bind; [none_tac |]. rewrite LoadCurrentSession_pure.
    destruct (value (run env config.LoadCurrentSession w)) as [[s |] | err];
      [| rewrite run_Ret; apply none_nil | rewrite run_Ret; apply none_nil].
    apply none_bind; [none_tac |]. rewrite Load_pure. cbv zeta.
    generalize dependent (match value (run env config.Load w) with
                          | Ok cfg => cfg
                          | Fail _ => config.DefaultConfig
                          end).
    intros cfg Hcfg. apply never_events. never_with Hcfg.
  - unfold main.runDone.
    apply none_bind; [none_tac |]. rewrite run_NewWrapper. cbn [value final].
    apply none_bind; [none_tac |]. rewrite run_CheckMobInstalled. cbn [value final].
    destruct (exec_err (env_exec env (mob_path env) ["version"]));
      [rewrite run_Ret; apply none_nil |].
    apply none_bind; [none_tac |]. rewrite LoadCurrentSession_pure.
    destruct (value (run env config.LoadCurrentSession w)) as [so | err];
      [| rewrite run_Ret; apply none_nil].
    apply none_bind; [none_tac |]. rewrite Load_pure. cbv zeta.
    generalize dependent (match value (run env config.Load w) with
                          | Ok cfg => cfg
                          | Fail _ => config.DefaultConfig
                          end).
    intros cfg Hcfg. apply never_events. never_with Hcfg.
Qed.

Lemma no_team_no_dashboard_witness :
  let env := Demo.env "{}" in
  loaded_config (L := RefLib.lib) env Demo.started_world = config.DefaultConfig /\
  none is_http (events (run env (main.runStart (L := RefLib.lib) []) Demo.started_world)) /\
  none is_http (events (run env (main.runNext (L := RefLib.lib) false "wip" [])
                            Demo.started_world)).
Proof.
  intros env.
  pose proof (no_team_no_dashboard (L := RefLib.lib) env [] false "wip" Demo.started_world
                eq_refl) as (Hstart & Hnext & _).
  split; [reflexivity |]. split; [exact Hstart | exact Hnext].
Defined.

Section WithoutSummary.
Context {L : GoLib} (env : Env).

(** Clearing a session that is not there changes nothing. *)
Lemma ClearCurrentSession_absent (w : World) :
  session_absent env w -> final (run env config.ClearCurrentSession w) = w.
Proof.
  intros Habsent. destruct (session_absent_inv env w Habsent) as (cwd & Hwd & _ & Hfile).
  rewrite (run_ClearCurrentSession env w cwd Hwd). cbv zeta. cbn [final answer].
  destruct (env_remove_fault env (session_path cwd)); [reflexivity |].
  now rewrite Hfile.
Qed.

Lemma opening_events_quiet (w : World) :
  none is_http (opening_events env w) /\ none is_write (opening_events env w) /\
  none is_prompt (opening_events env w).
Proof.
  unfold opening_events, mob_path.
  destruct (env_lookpath env "mob") as [path | err]; repeat split; none_tac.
Qed.

End WithoutSummary.

(** [done] without a session only completes the mob session: with the mob
    tool installed and no session present, it loads the configuration,
    tries to remove the session file and runs mob done, whose result it
    returns.  No summary is made: no process is run with a prompt (as the
    claude CLI is), no file is written, no HTTP request is sent, and the
    files are as before. *)
Theorem done_without_session_only_completes {L : GoLib} (env : Env)
    (skipSummary : bool) (message : string) (args : list string) (w : World) :
  mob_installed env ->
  session_absent env w ->
  let r := run env (main.runDone skipSummary message args) w in
  let res := env_exec env (mob_path env) ("done" :: args) in
  value r = Returned (exec_err res) /\
  final r = w /\
  events r = (opening_events env w ++ events (run env config.Load w)
              ++ events (run env config.ClearCurrentSession w)
              ++ [Ev (FmtPrint completing_message) tt;
                  Ev (ExecRun (mob_path env) ("done" :: args)) res])%list /\
  none is_http (events r) /\ none is_write (events r) /\ none is_prompt (events r).
Proof.
  intros Hmob Habsent r res. subst r res.
  rewrite (run_runDone_loaded env w None skipSummary message args Hmob Habsent).
  cbv zeta. cbn [main.runDone_summary]. rewrite run_Ret. cbn [value final events].
  rewrite run_runDone_complete. cbv zeta. cbn [value final events mob.mobPath].
  rewrite ClearCurrentSession_absent by assumption.
  destruct (opening_events_quiet env w) as (H1 & H2 & H3).
  repeat split; cbn [app].
  all: repeat apply none_app; try assumption; try (apply never_events; never_tac).
  all: unfold mob_path; destruct (env_lookpath env "mob"); none_tac.
Qed.

Lemma done_without_session_only_completes_witness :
  let r := run (Demo.env EmptyString) (main.runDone (L := RefLib.lib) false "bye" [])
               Demo.empty_world in
  value r = Returned None /\ final r = Demo.empty_world /\ none is_prompt (events r).
Proof.
  intros r.
  destruct (done_without_session_only_completes (L := RefLib.lib) (Demo.env EmptyString)
              false "bye" [] Demo.empty_world) as (Hv & Hf & _ & _ & _ & Hc).
  - reflexivity.
  - reflexivity.
  - fold r in Hv, Hf, Hc. rewrite Hv, Hf. repeat split. exact Hc.
Defined.

(** [next] with the summary skipped and no message makes no summary at
    all: with the mob tool installed and a session present, when
    --skip-summary is given (or the configuration sets skipSummary) and
    the message is empty, no process is run with a prompt (as the claude
    CLI is), no file is written and no HTTP request is sent; the session
    is cleared and mob next is run, whose result is returned. *)
Theorem next_skipping_summary_without_message {L : GoLib} (env : Env)
    (s : CurrentSession) (skipSummary : bool) (args : list string) (w : World) :
  mob_installed env ->
  session_is env w s ->
  skipSummary = true \/ SkipSummary (loaded_config env w) = true ->
  let r := run env (main.runNext skipSummary EmptyString args) w in
  let res := env_exec env (mob_path env) ("next" :: args) in
  value r = Returned (exec_err res) /\
  final r = final (run env config.ClearCurrentSession w) /\
  none is_http (events r) /\ none is_write (events r) /\ none is_prompt (events r).
Proof.
  intros Hmob Hs Hskip r res. subst r res.
  destruct (session_is_inv env w s Hs) as (cwd & Hwd & _).
  rewrite (run_runNext_with_session env w s cwd skipSummary EmptyString args Hmob Hs Hwd).
  cbv zeta.
  assert (Hsummary : run env (main.runNext_summary {| mob.mobPath := mob_path env |}
                                (loaded_config env w) s skipSummary EmptyString) w
                     = mkRun None w []).
  { unfold main.runNext_summary.
    assert (negb skipSummary && negb (SkipSummary (loaded_config env w)) = false) as ->
      by (destruct Hskip as [-> | ->]; [reflexivity | apply andb_false_r]).
    reflexivity. }
  rewrite Hsummary. cbn [value final events].
  assert (Hrecord : run env (main.runNext_record {| plans.projectRoot := cwd |}
                               (loaded_config env w) s EmptyString None) w
                    = mkRun tt w []) by reflexivity.
  rewrite Hrecord. cbn [value final events].
  rewrite run_runNext_handoff. cbv zeta. cbn [value final events mob.mobPath].
  destruct (opening_events_quiet env w) as (H1 & H2 & H3).
  repeat split; cbn [app].
  all: repeat apply none_app; try assumption; try (apply never_events; never_tac).
  all: try (destruct (value (run env config.ClearCurrentSession w)); cbn [warning]; none_tac).
  all: unfold mob_path; destruct (env_lookpath env "mob"); none_tac.
Qed.

Lemma next_skipping_summary_without_message_witness :
  let r := run (Demo.env EmptyString) (main.runNext (L := RefLib.lib) true EmptyString [])
               Demo.started_world in
  session_is (L := RefLib.lib) (Demo.env EmptyString) Demo.started_world Demo.session /\
  value r = Returned None /\ files (final r) = ∅ /\ none is_write (events r).
Proof.
  intros r.
  assert (Hs : session_is (L := RefLib.lib) (Demo.env EmptyString) Demo.started_world
                 Demo.session) by (vm_compute; reflexivity).
  destruct (next_skipping_summary_without_message (L := RefLib.lib) (Demo.env EmptyString)
              Demo.session true [] Demo.started_world) as (Hv & Hf & _ & Hw & _).
  - reflexivity.
  - exact Hs.
  - now left.
  - fold r in Hv, Hf, Hw. rewrite Hv, Hf.
    split; [exact Hs |]. split; [reflexivity |]. split; [| exact Hw].
    apply delete_singleton_eq.
Defined.

Section StartSteps.
Context {L : GoLib} (env : Env).

Lemma run_Println (s : string) (w : World) :
  run env (Println s) w = mkRun tt w [Ev (FmtPrint (s ++ nl)) tt].
Proof. reflexivity. Qed.

Lemma run_Start (args : list string) (w : World) :
  run env (mob.Start {| mob.mobPath := mob_path env |} EmptyString args) w =
    mkRun (exec_err (env_exec env (mob_path env) ("start" :: args))) w
          [Ev (ExecRun (mob_path env) ("start" :: args))
              (env_exec env (mob_path env) ("start" :: args))].
Proof. reflexivity. Qed.

Lemma run_GetCurrentBranch (mw : mob.Wrapper) (w : World) :
  run env (mob.GetCurrentBranch mw) w =
    let git := env_exec env "git" ["branch"; "--show-current"] in
    mkRun (match exec_err git with
           | Some err => Fail (Errorf "failed to get current branch: " err)
           | None => Ok (strings_TrimSpace (exec_stdout git))
           end) w
          [Ev (ExecRun "git" ["branch"; "--show-current"]) git].
Proof.
  unfold mob.GetCurrentBranch. simpl.
  now destruct (exec_err (env_exec env "git" ["branch"; "--show-current"])).
Qed.

Lemma GetBaseBranch_pure (mw : mob.Wrapper) (w : World) :
  final (run env (mob.GetBaseBranch mw) w) = w.
Proof. apply never_change_world. never_tac. Qed.

Lemma GetRepoURL_pure (mw : mob.Wrapper) (w : World) :
  final (run env (mob.GetRepoURL mw) w) = w.
Proof. apply never_change_world. never_tac. Qed.

(** When everything before it works, [runStart] ends with what it does
    with the configuration: a panic when there is none, the plan
    reconciliation and the session step otherwise. *)
Lemma value_final_runStart (args : list string) (cwd : string) (w : World) :
  start_ready env args cwd ->
  let planMgr := {| plans.projectRoot := cwd |} in
  let tail :=
    match value (run env config.Load w) with
    | Fail _ => Ret Panicked
    | Ok cfg =>
        do main.runStart_reconcile cfg planMgr (start_base env w) in
        main.runStart_session cfg (start_branch env) (start_base env w) (start_repo env w)
    end in
  value (run env (main.runStart args) w) = value (run env tail w) /\
  final (run env (main.runStart args) w) = final (run env tail w).
Proof.
  intros (Hhelp & Hmob & Hwd & Hstart & Hbranch). cbv zeta.
  unfold main.runStart, start_base, start_repo, start_branch. rewrite Hhelp.
  rewrite run_bind, run_NewWrapper. cbv zeta. cbn [value final events].
  rewrite run_bind, run_CheckMobInstalled. cbv zeta. cbn [value final events].
  rewrite Hmob.
  rewrite run_bind. cbv zeta. rewrite Load_pure. cbn [value final events].
  rewrite run_bind. cbv zeta. cbn [value final events].
  assert (Hwarn : forall c : result Config,
             final (run env (match c with
                             | Fail err =>
                                 Printf ("Warning: could not load config: "
                                         ++ Error err ++ nl)
                             | Ok _ => Ret tt
                             end) w) = w) by (now intros [c | err]).
  rewrite Hwarn.
  rewrite run_bind. cbv zeta. rewrite NewManager_pure, (value_NewManager env w cwd Hwd).
  cbv beta iota. cbn [value final events].
  rewrite run_bind, run_Println. cbv zeta. cbn [value final events].
  rewrite run_bind, run_Start. cbv zeta. cbn [value final events]. rewrite Hstart.
  rewrite run_bind, run_GetCurrentBranch. cbv zeta. cbn [value final events].
  rewrite Hbranch.
  rewrite run_bind. cbv zeta. rewrite GetBaseBranch_pure. cbn [value final events].
  rewrite run_bind. cbv zeta. rewrite GetRepoURL_pure. cbn [value final events].
  destruct (value (run env config.Load w)) as [cfg | err]; now split.
Qed.

End StartSteps.

(** When the configuration file cannot be read or decoded, [start] does
    not stop at its warning: it runs mob start and then panics on the
    configuration it does not have.  With the mob tool installed, the
    working directory known, mob start and git branch working, and [Load]
    returning an error, the command ends in a panic (exit status 2), after
    mob start was run and with the files as they were. *)
Theorem start_panics_without_configuration {L : GoLib} (env : Env)
    (args : list string) (cwd : string) (err : error) (w : World) :
  start_ready env args cwd ->
  value (run env config.Load w) = Fail err ->
  let r := run env (main.runStart args) w in
  value r = Panicked /\ exitCode (value r) = 2%Z /\ final r = w.
Proof.
  intros Hready Hload r. subst r.
  destruct (value_final_runStart env args cwd w Hready) as [Hv Hf].
  rewrite Hload in Hv, Hf. rewrite Hv, Hf. now repeat split.
Qed.

Lemma start_panics_without_configuration_witness :
  let w := {| files := {[ config_path Demo.cwd := "not json" ]}; ticks := 0 |} in
  let r := run (Demo.env EmptyString) (main.runStart (L := RefLib.lib) []) w in
  value r = Panicked /\
  ran "/usr/bin/mob" ["start"] (events r) = true /\
  printed ("Warning: could not load config: invalid character or unexpected end of JSON input"
           ++ nl) (events r) = true.
Proof.
  intros w r.
  destruct (start_panics_without_configuration (L := RefLib.lib) (Demo.env EmptyString) []
              Demo.cwd (ErrMsg "invalid character or unexpected end of JSON input") w)
    as (Hv & _ & _).
  - repeat split.
  - vm_compute. reflexivity.
  - fold r in Hv. split; [exact Hv |]. split; vm_compute; reflexivity.
Defined.

Section StartThenNext.
Context {L : GoLib} (env : Env).

Lemma newSession_fields (cfg : Config) (baseBranch repoURL : string) (w : World) :
  let s := snd (value (run env (main.runStart_newSession cfg baseBranch repoURL) w)) in
  Branch s = baseBranch /\ RepoURL s = repoURL /\
  DriverName s = value (run env main.getDriverName w).
Proof.
  cbv zeta. unfold main.runStart_newSession.
  rewrite value_bind. set (name := value (run env main.getDriverName w)).
  rewrite value_bind, run_TimeNow. cbn [value final].
  destruct (main.api_configured cfg); [| now rewrite run_Ret].
  rewrite value_bind.
  destruct (value (run env (api.CreateWorkstream _ repoURL baseBranch) _)) as [ws | err];
    rewrite value_bind, run_print; cbn [value final]; now rewrite run_Ret.
Qed.

Lemma SaveCurrentSession_saves (s : CurrentSession) (cwd : string) (w : World) :
  env_getwd env = Ok cwd ->
  session_file_ok env cwd s ->
  session_is env (final (run env (config.SaveCurrentSession s) w)) s.
Proof.
  intros Hwd (Hmk & Hwr & Hrd & data & Hdata & Hback).
  assert (Hfinal : final (run env (config.SaveCurrentSession s) w)
                   = {| files := <[session_path cwd := data]> (files w); ticks := ticks w |}).
  { unfold config.SaveCurrentSession, config.EnsureConfigDir, config.GetConfigDir.
    unfold session_path in *. simpl. rewrite Hwd. simpl. rewrite Hmk. simpl.
    rewrite Hdata. simpl. now rewrite Hwr. }
  unfold session_is. rewrite Hfinal, value_LoadCurrentSession, Hwd, Hrd. cbn [files].
  now rewrite lookup_insert_eq, Hback.
Qed.

End StartThenNext.

(** [next] finds the session [start] recorded.  When [start] gets as far
    as its session step (mob tool installed, working directory known, mob
    start and git branch working, configuration loaded) and the session
    file can be made, written and read back, then [start] returns nil and
    leaves the session it built as the current session, for the base
    branch and the repository it settled on; and [next] run on the files
    [start] left goes through to the hand-off: its result is the result
    of mob next. *)
Theorem next_finds_the_session_of_start {L : GoLib} (env : Env) (args : list string)
    (cwd : string) (cfg : Config) (w : World) :
  start_ready env args cwd ->
  value (run env config.Load w) = Ok cfg ->
  session_file_ok env cwd (started_session env cfg cwd w) ->
  let started := run env (main.runStart args) w in
  value started = Returned None /\
  session_is env (final started) (started_session env cfg cwd w) /\
  Branch (started_session env cfg cwd w) = start_base env w /\
  RepoURL (started_session env cfg cwd w) = start_repo env w /\
  (forall skipSummary message args',
     value (run env (main.runNext skipSummary message args') (final started))
       = Returned (exec_err (env_exec env (mob_path env) ("next" :: args')))).
Proof.
  intros Hready Hload Hfile started. subst started.
  destruct (value_final_runStart env args cwd w Hready) as [Hv Hf].
  rewrite Hload in Hv, Hf.
  destruct Hready as (_ & Hmob & Hwd & _ & _).
  unfold started_session in *.
  set (w1 := final (run env (main.runStart_reconcile cfg {| plans.projectRoot := cwd |}
                              (start_base env w)) w)) in *.
  set (ns := run env (main.runStart_newSession cfg (start_base env w) (start_repo env w)) w1)
    in *.
  assert (Hvalue : value (run env (main.runStart args) w) = Returned None).
  { rewrite Hv, value_bind. unfold main.runStart_session.
    rewrite value_bind, run_runStart_saveSession. reflexivity. }
  assert (Hfinal : final (run env (main.runStart args) w)
                   = final (run env (config.SaveCurrentSession (snd (value ns))) (final ns))).
  { rewrite Hf, final_bind. unfold main.runStart_session.
    rewrite final_bind, run_runStart_saveSession. reflexivity. }
  assert (Hsession : session_is env (final (run env (main.runStart args) w))
                       (snd (value ns))).
  { rewrite Hfinal. now apply SaveCurrentSession_saves with (cwd := cwd). }
  destruct (newSession_fields env cfg (start_base env w) (start_repo env w) w1)
    as (Hb & Hr & _).
  split; [exact Hvalue |]. split; [exact Hsession |].
  split; [exact Hb |]. split; [exact Hr |].
  intros skipSummary message args'.
  rewrite (run_runNext_with_session env _ (snd (value ns)) cwd skipSummary message args'
             Hmob Hsession Hwd).
  cbv zeta. cbn [value]. rewrite run_runNext_handoff. reflexivity.
Qed.

Lemma next_finds_the_session_of_start_witness :
  let env := Demo.env "{}" in
  let started := run env (main.runStart (L := RefLib.lib) []) Demo.empty_world in
  let s := {| Branch := "feature-x"; RepoURL := "git@example.com:team/repo.git";
              StartedAt := "2024-10-31T06:00:01Z"; DriverName := "Ada";
              WorkstreamID := EmptyString |} in
  value started = Returned None /\
  session_is (L := RefLib.lib) env (final started) s /\
  value (run env (main.runNext (L := RefLib.lib) true EmptyString []) (final started))
    = Returned None.
Proof.
  intros env started s.
  assert (Hs : started_session (L := RefLib.lib) env config.DefaultConfig Demo.cwd
                 Demo.empty_world = s) by (vm_compute; reflexivity).
  destruct (next_finds_the_session_of_start (L := RefLib.lib) env [] Demo.cwd
              config.DefaultConfig Demo.empty_world) as (Hv & Hsession & _ & _ & Hn).
  - repeat split.
  - reflexivity.
  - rewrite Hs. repeat split. eexists. split; [reflexivity |]. vm_compute. reflexivity.
  - fold started in Hv, Hsession, Hn. rewrite Hs in Hsession.
    split; [exact Hv |]. split; [exact Hsession |].
    rewrite Hn. reflexivity.
Defined.

(* ===================================================================== *)
(** ** config set                                                         *)
(* ===================================================================== *)

(** [config set] either rejects the key and writes nothing, or saves a
    configuration that [Load] then returns.  The configuration it starts
    from is the loaded one, or the defaults when loading fails.  When the
    key is not one of the five (or maxTurns is given no integer) the
    command returns the error right after loading and the files are as
    before.  Otherwise, when the command returns nil, loading the
    configuration afterwards gives the configuration with the key set and
    the defaults filled in (provided the decoder reads what the encoder
    wrote): setting model or apiUrl to the empty string, or maxTurns to 0,
    gives back the default. *)
Theorem config_set_then_load {L : GoLib} {F : GoFmt} (env : Env) (key value_ : string)
    (cwd : string) (w : World) :
  env_getwd env = Ok cwd ->
  env_read_fault env (config_path cwd) = None ->
  let r := run env (main.runConfigSet key value_) w in
  match main.runConfigSet_switch (loaded_config env w) key value_ with
  | Fail err => r = mkRun (Returned (Some err)) w (events (run env config.Load w))
  | Ok cfg =>
      (forall data, json_MarshalIndent_Config cfg = Ok data ->
                    json_Unmarshal_Config data = Ok cfg) ->
      value r = Returned None ->
      value (run env config.Load (final r)) = Ok (with_defaults cfg)
  end.
Proof.
  intros Hwd Hread r. subst r. unfold main.runConfigSet, loaded_config.
  rewrite run_bind. cbv zeta. rewrite Load_pure.
  destruct (main.runConfigSet_switch _ key value_) as [cfg | err].
  - intros Hcodec. cbn [value final].
    rewrite run_bind. cbv zeta. cbn [value final].
    destruct (value (run env (config.Save cfg) w)) as [e |] eqn:Hsaved;
      [rewrite run_Ret; discriminate |].
    rewrite run_bind, run_print. cbv zeta. cbn [value final]. intros _.
    destruct (run_Save env cfg w Hsaved) as (cwd' & data & Hwd' & Hdata & ->).
    assert (cwd' = cwd) as -> by congruence.
    rewrite run_Ret. cbn [final].
    rewrite value_Load, Hwd, Hread. cbn [files].
    now rewrite lookup_insert_eq, (Hcodec data Hdata).
  - rewrite run_Ret. cbn [value final events]. now rewrite app_nil_r.
Qed.

Lemma config_set_then_load_witness :
  let env := Demo.env EmptyString in
  let set k v := run env (main.runConfigSet (L := RefLib.lib) (F := RefLib.fmt) k v)
                     Demo.empty_world in
  value (set "colour" "blue")
    = Returned (Some (ErrMsg ("unknown config key: colour" ++ nl
        ++ "Available keys: apiUrl, teamName, model, maxTurns, skipSummary"))) /\
  final (set "colour" "blue") = Demo.empty_world /\
  value (run env (config.Load (L := RefLib.lib)) (final (set "maxTurns" "0")))
    = Ok config.DefaultConfig /\
  value (run env (config.Load (L := RefLib.lib)) (final (set "teamName" "crew")))
    = Ok {| APIURL := "http://localhost:3000"; TeamName := "crew"; Model := "haiku";
            MaxTurns := 3; SkipSummary := false |}.
Proof.
  intros env set.
  pose proof (config_set_then_load (L := RefLib.lib) (F := RefLib.fmt) env
                "colour" "blue" Demo.cwd Demo.empty_world eq_refl eq_refl) as Hbad.
  pose proof (config_set_then_load (L := RefLib.lib) (F := RefLib.fmt) env
                "teamName" "crew" Demo.cwd Demo.empty_world eq_refl eq_refl) as Hteam.
  cbv zeta in Hbad, Hteam.
  change (loaded_config env Demo.empty_world) with config.DefaultConfig in *.
  cbn [main.runConfigSet_switch String.eqb Ascii.eqb Bool.eqb] in Hbad, Hteam.
  split; [subst set; cbv beta; now rewrite Hbad |].
  split; [subst set; cbv beta; now rewrite Hbad |].
  split.
  - subst set. cbv beta. vm_compute. reflexivity.
  - subst set. cbv beta. rewrite Hteam; [reflexivity | |].
    + intros data Hdata. injection Hdata as <-. vm_compute. reflexivity.
    + vm_compute. reflexivity.
Defined.

(* ===================================================================== *)
(** ** next and the plan on the dashboard                                 *)
(* ===================================================================== *)

Section NextPlan.
Context {L : GoLib} (env : Env).

Lemma final_record_summary (planMgr : plans.Manager) (s : Summary) (w : World) :
  final (run env (let* err := plans.SaveSummary planMgr s in
                  match err with
                  | Some e => Printf ("Warning: could not save summary: " ++ Error e ++ nl)
                  | None => Ret tt
                  end) w)
    = final (run env (plans.SaveSummary planMgr s) w).
Proof.
  rewrite final_bind. now destruct (value (run env (plans.SaveSummary planMgr s) w)).
Qed.

Lemma CreateRotation_pure (c : api.Client) (branch : string)
    (rotation : CreateRotationRequest) (w : World) :
  final (run env (api.CreateRotation c branch rotation) w) = w.
Proof. apply never_change_world. never_tac. Qed.

Lemma events_UpdatePlan (c : api.Client) (branch planText payload : string) (w : World) :
  json_Marshal_UpdatePlanRequest {| upPlanText := planText |} = Ok payload ->
  events (run env (api.UpdatePlan c branch planText) w)
    = [Ev (HttpDo "PUT" (plan_endpoint c branch) payload)
          (env_http env "PUT" (plan_endpoint c branch) payload)].
Proof.
  intros Hmarshal. unfold api.UpdatePlan. cbv zeta.
  fold (plan_endpoint c branch). rewrite Hmarshal, events_bind, run_HttpDo.
  cbn [value final events].
  destruct (env_http env "PUT" (plan_endpoint c branch) payload) as [err | status body];
    [reflexivity |].
  now destruct (negb (status =? api.http_StatusOK)%Z).
Qed.

End NextPlan.

(** [next] pushes the local plan to the dashboard.  With the dashboard
    configured and a summary at hand, the recording step of [next] reads
    the local plan after the summary is saved, posts the rotation, and
    then, when the plan is not empty and the request can be encoded, sends
    the plan text in a PUT to the plan endpoint of the branch, whatever
    the outcome of the rotation upload.  When the local plan is empty it
    sends no PUT. *)
Theorem next_pushes_the_local_plan {L : GoLib} (env : Env) (planMgr : plans.Manager)
    (cfg : Config) (session : CurrentSession) (message : string) (s : Summary) (w : World) :
  main.api_configured cfg = true ->
  let saved := final (run env (plans.SaveSummary planMgr s) w) in
  let planText := local_plan env planMgr (Branch session) saved in
  let r := run env (main.runNext_record planMgr cfg session message (Some s)) w in
  (forall payload,
     planText <> EmptyString ->
     json_Marshal_UpdatePlanRequest {| upPlanText := planText |} = Ok payload ->
     In (Ev (HttpDo "PUT" (plan_endpoint (client_of cfg) (Branch session)) payload)
            (env_http env "PUT" (plan_endpoint (client_of cfg) (Branch session)) payload))
        (events r)) /\
  (planText = EmptyString -> none (is_method "PUT") (events r)) /\
  final r = saved.
Proof.
  intros Hcfg saved planText r. subst saved planText r.
  unfold main.runNext_record. rewrite Hcfg.
  rewrite run_bind. cbv zeta. rewrite final_record_summary.
  set (w1 := final (run env (plans.SaveSummary planMgr s) w)).
  cbn [value final events].
  assert (Hevs : none (is_method "PUT")
                   (events (run env (let* err := plans.SaveSummary planMgr s in
                                     match err with
                                     | Some e =>
                                         Printf ("Warning: could not save summary: "
                                                 ++ Error e ++ nl)
                                     | None => Ret tt
                                     end) w)))
    by (apply never_events; never_tac).
  revert Hevs.
  generalize (events (run env (let* err := plans.SaveSummary planMgr s in
                               match err with
                               | Some e => Printf ("Warning: could not save summary: "
                                                   ++ Error e ++ nl)
                               | None => Ret tt
                               end) w)).
  intros evs Hevs.
  rewrite run_bind, run_LoadPlan. cbv zeta. cbn [value final events].
  fold (local_plan env planMgr (Branch session) w1).
  set (planText := local_plan env planMgr (Branch session) w1).
  assert (Hload : none (is_method "PUT")
                    (events (run env (plans.LoadPlan planMgr (Branch session)) w1)))
    by (apply never_events; never_tac).
  revert Hload.
  generalize (events (run env (plans.LoadPlan planMgr (Branch session)) w1)).
  intros evs_load Hload.
  rewrite run_bind. cbv zeta. rewrite CreateRotation_pure. cbn [value final events].
  assert (Hrot : none (is_method "PUT")
                   (events (run env (api.CreateRotation
                                       (api.NewClient (APIURL cfg) (TeamName cfg))
                                       (Branch session)
                                       (main.rotationRequest session message s planText))
                                w1))).
  { apply never_events. unfold api.CreateRotation.
    destruct (json_Marshal_CreateRotationRequest _); [| exact I]. never_tac. }
  revert Hrot.
  generalize (run env (api.CreateRotation (api.NewClient (APIURL cfg) (TeamName cfg))
                         (Branch session)
                         (main.rotationRequest session message s planText)) w1).
  intros rot Hrot.
  rewrite run_bind. cbv zeta.
  set (report := match value rot with
                 | Ok _ => Println "Rotation recorded in dashboard"
                 | Fail err => Printf ("Warning: could not upload rotation: "
                                       ++ Error err ++ nl)
                 end).
  assert (Hreport : exists text, run env report w1 = mkRun tt w1 [Ev (FmtPrint text) tt])
    by (subst report; destruct (value rot); eexists; reflexivity).
  destruct Hreport as [text ->]. cbn [value final events].
  repeat split.
  - intros payload Hplan Hmarshal.
    destruct planText as [| c t] eqn:Hp; [contradiction |]. cbn [is_empty negb].
    rewrite run_bind. cbv zeta. cbn [events].
    rewrite (events_UpdatePlan env _ _ _ payload w1 Hmarshal).
    rewrite !in_app_iff. do 4 right. left. now left.
  - intros Hplan. rewrite Hplan. cbn [is_empty negb]. rewrite run_Ret. cbn [events].
    repeat apply none_app; try assumption; none_tac.
  - destruct (negb (is_empty planText)); [| now rewrite run_Ret].
    rewrite final_bind.
    assert (Hpure : forall t, final (run env (api.UpdatePlan
                       (api.NewClient (APIURL cfg) (TeamName cfg)) (Branch session) t) w1)
                              = w1) by (intros t; apply never_change_world; never_tac).
    rewrite Hpure. now destruct (value (run env (api.UpdatePlan _ _ _) w1)).
Qed.

Lemma next_pushes_the_local_plan_witness :
  let env := Demo.env_with_dashboard "{}" in
  let s := {| sTimestamp := 1730354400000000000%Z; sDriverName := "Ada";
              sDriverNote := "wip"; sTLDR := "wip"; sChanges := []; sNextSteps := [];
              sBranch := "feature-x" |} in
  let payload := "{" ++ str quote ++ "planText" ++ str quote ++ ":"
                 ++ str quote ++ "# Plan" ++ str quote ++ "}" in
  let r := run env (main.runNext_record (L := RefLib.lib) Demo.manager Demo.team_config
                      Demo.session "wip" (Some s)) (Demo.world_with_plan "# Plan") in
  In (Ev (HttpDo "PUT" "http://localhost:3000/api/teams/team/workstreams/feature-x/plan"
                 payload)
         (HttpResp 200 (Ok "{}")))
     (events r).
Proof.
  intros env s payload r.
  destruct (next_pushes_the_local_plan (L := RefLib.lib) env Demo.manager Demo.team_config
              Demo.session "wip" s (Demo.world_with_plan "# Plan") eq_refl)
    as (Hput & _ & _).
  apply (Hput payload).
  - vm_compute. discriminate.
  - vm_compute. reflexivity.
Defined.

(** The summary of [next] is always the session's: the summary step of
    [next] yields no summary exactly when the summary is skipped and the
    message is empty; otherwise it yields one, and that summary names the
    driver and the branch of the session and has the message as its
    driver note.  When the summary is skipped and a message is given, the
    message is the tldr as well, and changes and nextSteps are empty. *)
Theorem next_summary_is_the_sessions {L : GoLib} (env : Env) (mw : mob.Wrapper)
    (cfg : Config) (session : CurrentSession) (skipSummary : bool) (message : string)
    (w : World) :
  let skipped := skipSummary || SkipSummary cfg in
  let r := run env (main.runNext_summary mw cfg session skipSummary message) w in
  (value r = None <-> skipped = true /\ message = EmptyString) /\
  (forall s, value r = Some s ->
     sDriverName s = DriverName session /\ sBranch s = Branch session /\
     sDriverNote s = message /\
     (skipped = true ->
      sTLDR s = message /\ sChanges s = [] /\ sNextSteps s = [] /\
      sTimestamp s = env_clock env (ticks w))) /\
  none is_file_change (events r) /\ none is_http (events r).
Proof.
  cbv zeta.
  split; [| split; [| split; apply never_events; never_tac]].
  - unfold main.runNext_summary.
    destruct skipSummary, (SkipSummary cfg); cbn [negb andb orb].
    1-3: destruct message as [| c m]; cbn [is_empty negb];
      [rewrite run_Ret; cbn [value]; now split
      | rewrite value_bind, run_TimeNow; cbn [value];
        split; [discriminate | now intros [_ H]]].
    rewrite value_bind, run_Println. cbn [value final].
    rewrite value_bind.
    set (w1 := final (run env (mob.GetDiffFromBase mw) w)).
    rewrite value_bind.
    set (d := value (run env _ w1)). set (w2 := final (run env _ w1)).
    destruct (Generate_never_fails env (summary.NewGenerator (Model cfg) (MaxTurns cfg))
                d message (Branch session) w2) as (s & Hs & _).
    rewrite value_bind, Hs, value_bind, run_print. cbn [value].
    split; [discriminate | now intros [H _]].
  - intros s. unfold main.runNext_summary.
    destruct skipSummary, (SkipSummary cfg); cbn [negb andb orb].
    1-3: destruct message as [| c m]; cbn [is_empty negb];
      [rewrite run_Ret; discriminate
      | rewrite value_bind, run_TimeNow; cbn [value]; intros [= <-]; now repeat split].
    rewrite value_bind, run_Println. cbn [value final].
    rewrite value_bind.
    set (w1 := final (run env (mob.GetDiffFromBase mw) w)).
    rewrite value_bind.
    set (d := value (run env _ w1)). set (w2 := final (run env _ w1)).
    destruct (Generate_never_fails env (summary.NewGenerator (Model cfg) (MaxTurns cfg))
                d message (Branch session) w2) as (s' & Hs & Hnote & Hbranch).
    rewrite value_bind, Hs, value_bind, run_print. cbn [value]. intros [= <-].
    cbn [sDriverName sBranch sDriverNote].
    split; [reflexivity |]. split; [assumption |]. split; [assumption |]. discriminate.
Qed.
